(** * Osmium file handles and the streaming XML writer

    A shallow embedding of [include/osmium/io/file.hpp] (class [OSMFile]) and
    [include/osmium/io/xml_output.hpp] (class [XMLOutput]).

    - C++ exceptions are the [Throw] results of a small state-and-exception
      monad; member variables are record fields that the monad threads.
    - System calls and libxml2 text-writer calls are recorded in logs, and the
      answers of the operating system and of libxml2 are arguments of the
      operations that ask for them.
    - [std::string] is [string], [size_t] is [N] with its wrap-around at
      [2^64] written out, [int], [pid_t] and the object fields are [Z]. *)

From Stdlib Require Import ZArith NArith List String Ascii Bool Lia.
Import ListNotations.

Local Open Scope string_scope.

(** ** Exceptions and the state-and-exception monad *)

(** The exception classes of the two headers, and [std::out_of_range] of
    [std::string::substr].  The [errno] payloads are not modelled. *)
Inductive exn : Type :=
| OutOfRange
| SystemError (whatarg : string)
| IOError (whatarg filename : string)
| ArgumentError (whatarg value : string)
| XMLWriteError.

Inductive result (A : Type) : Type :=
| Ok (a : A)
| Throw (e : exn).
Arguments Ok {A} a.
Arguments Throw {A} e.

(** A member function over object state [S] returning [A]: the state that
    was reached is kept when an exception leaves the function. *)
Definition M (S A : Type) : Type := S -> result A * S.

Definition ret {S A} (a : A) : M S A := fun s => (Ok a, s).

Definition throw {S A} (e : exn) : M S A := fun s => (Throw e, s).

Definition bind {S A B} (m : M S A) (k : A -> M S B) : M S B :=
  fun s => match m s with
           | (Ok a, s') => k a s'
           | (Throw e, s') => (Throw e, s')
           end.

Definition get {S} : M S S := fun s => (Ok s, s).

Definition modify {S} (f : S -> S) : M S unit := fun s => (Ok tt, f s).

Definition when {S} (b : bool) (m : M S unit) : M S unit :=
  if b then m else ret tt.

(** [try { m } catch (...) { }] *)
Definition try_ignore {S} (m : M S unit) : M S unit :=
  fun s => (Ok tt, snd (m s)).

Declare Scope monad_scope.
Delimit Scope monad_scope with monad.
Notation "x <- m ;; k" := (bind m (fun x => k))
  (at level 61, m at next level, right associativity) : monad_scope.
Notation "m ;; k" := (bind m (fun _ => k))
  (at level 61, right associativity) : monad_scope.
Local Open Scope monad_scope.

(** A loop [for (auto& x : xs) body(x);] *)
Fixpoint for_each {S A} (body : A -> M S unit) (xs : list A) : M S unit :=
  match xs with
  | [] => ret tt
  | x :: xs' => body x ;; for_each body xs'
  end.

(** ** The parts of [std::string] that the file handle uses *)

Module StdString.

(** [std::string::npos], the largest [size_t]. *)
Definition npos : N := 2 ^ 64 - 1.

(** Addition on [size_t]. *)
Definition size_t_add (a b : N) : N := ((a + b) mod 2 ^ 64)%N.

Definition size (s : string) : N := N.of_nat (String.length s).

(** Scan of [s], whose first character has index [i], for the first [c]
    at an index not below [pos]. *)
Fixpoint find_first_at (c : ascii) (pos i : N) (s : string) : N :=
  match s with
  | EmptyString => npos
  | String a s' =>
      if (pos <=? i)%N && Ascii.eqb a c then i
      else find_first_at c pos (i + 1)%N s'
  end.

(** [s.find_first_of(c, pos)] *)
Definition find_first_of (s : string) (c : ascii) (pos : N) : N :=
  find_first_at c pos 0%N s.

(** Scan of [s], whose first character has index [i]; [acc] is the last
    index of [c] seen so far. *)
Fixpoint find_last_at (c : ascii) (i acc : N) (s : string) : N :=
  match s with
  | EmptyString => acc
  | String a s' =>
      find_last_at c (i + 1)%N (if Ascii.eqb a c then i else acc) s'
  end.

(** [s.find_last_of(c)] *)
Definition find_last_of (s : string) (c : ascii) : N :=
  find_last_at c 0%N npos s.

(** [s.substr(pos, len)]: raises [std::out_of_range] when [pos > size()],
    and stops at the end of the string. *)
Definition substr (s : string) (pos len : N) : result string :=
  if (size s <? pos)%N then Throw OutOfRange
  else Ok (String.substring (N.to_nat pos)
                            (N.to_nat (N.min len (size s - pos))) s).

End StdString.

(** ** [OSMFile] *)

Module File.
Import StdString.

(** The three instances [osmium::io::FileType::OSM()], [History()] and
    [Change()].  The code compares them by address only. *)
Inductive FileType : Type := OSM | History | Change.

(** The seven instances of [osmium::io::Encoding] that the code names. *)
Inductive Encoding : Type :=
| PBF | XML | XMLgz | XMLbz2 | OPL | OPLgz | OPLbz2.

Definition FileType_eqb (a b : FileType) : bool :=
  match a, b with
  | OSM, OSM | History, History | Change, Change => true
  | _, _ => false
  end.

(** Modelled from the spec: [FileType::has_multiple_object_versions] lives
    in [file_type.hpp], which is not part of the sources.  The spec's data
    model gives History as the kind in which "multiple versions per entity
    may appear" and Plain as a snapshot; for Change, whose records
    "represent edits, not a snapshot", the answer is taken to be [true]
    (the writer tests "not Change" next to it, see [write_meta]). *)
Definition FileType_has_multiple_object_versions (t : FileType) : bool :=
  match t with
  | OSM => false
  | History => true
  | Change => true
  end.

Record OSMFile : Type := mkOSMFile {
  m_type : FileType;
  m_encoding : Encoding;
  m_filename : string;
  m_fd : Z;             (* -1 before the file is opened *)
  m_childpid : Z        (* 0 when there is no child *)
}.

Definition set_type (t : FileType) (f : OSMFile) : OSMFile :=
  mkOSMFile t (m_encoding f) (m_filename f) (m_fd f) (m_childpid f).
Definition set_encoding (e : Encoding) (f : OSMFile) : OSMFile :=
  mkOSMFile (m_type f) e (m_filename f) (m_fd f) (m_childpid f).
Definition set_filename (n : string) (f : OSMFile) : OSMFile :=
  mkOSMFile (m_type f) (m_encoding f) n (m_fd f) (m_childpid f).
Definition set_fd (fd : Z) (f : OSMFile) : OSMFile :=
  mkOSMFile (m_type f) (m_encoding f) (m_filename f) fd (m_childpid f).
Definition set_childpid (p : Z) (f : OSMFile) : OSMFile :=
  mkOSMFile (m_type f) (m_encoding f) (m_filename f) (m_fd f) p.

Definition default_settings_for_stdinout (f : OSMFile) : OSMFile :=
  set_encoding PBF (set_type OSM f).

Definition default_settings_for_file (f : OSMFile) : OSMFile :=
  set_encoding PBF (set_type OSM f).

Definition default_settings_for_url (f : OSMFile) : OSMFile :=
  set_encoding XML (set_type OSM f).

Definition set_type_and_encoding (suffix : string) (f : OSMFile) : OSMFile :=
  if (suffix =? "pbf") || (suffix =? "osm.pbf") then
    set_encoding PBF (set_type OSM f)
  else if suffix =? "osm" then
    set_encoding XML (set_type OSM f)
  else if suffix =? "osm.bz2" then
    set_encoding XMLbz2 (set_type OSM f)
  else if suffix =? "osm.gz" then
    set_encoding XMLgz (set_type OSM f)
  else if suffix =? "osm.opl" then
    set_encoding OPL (set_type OSM f)
  else if suffix =? "osm.opl.bz2" then
    set_encoding OPLbz2 (set_type OSM f)
  else if suffix =? "osm.opl.gz" then
    set_encoding OPLgz (set_type OSM f)
  else if suffix =? "osh.pbf" then
    set_encoding PBF (set_type History f)
  else if suffix =? "osh" then
    set_encoding XML (set_type History f)
  else if suffix =? "osh.bz2" then
    set_encoding XMLbz2 (set_type History f)
  else if suffix =? "osh.gz" then
    set_encoding XMLgz (set_type History f)
  else if suffix =? "osc" then
    set_encoding XML (set_type Change f)
  else if suffix =? "osc.bz2" then
    set_encoding XMLbz2 (set_type Change f)
  else if suffix =? "osc.gz" then
    set_encoding XMLgz (set_type Change f)
  else
    default_settings_for_file f.

(** The test [protocol == "http" || protocol == "https"] of the
    constructor and of [open_input_file_or_url], on the text before the
    first colon (the whole name when it has no colon). *)
Definition protocol_of (filename : string) : result string :=
  substr filename 0 (find_first_of filename ":" 0).

Definition is_url (filename : string) : result bool :=
  match protocol_of filename with
  | Ok protocol => Ok ((protocol =? "http") || (protocol =? "https"))
  | Throw e => Throw e
  end.

(** The position after the last slash, or 0 when there is none. *)
Definition after_last_slash (filename : string) : N :=
  let n := find_last_of filename "/" in
  if (n =? npos)%N then 0%N else size_t_add n 1.

(** [filename.substr(filename.find_first_of('.', n)+1)] *)
Definition isolate_suffix (filename : string) : result string :=
  let n := after_last_slash filename in
  substr filename (size_t_add (find_first_of filename "." n) 1) npos.

(** The constructor [OSMFile(const std::string& filename)]. *)
Definition OSMFile_new (filename : string) : result OSMFile :=
  let this := mkOSMFile OSM PBF filename (-1) 0 in
  if (filename =? "") || (filename =? "-") then
    Ok (default_settings_for_stdinout (set_filename "" this))
  else
    match is_url (m_filename this) with
    | Throw e => Throw e
    | Ok true => Ok (default_settings_for_url this)
    | Ok false =>
        match isolate_suffix filename with
        | Throw e => Throw e
        | Ok suffix => Ok (set_type_and_encoding suffix this)
        end
    end.

(** The copy constructor and the assignment operator: the open file is
    not copied. *)
Definition OSMFile_copy (orig : OSMFile) : OSMFile :=
  mkOSMFile (m_type orig) (m_encoding orig) (m_filename orig) (-1) 0.

(** [type(const std::string&)] *)
Definition type_from_string (type : string) : M OSMFile unit :=
  if type =? "osm" then modify (set_type OSM)
  else if (type =? "history") || (type =? "osh") then
    modify (set_type History)
  else if (type =? "change") || (type =? "osc") then
    modify (set_type Change)
  else throw (ArgumentError "Unknown OSM file type" type).

(** [encoding(const std::string&)] *)
Definition encoding_from_string (encoding : string) : M OSMFile unit :=
  if encoding =? "pbf" then modify (set_encoding PBF)
  else if encoding =? "xml" then modify (set_encoding XML)
  else if (encoding =? "xmlgz") || (encoding =? "gz") then
    modify (set_encoding XMLgz)
  else if (encoding =? "xmlbz2") || (encoding =? "bz2") then
    modify (set_encoding XMLbz2)
  else if encoding =? "opl" then modify (set_encoding OPL)
  else if encoding =? "oplgz" then modify (set_encoding OPLgz)
  else if encoding =? "oplbz2" then modify (set_encoding OPLbz2)
  else throw (ArgumentError "Unknown OSM file encoding" encoding).

Definition has_multiple_object_versions (f : OSMFile) : bool :=
  FileType_has_multiple_object_versions (m_type f).

(** *** The operating system as the handle sees it *)

Inductive open_flags : Type :=
| O_RDONLY
| O_WRONLY_O_TRUNC_O_CREAT.

(** System calls made by the calling process, in program order. *)
Inductive syscall : Type :=
| sys_pipe
| sys_fork (command : string) (input : Z)
| sys_open (path : string) (flags : open_flags)
| sys_close (fd : Z)
| sys_waitpid (pid : Z).

(** [fork()] as seen by the caller of [execute]: the child branch never
    returns (it replaces itself by the command or exits with code 1). *)
Inductive fork_answer : Type :=
| ForkFailed
| ForkParent (child : positive).

(** What the system answers during one member-function call: the value
    of [pipe] with the two descriptors it stores, the value of [fork],
    the value of [open], and the value of [waitpid] with the status it
    stores. *)
Record answers : Type := mkAnswers {
  ans_pipe : Z * (Z * Z);
  ans_fork : fork_answer;
  ans_open : Z;
  ans_waitpid : Z * Z
}.

(** [WIFEXITED] and [WEXITSTATUS] of [<sys/wait.h>] (glibc encoding). *)
Definition WTERMSIG (status : Z) : Z := Z.land status 127.
Definition WIFEXITED (status : Z) : bool := (WTERMSIG status =? 0)%Z.
Definition WEXITSTATUS (status : Z) : Z :=
  Z.shiftr (Z.land status 65280) 8.

(** The object together with the log of the process's system calls. *)
Record process : Type := mkProcess {
  this : OSMFile;
  syscalls : list syscall
}.

Definition on_this (g : OSMFile -> OSMFile) : M process unit :=
  modify (fun p => mkProcess (g (this p)) (syscalls p)).

Definition call (c : syscall) : M process unit :=
  modify (fun p => mkProcess (this p) (syscalls p ++ [c])).

Definition get_this : M process OSMFile :=
  fun p => (Ok (this p), p).

Definition lift_result {S A} (r : result A) : M S A :=
  fun s => (r, s).

(** The filter programs that an [osmium::io::Encoding] names
    ([encoding.hpp] is not part of the sources); the empty string means
    that there is no filter. *)
Class EncodingFilters : Type := {
  compress : Encoding -> string;
  decompress : Encoding -> string
}.

(** [pipefd[i]] *)
Definition pipefd (fds : Z * Z) (i : Z) : Z :=
  if (i =? 0)%Z then fst fds else snd fds.

(** [execute(command, input)], in the parent. *)
Definition execute (os : answers) (command : string) (input : Z)
  : M process Z :=
  call sys_pipe ;;
  if (fst (ans_pipe os) <? 0)%Z then throw (SystemError "Can't create pipe")
  else
    call (sys_fork command input) ;;
    match ans_fork os with
    | ForkFailed => throw (SystemError "Can't fork")
    | ForkParent pid =>
        on_this (set_childpid (Z.pos pid)) ;;
        call (sys_close (pipefd (snd (ans_pipe os)) (1 - input))) ;;
        ret (pipefd (snd (ans_pipe os)) input)
    end.

Definition open_input_file (os : answers) : M process Z :=
  f <- get_this ;;
  if m_filename f =? "" then ret 0%Z
  else
    call (sys_open (m_filename f) O_RDONLY) ;;
    if (ans_open os <? 0)%Z then throw (IOError "Open failed" (m_filename f))
    else ret (ans_open os).

Definition open_output_file (os : answers) : M process Z :=
  f <- get_this ;;
  if m_filename f =? "" then ret 1%Z
  else
    call (sys_open (m_filename f) O_WRONLY_O_TRUNC_O_CREAT) ;;
    if (ans_open os <? 0)%Z then throw (IOError "Open failed" (m_filename f))
    else ret (ans_open os).

Definition open_input_file_or_url (os : answers) : M process Z :=
  f <- get_this ;;
  url <- lift_result (is_url (m_filename f)) ;;
  if url then execute os "curl" 0 else open_input_file os.

Definition open_for_input `{EncodingFilters} (os : answers)
  : M process unit :=
  f <- get_this ;;
  fd <- (if decompress (m_encoding f) =? "" then open_input_file_or_url os
         else execute os (decompress (m_encoding f)) 0) ;;
  on_this (set_fd fd).

Definition open_for_output `{EncodingFilters} (os : answers)
  : M process unit :=
  f <- get_this ;;
  fd <- (if compress (m_encoding f) =? "" then open_output_file os
         else execute os (compress (m_encoding f)) 1) ;;
  on_this (set_fd fd).

(** [close()] *)
Definition close (os : answers) : M process unit :=
  f <- get_this ;;
  when (0 <? m_fd f)%Z
    (call (sys_close (m_fd f)) ;; on_this (set_fd (-1))) ;;
  f <- get_this ;;
  when (negb (m_childpid f =? 0)%Z)
    (call (sys_waitpid (m_childpid f)) ;;
     let pid := fst (ans_waitpid os) in
     let status := snd (ans_waitpid os) in
     if (pid <? 0)%Z || negb (WIFEXITED status)
        || negb (WEXITSTATUS status =? 0)%Z
     then throw (IOError "Subprocess returned error" "")
     else on_this (set_childpid 0)).

(** The destructor. *)
Definition destroy (os : answers) : M process unit :=
  try_ignore (close os).

(** A handle in a process that has made no system call yet. *)
Definition fresh (f : OSMFile) : process := mkProcess f [].

End File.

(** ** [XMLOutput] *)

Module XMLOut.
Import File.

(** *** The object model, as far as the writer reads it *)

Record Tag : Type := mkTag { key : string; value : string }.

(** The fields that [write_meta] and the operation test read from an
    [osmium::Object]. *)
Record Object : Type := mkObject {
  id : Z;
  version : Z;
  timestamp : Z;
  uid : Z;
  user : string;
  changeset : Z;
  visible : bool;
  tags : list Tag
}.

(** A location: whether it is defined, and its two coordinates (kept as
    the integers that the "%.7f" attributes print). *)
Record Location : Type := mkLocation {
  defined : bool;
  lat : Z;
  lon : Z
}.

Record Node : Type := mkNode {
  node_object : Object;
  location : Location
}.

Record WayNode : Type := mkWayNode { ref : Z }.

Record Way : Type := mkWay {
  way_object : Object;
  nodes : list WayNode
}.

Inductive item_type : Type := item_node | item_way | item_relation.

Record RelationMember : Type := mkMember {
  member_type : item_type;
  member_ref : Z;
  role : string
}.

Record Relation : Type := mkRelation {
  relation_object : Object;
  members : list RelationMember
}.

Record Bounds : Type := mkBounds {
  bounds_defined : bool;
  bottom_left : Location;
  top_right : Location
}.

Record Meta : Type := mkMeta { bounds : Bounds }.

(** An item of the buffer handed to [handle_collection]. *)
Inductive item : Type :=
| a_node (n : Node)
| a_way (w : Way)
| a_relation (r : Relation).

(** *** The libxml2 text writer, as far as the writer calls it *)

Inductive fmt_arg : Type :=
| arg_int (z : Z)
| arg_double (d : Z).

Inductive XmlCall : Type :=
| SetIndent (indent : Z)
| SetIndentString (str : string)
| StartDocument (encoding : string)
| StartElement (name : string)
| WriteAttribute (name content : string)
| WriteFormatAttribute (name format : string) (arg : fmt_arg)
| EndElement
| FreeTextWriter.

(** Whether a call returns a negative count, given the calls that have
    succeeded so far. *)
Class TextWriter : Type := {
  returns_error : list XmlCall -> XmlCall -> bool
}.

(** [osmium::timestamp::to_iso] and [item_type_to_name], which are
    declared outside of the two headers. *)
Class Names : Type := {
  to_iso : Z -> string;
  item_type_to_name : item_type -> string
}.

Definition PRId64 : string := "ld".

(** *** The writer object *)

Record XMLOutput : Type := mkXMLOutput {
  m_file : process;         (* the file handle, in its process *)
  m_generator : string;
  xml_calls : list XmlCall; (* the calls that succeeded, in order *)
  m_last_op : ascii
}.

Definition set_last_op (op : ascii) (w : XMLOutput) : XMLOutput :=
  mkXMLOutput (m_file w) (m_generator w) (xml_calls w) op.

Definition add_call (c : XmlCall) (w : XMLOutput) : XMLOutput :=
  mkXMLOutput (m_file w) (m_generator w) (xml_calls w ++ [c]) (m_last_op w).

(** [check_for_error] applied to a text-writer call. *)
Definition xml `{TextWriter} (c : XmlCall) : M XMLOutput unit :=
  fun w => if returns_error (xml_calls w) c then (Throw XMLWriteError, w)
           else (Ok tt, add_call c w).

(** A read of member variables. *)
Definition reads {A} (r : XMLOutput -> A) : M XMLOutput A :=
  fun w => (Ok (r w), w).

(** [this->m_file], read. *)
Definition file : M XMLOutput OSMFile :=
  reads (fun w => this (m_file w)).

(** A member function of the file handle, called on [m_file]. *)
Definition on_file {A} (m : M process A) : M XMLOutput A :=
  fun w => (fst (m (m_file w)),
            mkXMLOutput (snd (m (m_file w))) (m_generator w)
                        (xml_calls w) (m_last_op w)).

(** The constructor: both libxml2 objects must have been created. *)
Definition XMLOutput_new (created : bool) (f : process) (generator : string)
  : result XMLOutput :=
  if created then Ok (mkXMLOutput f generator [] zero)
  else Throw XMLWriteError.

Definition open_close_op_tag `{TextWriter} (op : ascii) : M XMLOutput unit :=
  w <- get ;;
  if Ascii.eqb op (m_last_op w) then ret tt
  else
    when (negb (Ascii.eqb (m_last_op w) zero)) (xml EndElement) ;;
    (if Ascii.eqb op "c" then xml (StartElement "create")
     else if Ascii.eqb op "m" then xml (StartElement "modify")
     else if Ascii.eqb op "d" then xml (StartElement "delete")
     else ret tt) ;;
    modify (set_last_op op).

Definition write_meta `{TextWriter} `{Names} (object : Object)
  : M XMLOutput unit :=
  xml (WriteFormatAttribute "id" ("%" ++ PRId64) (arg_int (id object))) ;;
  when (negb (version object =? 0)%Z)
    (xml (WriteFormatAttribute "version" "%d" (arg_int (version object)))) ;;
  when (negb (timestamp object =? 0)%Z)
    (xml (WriteAttribute "timestamp" (to_iso (timestamp object)))) ;;
  when (0 <? uid object)%Z
    (xml (WriteFormatAttribute "uid" "%d" (arg_int (uid object))) ;;
     xml (WriteAttribute "user" (user object))) ;;
  when (negb (changeset object =? 0)%Z)
    (xml (WriteFormatAttribute "changeset" "%d"
                               (arg_int (changeset object)))) ;;
  f <- file ;;
  when (has_multiple_object_versions f
        && negb (FileType_eqb (m_type f) Change))
    (xml (WriteAttribute "visible"
                         (if visible object then "true" else "false"))).

Definition write_tags `{TextWriter} (tags : list Tag) : M XMLOutput unit :=
  for_each (fun tag =>
              xml (StartElement "tag") ;;
              xml (WriteAttribute "k" (key tag)) ;;
              xml (WriteAttribute "v" (value tag)) ;;
              xml EndElement) tags.

Definition set_meta `{TextWriter} (meta : Meta) : M XMLOutput unit :=
  xml (SetIndent 1) ;;
  xml (SetIndentString "  ") ;;
  xml (StartDocument "UTF-8") ;;
  f <- file ;;
  (if FileType_eqb (m_type f) Change then xml (StartElement "osmChange")
   else xml (StartElement "osm")) ;;
  xml (WriteAttribute "version" "0.6") ;;
  generator <- reads m_generator ;;
  xml (WriteAttribute "generator" generator) ;;
  when (bounds_defined (bounds meta))
    (xml (StartElement "bounds") ;;
     xml (WriteFormatAttribute "minlon" "%.7f"
            (arg_double (lon (bottom_left (bounds meta))))) ;;
     xml (WriteFormatAttribute "minlat" "%.7f"
            (arg_double (lat (bottom_left (bounds meta))))) ;;
     xml (WriteFormatAttribute "maxlon" "%.7f"
            (arg_double (lon (top_right (bounds meta))))) ;;
     xml (WriteFormatAttribute "maxlat" "%.7f"
            (arg_double (lat (top_right (bounds meta))))) ;;
     xml EndElement).

Definition node `{TextWriter} `{Names} (node : Node) : M XMLOutput unit :=
  f <- file ;;
  when (FileType_eqb (m_type f) Change)
    (open_close_op_tag
       (if visible (node_object node)
        then (if (version (node_object node) =? 1)%Z then "c" else "m")
        else "d")%char) ;;
  xml (StartElement "node") ;;
  write_meta (node_object node) ;;
  when (defined (location node))
    (xml (WriteFormatAttribute "lat" "%.7f"
            (arg_double (lat (location node)))) ;;
     xml (WriteFormatAttribute "lon" "%.7f"
            (arg_double (lon (location node))))) ;;
  write_tags (tags (node_object node)) ;;
  xml EndElement.

Definition way `{TextWriter} `{Names} (way : Way) : M XMLOutput unit :=
  f <- file ;;
  when (FileType_eqb (m_type f) Change)
    (open_close_op_tag
       (if visible (way_object way)
        then (if (version (way_object way) =? 1)%Z then "c" else "m")
        else "d")%char) ;;
  xml (StartElement "way") ;;
  write_meta (way_object way) ;;
  for_each (fun way_node =>
              xml (StartElement "nd") ;;
              xml (WriteFormatAttribute "ref" ("%" ++ PRId64)
                     (arg_int (ref way_node))) ;;
              xml EndElement) (nodes way) ;;
  write_tags (tags (way_object way)) ;;
  xml EndElement.

Definition relation `{TextWriter} `{Names} (relation : Relation)
  : M XMLOutput unit :=
  f <- file ;;
  when (FileType_eqb (m_type f) Change)
    (open_close_op_tag
       (if visible (relation_object relation)
        then (if (version (relation_object relation) =? 1)%Z
              then "c" else "m")
        else "d")%char) ;;
  xml (StartElement "relation") ;;
  write_meta (relation_object relation) ;;
  for_each (fun member =>
              xml (StartElement "member") ;;
              xml (WriteAttribute "type"
                     (item_type_to_name (member_type member))) ;;
              xml (WriteFormatAttribute "ref" ("%" ++ PRId64)
                     (arg_int (member_ref member))) ;;
              xml (WriteAttribute "role" (role member)) ;;
              xml EndElement) (members relation) ;;
  write_tags (tags (relation_object relation)) ;;
  xml EndElement.

(** The handler's dispatch on the kind of an item. *)
Definition emit `{TextWriter} `{Names} (i : item) : M XMLOutput unit :=
  match i with
  | a_node n => node n
  | a_way w => way w
  | a_relation r => relation r
  end.

(** [handle_collection(begin, end)] *)
Definition handle_collection `{TextWriter} `{Names} (items : list item)
  : M XMLOutput unit :=
  for_each emit items.

(** [xmlFreeTextWriter], which returns nothing. *)
Definition free_text_writer : M XMLOutput unit :=
  modify (add_call FreeTextWriter).

Definition close `{TextWriter} (os : answers) : M XMLOutput unit :=
  f <- file ;;
  when (FileType_eqb (m_type f) Change) (open_close_op_tag zero) ;;
  xml EndElement ;;
  free_text_writer ;;
  on_file (File.close os).

End XMLOut.

(** ** The words of the specification *)

Module Spec.
Import StdString File XMLOut.

(** *** Suffix table *)

Definition kind_and_encoding (f : OSMFile) : FileType * Encoding :=
  (m_type f, m_encoding f).

(** The documented table of exact suffixes. *)
Definition suffix_table : list (string * (FileType * Encoding)) :=
  [ ("pbf", (OSM, PBF)); ("osm.pbf", (OSM, PBF));
    ("osm", (OSM, XML)); ("osm.bz2", (OSM, XMLbz2));
    ("osm.gz", (OSM, XMLgz)); ("osm.opl", (OSM, OPL));
    ("osm.opl.bz2", (OSM, OPLbz2)); ("osm.opl.gz", (OSM, OPLgz));
    ("osh.pbf", (History, PBF)); ("osh", (History, XML));
    ("osh.bz2", (History, XMLbz2)); ("osh.gz", (History, XMLgz));
    ("osc", (Change, XML)); ("osc.bz2", (Change, XMLbz2));
    ("osc.gz", (Change, XMLgz)) ].

Definition plain_file_default : FileType * Encoding := (OSM, PBF).

Fixpoint lookup {V} (k : string) (t : list (string * V)) : option V :=
  match t with
  | [] => None
  | (k', v) :: t' => if k =? k' then Some v else lookup k t'
  end.

Definition documented (suffix : string) : FileType * Encoding :=
  match lookup suffix suffix_table with
  | Some p => p
  | None => plain_file_default
  end.

(** The name is empty or the one-character name of the standard streams. *)
Definition is_stdio (filename : string) : bool :=
  (filename =? "") || (filename =? "-").

(** The exception of [close] for a child that did not end well. *)
Definition subprocess_error : exn :=
  IOError "Subprocess returned error" "".

(** *** Names without a dot in their last segment *)

Fixpoint contains (c : ascii) (s : string) : bool :=
  match s with
  | EmptyString => false
  | String a s' => Ascii.eqb a c || contains c s'
  end.

(** The text after the last slash; the whole text when there is none. *)
Fixpoint last_segment (s : string) : string :=
  match s with
  | EmptyString => EmptyString
  | String a s' =>
      if contains "/" s' then last_segment s'
      else if Ascii.eqb a "/" then s' else s
  end.

(** The index at which the last segment starts. *)
Fixpoint segment_start (s : string) : nat :=
  match s with
  | EmptyString => 0
  | String a s' =>
      if contains "/" s' then S (segment_start s')
      else if Ascii.eqb a "/" then 1 else 0
  end.

(** *** Operations of a change file *)

Inductive Operation : Type := Create | Modify | Delete.

Definition op_char (o : Operation) : ascii :=
  match o with
  | Create => "c"
  | Modify => "m"
  | Delete => "d"
  end.

Definition op_name (o : Operation) : string :=
  match o with
  | Create => "create"
  | Modify => "modify"
  | Delete => "delete"
  end.

Definition Operation_eqb (a b : Operation) : bool :=
  match a, b with
  | Create, Create | Modify, Modify | Delete, Delete => true
  | _, _ => false
  end.

(** The tracked operation: [None] is the character 0, "no group open". *)
Definition tracked_char (t : option Operation) : ascii :=
  match t with
  | None => zero
  | Some o => op_char o
  end.

Definition item_object (i : item) : Object :=
  match i with
  | a_node n => node_object n
  | a_way w => way_object w
  | a_relation r => relation_object r
  end.

Definition element_name (i : item) : string :=
  match i with
  | a_node _ => "node"
  | a_way _ => "way"
  | a_relation _ => "relation"
  end.

(** The operation that the writer infers for an object. *)
Definition inferred_operation (o : Object) : Operation :=
  if visible o then (if (version o =? 1)%Z then Create else Modify)
  else Delete.

(** The maximal runs of consecutive items with the same inferred
    operation, in order. *)
Fixpoint runs (items : list item) : list (Operation * list item) :=
  match items with
  | [] => []
  | i :: items' =>
      let o := inferred_operation (item_object i) in
      match runs items' with
      | (o', g) :: rest =>
          if Operation_eqb o o' then (o, i :: g) :: rest
          else (o, [i]) :: (o', g) :: rest
      | [] => [(o, [i])]
      end
  end.

(** *** Reading a sequence of text-writer calls *)

Definition add_calls (l : list XmlCall) (w : XMLOutput) : XMLOutput :=
  mkXMLOutput (m_file w) (m_generator w) (xml_calls w ++ l) (m_last_op w).

(** The calls made between two states of the writer. *)
Definition emitted (w w' : XMLOutput) : list XmlCall :=
  skipn (List.length (xml_calls w)) (xml_calls w').

Definition is_attribute (c : XmlCall) : bool :=
  match c with
  | WriteAttribute _ _ | WriteFormatAttribute _ _ _ => true
  | _ => false
  end.

Definition attribute_name (c : XmlCall) : option string :=
  match c with
  | WriteAttribute n _ | WriteFormatAttribute n _ _ => Some n
  | _ => None
  end.

(** The attribute calls at the head of a sequence. *)
Fixpoint leading_attributes (l : list XmlCall) : list XmlCall :=
  match l with
  | c :: l' => if is_attribute c then c :: leading_attributes l' else []
  | [] => []
  end.

(** The attributes written on the first element called [name]. *)
Fixpoint attributes_of (name : string) (l : list XmlCall) : list XmlCall :=
  match l with
  | [] => []
  | StartElement n :: l' =>
      if n =? name then leading_attributes l' else attributes_of name l'
  | _ :: l' => attributes_of name l'
  end.

Definition has_attribute (name : string) (attrs : list XmlCall) : bool :=
  existsb (fun c => match attribute_name c with
                    | Some n => n =? name
                    | None => false
                    end) attrs.

(** The names of the elements that are opened, in order. *)
Fixpoint opened_elements (l : list XmlCall) : list string :=
  match l with
  | [] => []
  | StartElement n :: l' => n :: opened_elements l'
  | _ :: l' => opened_elements l'
  end.

(** The names of the elements that the [EndElement] calls close, in
    order: each closes the innermost open element.  [stack] holds the
    open elements, innermost first. *)
Fixpoint closed_elements (stack : list string) (l : list XmlCall)
  : list string :=
  match l with
  | [] => []
  | StartElement n :: l' => closed_elements (n :: stack) l'
  | EndElement :: l' =>
      match stack with
      | n :: stack' => n :: closed_elements stack' l'
      | [] => closed_elements [] l'
      end
  | _ :: l' => closed_elements stack l'
  end.

Definition is_wrapper (name : string) : bool :=
  (name =? "create") || (name =? "modify") || (name =? "delete").

(** The wrapper elements among some element names. *)
Definition wrappers (names : list string) : list string :=
  filter is_wrapper names.

(** *** The call sequences of successful member functions *)

Definition run_calls `{TextWriter} (l : list XmlCall) : M XMLOutput unit :=
  for_each xml l.

Definition op_tag_calls (last : ascii) (op : option Operation)
  : list XmlCall :=
  (if Ascii.eqb last zero then [] else [EndElement])
  ++ match op with
     | Some o => [StartElement (op_name o)]
     | None => []
     end.

(** The calls of a transition from the tracked operation [last]. *)
Definition transition_calls (last : ascii) (op : option Operation)
  : list XmlCall :=
  if Ascii.eqb (tracked_char op) last then []
  else op_tag_calls last op.

Definition meta_calls `{Names} (f : OSMFile) (o : Object) : list XmlCall :=
  [WriteFormatAttribute "id" ("%" ++ PRId64) (arg_int (id o))]
  ++ (if (version o =? 0)%Z then []
      else [WriteFormatAttribute "version" "%d" (arg_int (version o))])
  ++ (if (timestamp o =? 0)%Z then []
      else [WriteAttribute "timestamp" (to_iso (timestamp o))])
  ++ (if (0 <? uid o)%Z
      then [WriteFormatAttribute "uid" "%d" (arg_int (uid o));
            WriteAttribute "user" (user o)]
      else [])
  ++ (if (changeset o =? 0)%Z then []
      else [WriteFormatAttribute "changeset" "%d" (arg_int (changeset o))])
  ++ (if has_multiple_object_versions f
         && negb (FileType_eqb (m_type f) Change)
      then [WriteAttribute "visible"
              (if visible o then "true" else "false")]
      else []).

Definition tag_calls (t : Tag) : list XmlCall :=
  [StartElement "tag"; WriteAttribute "k" (key t);
   WriteAttribute "v" (value t); EndElement].

Definition nd_calls (n : WayNode) : list XmlCall :=
  [StartElement "nd";
   WriteFormatAttribute "ref" ("%" ++ PRId64) (arg_int (ref n));
   EndElement].

Definition member_calls `{Names} (m : RelationMember) : list XmlCall :=
  [StartElement "member";
   WriteAttribute "type" (item_type_to_name (member_type m));
   WriteFormatAttribute "ref" ("%" ++ PRId64) (arg_int (member_ref m));
   WriteAttribute "role" (role m);
   EndElement].

Definition location_calls (l : Location) : list XmlCall :=
  if defined l
  then [WriteFormatAttribute "lat" "%.7f" (arg_double (lat l));
        WriteFormatAttribute "lon" "%.7f" (arg_double (lon l))]
  else [].

(** The attributes of the element of an item. *)
Definition item_attributes `{Names} (f : OSMFile) (i : item)
  : list XmlCall :=
  meta_calls f (item_object i)
  ++ match i with
     | a_node n => location_calls (location n)
     | _ => []
     end.

(** The child elements of the element of an item. *)
Definition item_children `{Names} (i : item) : list XmlCall :=
  match i with
  | a_node _ => []
  | a_way w => flat_map nd_calls (nodes w)
  | a_relation r => flat_map member_calls (members r)
  end
  ++ flat_map tag_calls (tags (item_object i)).

(** The element of an item. *)
Definition item_calls `{Names} (f : OSMFile) (i : item) : list XmlCall :=
  StartElement (element_name i)
  :: item_attributes f i ++ item_children i ++ [EndElement].

Definition set_meta_calls (f : OSMFile) (generator : string) (meta : Meta)
  : list XmlCall :=
  [SetIndent 1; SetIndentString "  "; StartDocument "UTF-8";
   StartElement (if FileType_eqb (m_type f) Change
                 then "osmChange" else "osm");
   WriteAttribute "version" "0.6";
   WriteAttribute "generator" generator]
  ++ (if bounds_defined (bounds meta)
      then [StartElement "bounds";
            WriteFormatAttribute "minlon" "%.7f"
              (arg_double (lon (bottom_left (bounds meta))));
            WriteFormatAttribute "minlat" "%.7f"
              (arg_double (lat (bottom_left (bounds meta))));
            WriteFormatAttribute "maxlon" "%.7f"
              (arg_double (lon (top_right (bounds meta))));
            WriteFormatAttribute "maxlat" "%.7f"
              (arg_double (lat (top_right (bounds meta))));
            EndElement]
      else []).

(** One wrapper element around the items of a run. *)
Definition group_calls `{Names} (f : OSMFile) (g : Operation * list item)
  : list XmlCall :=
  StartElement (op_name (fst g))
  :: flat_map (item_calls f) (snd g) ++ [EndElement].

(** The calls of the items of a change file after the group [last], and
    of the final transition to "no group". *)
Fixpoint stream_calls `{Names} (f : OSMFile) (last : ascii)
  (items : list item) : list XmlCall :=
  match items with
  | [] => if Ascii.eqb last zero then [] else [EndElement]
  | i :: items' =>
      let o := inferred_operation (item_object i) in
      (if Ascii.eqb (op_char o) last then [] else op_tag_calls last (Some o))
      ++ item_calls f i ++ stream_calls f (op_char o) items'
  end.

(** [m] makes the calls [L w] in order, stops at the first one that
    fails, and does nothing else; the calls depend on the file and on
    the generator only. *)
Definition scripted `{TextWriter} (m : M XMLOutput unit)
  (L : XMLOutput -> list XmlCall) : Prop :=
  (forall w, m w = run_calls (L w) w)
  /\ (forall w w', m_file w = m_file w' ->
                   m_generator w = m_generator w' -> L w = L w').

(** No two neighbours among the runs have the same operation. *)
Fixpoint alternating (gs : list (Operation * list item)) : bool :=
  match gs with
  | g :: (g' :: _) as rest =>
      negb (Operation_eqb (fst g) (fst g')) && alternating rest
  | _ => true
  end.

(** A whole document: [set_meta], the items, [close]. *)
Definition document `{TextWriter} `{Names} (meta : Meta)
  (items : list item) (os : answers) : M XMLOutput unit :=
  set_meta meta ;; handle_collection items ;; XMLOut.close os.

End Spec.

(** ** Example inputs *)

Module Examples.
Import File XMLOut Spec.

(** The usual filter programs. *)
Definition usual_filters : EncodingFilters :=
  {| compress := fun e => match e with
                          | XMLgz | OPLgz => "gzip"
                          | XMLbz2 | OPLbz2 => "bzip2"
                          | _ => ""
                          end;
     decompress := fun e => match e with
                            | XMLgz | OPLgz => "zcat"
                            | XMLbz2 | OPLbz2 => "bzcat"
                            | _ => ""
                            end |}.

(** A text writer whose calls all succeed. *)
Definition reliable_writer : TextWriter :=
  {| returns_error := fun _ _ => false |}.

Definition plain_names : Names :=
  {| to_iso := fun _ => "2013-01-01T00:00:00Z";
     item_type_to_name := fun t => match t with
                                   | item_node => "node"
                                   | item_way => "way"
                                   | item_relation => "relation"
                                   end |}.

(** System answers in which every call succeeds and the child exits
    with code 0. *)
Definition quiet : answers :=
  mkAnswers (0, (3, 4))%Z (ForkParent 1234) 3%Z (1234, 0)%Z.

(** The child exits with code 1: [waitpid] stores the status 256. *)
Definition exits_1 : answers :=
  mkAnswers (0, (3, 4))%Z (ForkParent 1234) 3%Z (1234, 256)%Z.

(** [waitpid] fails, for instance for a child that was already waited
    for, and stores nothing: the status variable holds 0. *)
Definition wait_fails : answers :=
  mkAnswers (0, (3, 4))%Z (ForkParent 1234) 3%Z (-1, 0)%Z.

(** A handle that is open on descriptor 5 with the filter child 1234. *)
Definition gz_handle : OSMFile :=
  mkOSMFile OSM XMLgz "planet.osm.gz" 5 1234.

Definition object (version : Z) (visible : bool) : Object :=
  mkObject 17 version 0 0 "" 0 visible [mkTag "name" "x"].

(** A writer on an unopened handle for a file of the given kind. *)
Definition writer_on (t : FileType) : XMLOutput :=
  mkXMLOutput (fresh (mkOSMFile t XML "planet" (-1) 0)) "osmium" [] zero.

Definition no_bounds : Meta :=
  mkMeta (mkBounds false (mkLocation false 0 0) (mkLocation false 0 0)).

Definition five_items : list item :=
  [ a_node (mkNode (object 1 true) (mkLocation true 515000000 1000000));
    a_way (mkWay (object 1 true) [mkWayNode 17]);
    a_node (mkNode (object 2 true) (mkLocation false 0 0));
    a_relation (mkRelation (object 3 false)
                  [mkMember item_node 17 "stop"]);
    a_node (mkNode (object 4 false) (mkLocation false 0 0)) ].

End Examples.

(** ** The remaining member functions of [OSMFile] *)

Module FileRest.
Import StdString File.

(** The assignment operator: like the copy constructor, on [*this]. *)
Definition assign (orig : OSMFile) : M process unit :=
  on_this (fun _ => OSMFile_copy orig).

(** [filename(const std::string&)] *)
Definition filename_from_string (filename : string) : M OSMFile unit :=
  if filename =? "-" then modify (set_filename "")
  else modify (set_filename filename).

(** [filename_without_suffix()] *)
Definition filename_without_suffix (f : OSMFile) : result string :=
  substr (m_filename f)
         (size_t_add (find_first_of (m_filename f) "." 0) 1) npos.

(** The [suffix()] of a file type and of an encoding, which are declared
    outside of the header. *)
Class Suffixes : Type := {
  FileType_suffix : FileType -> string;
  Encoding_suffix : Encoding -> string
}.

(** [filename_with_default_suffix()] *)
Definition filename_with_default_suffix `{Suffixes} (f : OSMFile)
  : result string :=
  match filename_without_suffix f with
  | Ok filename =>
      Ok (filename ++ (FileType_suffix (m_type f)
                       ++ Encoding_suffix (m_encoding f)))
  | Throw e => Throw e
  end.

End FileRest.

(** ** The child branch of [execute] *)

Module Child.
Import File.

(** The flags of the three [open] calls of the child. *)
Inductive oflag : Type :=
| RDONLY
| WRONLY
| WRONLY_TRUNC_CREAT.

(** What a descriptor of the child refers to: what the descriptor [fd] of
    the parent referred to at the time of [fork], or a file that the child
    has opened. *)
Inductive fd_object : Type :=
| of_parent (fd : Z)
| opened (path : string) (flags : oflag).

(** The descriptor table of the child; [None] is a closed descriptor. *)
Definition fds : Type := Z -> option fd_object.

(** The table that [fork] gives to the child, for the descriptors [open]
    of the parent. *)
Definition inherited (open : Z -> bool) : fds :=
  fun i => if open i then Some (of_parent i) else None.

(** What the system answers in the child: whether a path can be opened,
    whether [execlp] succeeds, and the number of descriptors that a
    process may have (an [open] takes the lowest free descriptor below
    it). *)
Record child_answers : Type := mkChildAnswers {
  can_open : string -> bool;
  exec_succeeds : bool;
  nofile : nat
}.

(** [close(i)]; closing a closed descriptor changes nothing. *)
Definition fd_close (i : Z) (t : fds) : fds :=
  fun j => if (j =? i)%Z then None else t j.

(** [dup2(oldfd, newfd)], with its value. *)
Definition fd_dup2 (oldfd newfd : Z) (t : fds) : Z * fds :=
  match t oldfd with
  | None => ((-1)%Z, t)
  | Some o => (newfd, fun j => if (j =? newfd)%Z then Some o else t j)
  end.

(** The lowest free descriptor among the [n] descriptors from [i] on. *)
Fixpoint lowest_free (n : nat) (i : Z) (t : fds) : option Z :=
  match n with
  | O => None
  | S n' => match t i with
            | None => Some i
            | Some _ => lowest_free n' (i + 1)%Z t
            end
  end.

(** [open(path, flags)], with its value. *)
Definition fd_open (os : child_answers) (path : string) (flags : oflag)
  (t : fds) : Z * fds :=
  if can_open os path then
    match lowest_free (nofile os) 0 t with
    | Some i => (i, fun j => if (j =? i)%Z then Some (opened path flags)
                             else t j)
    | None => ((-1)%Z, t)
    end
  else ((-1)%Z, t).

(** How the child ends: [exit(code)], or the program that replaces it,
    with its arguments. *)
Inductive child_end : Type :=
| child_exit (code : Z)
| child_exec (file : string) (argv : list string).

(** [for (int i=0; i < 32; ++i) if (i != keep) ::close(i);] *)
Definition close_all_but (keep : Z) (t : fds) : fds :=
  fold_left (fun t i => if (i =? keep)%Z then t else fd_close i t)
            (map Z.of_nat (seq 0 32)) t.

(** The branch [pid == 0] of [execute(command, input)]: how the child
    ends, and its descriptors at that time. *)
Definition child (os : child_answers) (m_filename command : string)
  (input : Z) (pipe_fds : Z * Z) (t : fds) : child_end * fds :=
  let keep := pipefd pipe_fds (1 - input) in
  let t1 := close_all_but keep t in
  let d := fd_dup2 keep (1 - input) t1 in
  if (fst d <? 0)%Z then (child_exit 1, snd d)
  else if (input =? 0)%Z then
    let o1 := fd_open os "/dev/null" RDONLY (snd d) in
    let o2 := fd_open os "/dev/null" WRONLY (snd o1) in
    if exec_succeeds os
    then (child_exec command [command; m_filename], snd o2)
    else (child_exit 1, snd o2)
  else
    let o1 := fd_open os m_filename WRONLY_TRUNC_CREAT (snd d) in
    if negb (fst o1 =? 1)%Z then (child_exit 1, snd o1)
    else
      let o2 := fd_open os "/dev/null" WRONLY (snd o1) in
      if exec_succeeds os then (child_exec command [command], snd o2)
      else (child_exit 1, snd o2).

End Child.

(** ** More words for the statements *)

Module Words.
Import StdString File XMLOut Spec.

(** The text before the first [c]; the whole text when there is none. *)
Fixpoint before (c : ascii) (s : string) : string :=
  match s with
  | EmptyString => EmptyString
  | String a s' => if Ascii.eqb a c then EmptyString
                   else String a (before c s')
  end.

(** The text after the first [c]; nothing when there is none. *)
Fixpoint after (c : ascii) (s : string) : string :=
  match s with
  | EmptyString => EmptyString
  | String a s' => if Ascii.eqb a c then s' else after c s'
  end.

(** The text without its first [n] characters. *)
Fixpoint drop (n : nat) (s : string) : string :=
  match n, s with
  | O, _ => s
  | S n', String _ s' => drop n' s'
  | S _, EmptyString => EmptyString
  end.

(** The name is [scheme] itself, or starts with [scheme] and a colon. *)
Definition has_scheme (scheme filename : string) : bool :=
  (filename =? scheme) || String.prefix (scheme ++ ":") filename.

(** The names that [type(const std::string&)] accepts. *)
Definition kind_tokens : list (string * FileType) :=
  [ ("osm", OSM); ("history", History); ("osh", History);
    ("change", Change); ("osc", Change) ].

(** The names that [encoding(const std::string&)] accepts. *)
Definition encoding_tokens : list (string * Encoding) :=
  [ ("pbf", PBF); ("xml", XML); ("xmlgz", XMLgz); ("gz", XMLgz);
    ("xmlbz2", XMLbz2); ("bz2", XMLbz2); ("opl", OPL); ("oplgz", OPLgz);
    ("oplbz2", OPLbz2) ].

(** The system calls of [execute(command, input)] in the parent. *)
Definition execute_calls (os : answers) (command : string) (input : Z)
  : list syscall :=
  sys_pipe
  :: (if (fst (ans_pipe os) <? 0)%Z then []
      else sys_fork command input
           :: match ans_fork os with
              | ForkFailed => []
              | ForkParent _ =>
                  [sys_close (pipefd (snd (ans_pipe os)) (1 - input))]
              end).

(** The open elements after some calls, innermost first, starting from the
    open elements [stack]; [None] when an [EndElement] finds no open
    element. *)
Fixpoint open_elements (stack : list string) (l : list XmlCall)
  : option (list string) :=
  match l with
  | [] => Some stack
  | StartElement n :: l' => open_elements (n :: stack) l'
  | EndElement :: l' =>
      match stack with
      | _ :: stack' => open_elements stack' l'
      | [] => None
      end
  | _ :: l' => open_elements stack l'
  end.

(** The wrapper element of a tracked operation. *)
Definition open_wrapper (last : ascii) : list string :=
  if Ascii.eqb last "c" then ["create"]
  else if Ascii.eqb last "m" then ["modify"]
  else if Ascii.eqb last "d" then ["delete"]
  else [].

Definition root_name (f : OSMFile) : string :=
  if FileType_eqb (m_type f) Change then "osmChange" else "osm".

(** The tags that a sequence of calls writes: each "k" attribute that is
    followed by a "v" attribute. *)
Fixpoint written_tags (l : list XmlCall) : list Tag :=
  match l with
  | [] => []
  | WriteAttribute n k :: l' =>
      match l' with
      | WriteAttribute n' v :: _ =>
          if (n =? "k") && (n' =? "v") then mkTag k v :: written_tags l'
          else written_tags l'
      | _ => written_tags l'
      end
  | _ :: l' => written_tags l'
  end.

(** The node references that a sequence of calls writes: the "ref"
    attributes that directly follow the opening of an "nd" element. *)
Fixpoint written_refs (l : list XmlCall) : list Z :=
  match l with
  | [] => []
  | StartElement n :: l' =>
      match l' with
      | WriteFormatAttribute a _ (arg_int z) :: _ =>
          if (n =? "nd") && (a =? "ref") then z :: written_refs l'
          else written_refs l'
      | _ => written_refs l'
      end
  | _ :: l' => written_refs l'
  end.

(** The calls of a script that are made before the first one that the
    text writer rejects, given the calls [done] so far. *)
Fixpoint accepted `{TextWriter} (done l : list XmlCall) : list XmlCall :=
  match l with
  | [] => []
  | c :: l' => if returns_error done c then []
               else c :: accepted (done ++ [c]) l'
  end.

(** The script of an item in a file: the transition, if the file is a
    change file, and the element. *)
Definition emit_calls `{Names} (w : XMLOutput) (i : item) : list XmlCall :=
  (if FileType_eqb (m_type (this (m_file w))) Change
   then transition_calls (m_last_op w)
          (Some (inferred_operation (item_object i)))
   else [])
  ++ item_calls (this (m_file w)) i.

(** The calls of the items of a file, in order, after the tracked
    operation [last]. *)
Fixpoint collection_calls `{Names} (f : OSMFile) (last : ascii)
  (items : list item) : list XmlCall :=
  match items with
  | [] => []
  | i :: items' =>
      let o := inferred_operation (item_object i) in
      if FileType_eqb (m_type f) Change
      then transition_calls last (Some o) ++ item_calls f i
           ++ collection_calls f (op_char o) items'
      else item_calls f i ++ collection_calls f last items'
  end.

(** The tracked operation after the items of a file. *)
Fixpoint last_operation (f : OSMFile) (last : ascii) (items : list item)
  : ascii :=
  match items with
  | [] => last
  | i :: items' =>
      last_operation f
        (if FileType_eqb (m_type f) Change
         then op_char (inferred_operation (item_object i)) else last)
        items'
  end.

(** The calls with which [close] ends the document. *)
Definition closing_calls (f : OSMFile) (last : ascii) : list XmlCall :=
  (if FileType_eqb (m_type f) Change then transition_calls last None else [])
  ++ [EndElement].

(** The calls are no "k" attributes. *)
Definition no_key (l : list XmlCall) : bool :=
  forallb (fun c => match c with
                    | WriteAttribute n _ => negb (n =? "k")
                    | _ => true
                    end) l.

(** The calls open no "nd" element. *)
Definition no_nd (l : list XmlCall) : bool :=
  forallb (fun c => match c with
                    | StartElement n => negb (n =? "nd")
                    | _ => true
                    end) l.

End Words.

(** ** Facts about [std::string] and the file handle *)

Module FileFacts.
Import StdString File Spec.

Lemma FileType_eqb_spec a b : reflect (a = b) (FileType_eqb a b).
Proof. destruct a, b; constructor; congruence. Qed.

(** *** The string functions *)

Lemma contains_get c s :
  contains c s = false ->
  forall k a, String.get k s = Some a -> Ascii.eqb a c = false.
Proof.
  induction s as [|a0 s' IH]; intros Hc k a Hget.
  - destruct k; discriminate.
  - cbn in Hc. apply orb_false_iff in Hc as [Ha Hs].
    destruct k as [|k]; cbn in Hget.
    + injection Hget as <-. exact Ha.
    + eauto.
Qed.

Lemma segment_start_no_slash s :
  contains "/" s = false -> segment_start s = 0.
Proof.
  destruct s as [|a s']; cbn; [reflexivity|].
  intros H. apply orb_false_iff in H as [Ha Hs].
  now rewrite Hs, Ha.
Qed.

Lemma segment_start_bounds s :
  contains "/" s = true ->
  1 <= segment_start s /\ segment_start s <= String.length s.
Proof.
  induction s as [|a s' IH]; cbn; [discriminate|].
  intros H. destruct (contains "/" s') eqn:Hs.
  - specialize (IH eq_refl). lia.
  - rewrite orb_false_r in H. rewrite H. lia.
Qed.

Lemma last_segment_chars c s :
  contains c (last_segment s) = false ->
  forall k a, segment_start s <= k -> String.get k s = Some a ->
              Ascii.eqb a c = false.
Proof.
  induction s as [|a0 s' IH]; intros Hc k a Hk Hget.
  - destruct k; discriminate.
  - cbn in Hc, Hk. destruct (contains "/" s') eqn:Hs.
    + destruct k as [|k]; [lia|]. cbn in Hget.
      apply (IH Hc k a); [lia | exact Hget].
    + destruct (Ascii.eqb a0 "/") eqn:Ha.
      * destruct k as [|k]; [lia|]. cbn in Hget.
        exact (contains_get c s' Hc k a Hget).
      * exact (contains_get c _ Hc k a Hget).
Qed.

Lemma find_last_at_segment s : forall i acc,
  find_last_at "/" i acc s
  = if contains "/" s then (i + N.of_nat (segment_start s) - 1)%N else acc.
Proof.
  induction s as [|a s' IH]; intros i acc; cbn; [reflexivity|].
  rewrite IH. destruct (contains "/" s') eqn:Hs.
  - rewrite orb_true_r. lia.
  - rewrite orb_false_r. destruct (Ascii.eqb a "/"); [lia | reflexivity].
Qed.

Lemma find_first_at_none c pos s : forall i,
  (forall k a, String.get k s = Some a -> (pos <= i + N.of_nat k)%N ->
               Ascii.eqb a c = false) ->
  find_first_at c pos i s = npos.
Proof.
  induction s as [|a0 s' IH]; intros i H; cbn; [reflexivity|].
  destruct (pos <=? i)%N eqn:Hp; cbn.
  - rewrite (H 0 a0 eq_refl) by (apply N.leb_le in Hp; lia).
    apply IH. intros k a Hget Hk. apply (H (S k) a Hget). lia.
  - apply IH. intros k a Hget Hk. apply (H (S k) a Hget). lia.
Qed.

Lemma find_first_at_range c pos s : forall i,
  find_first_at c pos i s = npos
  \/ (find_first_at c pos i s < i + size s)%N.
Proof.
  unfold size.
  induction s as [|a0 s' IH]; intros i; cbn [find_first_at];
    [now left|].
  destruct ((pos <=? i)%N && Ascii.eqb a0 c).
  - right. cbn [String.length]. lia.
  - destruct (IH (i + 1)%N) as [-> | Hlt]; [now left|].
    right. cbn [String.length]. lia.
Qed.

Lemma substring_all s : String.substring 0 (String.length s) s = s.
Proof. induction s as [|a s' IH]; cbn; [reflexivity | now rewrite IH]. Qed.

Lemma size_t_add_npos : size_t_add npos 1 = 0%N.
Proof. reflexivity. Qed.

Lemma after_last_slash_segment s :
  (size s < npos)%N -> after_last_slash s = N.of_nat (segment_start s).
Proof.
  unfold after_last_slash, find_last_of, size. intros Hsize.
  rewrite find_last_at_segment.
  destruct (contains "/" s) eqn:Hs.
  - destruct (segment_start_bounds s Hs) as [H1 H2].
    assert (Hn : npos = 18446744073709551615%N) by reflexivity.
    replace (0 + N.of_nat (segment_start s) - 1)%N
      with (N.of_nat (segment_start s) - 1)%N by lia.
    destruct (N.eqb_spec (N.of_nat (segment_start s) - 1) npos) as [E|_];
      [lia|].
    unfold size_t_add.
    replace (N.of_nat (segment_start s) - 1 + 1)%N
      with (N.of_nat (segment_start s)) by lia.
    apply N.mod_small.
    change (2 ^ 64)%N with 18446744073709551616%N. lia.
  - rewrite N.eqb_refl, (segment_start_no_slash s Hs). reflexivity.
Qed.

(** A name without a dot in its last segment is its own suffix. *)
Lemma isolate_suffix_without_dot filename :
  (size filename < npos)%N ->
  contains "." (last_segment filename) = false ->
  isolate_suffix filename = Ok filename.
Proof.
  intros Hsize Hdot. unfold isolate_suffix, find_first_of.
  rewrite (after_last_slash_segment _ Hsize).
  rewrite find_first_at_none.
  - rewrite size_t_add_npos. unfold substr.
    destruct (N.ltb_spec (size filename) 0) as [H|_]; [lia|].
    rewrite N.sub_0_r, N.min_r by lia.
    unfold size. rewrite Nat2N.id. cbn [N.to_nat].
    now rewrite substring_all.
  - intros k a Hget Hk.
    apply (last_segment_chars "." filename Hdot k a); [lia | exact Hget].
Qed.

(** The constructor raises no exception. *)
Lemma OSMFile_new_total filename : exists f, OSMFile_new filename = Ok f.
Proof.
  unfold OSMFile_new.
  destruct ((filename =? "") || (filename =? "-")); [eauto|].
  cbn [m_filename]. unfold is_url, protocol_of, substr.
  destruct (N.ltb_spec (size filename) 0) as [H|_]; [lia|].
  destruct ((_ =? "http") || (_ =? "https")); [eauto|].
  unfold isolate_suffix, substr, size_t_add, find_first_of.
  match goal with |- context [find_first_at ?c ?p ?i ?s] =>
    destruct (find_first_at_range c p s i) as [-> | Hlt] end.
  - change ((npos + 1) mod 2 ^ 64)%N with 0%N.
    destruct (N.ltb_spec (size filename) 0) as [H|_]; [lia | eauto].
  - match goal with |- context [N.ltb ?a ?b] =>
      destruct (N.ltb_spec a b) as [H|_] end; [|eauto].
    exfalso.
    match type of H with (_ < ?x mod ?m)%N =>
      assert (x mod m <= x)%N by (apply N.Div0.mod_le) end.
    lia.
Qed.

(** *** The suffix table *)

Lemma set_type_and_encoding_documented suffix f :
  kind_and_encoding (set_type_and_encoding suffix f) = documented suffix.
Proof.
  unfold set_type_and_encoding, documented, suffix_table, lookup,
    plain_file_default.
  repeat match goal with
         | |- context [String.eqb suffix ?k] =>
             destruct (String.eqb suffix k); cbn [orb]; try reflexivity
         end.
Qed.

Lemma set_type_and_encoding_frame suffix f :
  m_filename (set_type_and_encoding suffix f) = m_filename f
  /\ m_fd (set_type_and_encoding suffix f) = m_fd f
  /\ m_childpid (set_type_and_encoding suffix f) = m_childpid f.
Proof.
  unfold set_type_and_encoding.
  repeat match goal with
         | |- context [String.eqb suffix ?k] =>
             destruct (String.eqb suffix k); cbn [orb];
             try (repeat split; reflexivity)
         end.
Qed.

Lemma OSMFile_new_ordinary filename suffix :
  is_stdio filename = false ->
  is_url filename = Ok false ->
  isolate_suffix filename = Ok suffix ->
  OSMFile_new filename
  = Ok (set_type_and_encoding suffix (mkOSMFile OSM PBF filename (-1) 0)).
Proof.
  unfold OSMFile_new, is_stdio. intros -> Hurl Hsuf.
  cbn [m_filename]. now rewrite Hurl, Hsuf.
Qed.

(** C6: a suffix of the fixed table resolves to exactly the documented
    pair of kind and encoding, and every other suffix to the default of
    an ordinary file, Plain kind with the PBF encoding; the constructor
    resolves the isolated suffix of an ordinary file name in this way. *)
Theorem suffix_resolution :
  (forall suffix f,
      kind_and_encoding (set_type_and_encoding suffix f) = documented suffix)
  /\ Forall (fun e => documented (fst e) = snd e) suffix_table
  /\ (forall suffix,
        lookup suffix suffix_table = None -> documented suffix = (OSM, PBF))
  /\ (forall filename suffix,
        is_stdio filename = false ->
        is_url filename = Ok false ->
        isolate_suffix filename = Ok suffix ->
        exists f, OSMFile_new filename = Ok f
                  /\ kind_and_encoding f = documented suffix).
Proof.
  split; [exact set_type_and_encoding_documented|].
  split; [repeat constructor|].
  split.
  - intros suffix H. unfold documented. now rewrite H.
  - intros filename suffix Hio Hurl Hsuf.
    rewrite (OSMFile_new_ordinary filename suffix Hio Hurl Hsuf).
    eexists. split; [reflexivity|].
    apply set_type_and_encoding_documented.
Qed.

Lemma suffix_resolution_witness :
  is_stdio "data/planet.osh.bz2" = false
  /\ is_url "data/planet.osh.bz2" = Ok false
  /\ isolate_suffix "data/planet.osh.bz2" = Ok "osh.bz2"
  /\ exists f, OSMFile_new "data/planet.osh.bz2" = Ok f
               /\ kind_and_encoding f = documented "osh.bz2".
Proof.
  split; [reflexivity|]. split; [reflexivity|]. split; [reflexivity|].
  apply (proj2 (proj2 (proj2 suffix_resolution))); reflexivity.
Defined.

(** With a directory in front, the suffix is not the last segment: the
    name "dir/osc" is looked up as a whole and gets the default. *)
Example directory_is_part_of_the_suffix :
  isolate_suffix "dir/osc" = Ok "dir/osc"
  /\ OSMFile_new "dir/osc" = Ok (mkOSMFile OSM PBF "dir/osc" (-1) 0).
Proof. split; reflexivity. Qed.

(** *** [close] *)

Lemma close_cases os p :
  close os p
  = let p1 := if (0 <? m_fd (this p))%Z
              then mkProcess (set_fd (-1) (this p))
                             (syscalls p ++ [sys_close (m_fd (this p))])
              else p in
    if (m_childpid (this p) =? 0)%Z then (Ok tt, p1)
    else
      let p2 := mkProcess (this p1)
                          (syscalls p1 ++ [sys_waitpid (m_childpid (this p))])
      in
      if (fst (ans_waitpid os) <? 0)%Z
         || negb (WIFEXITED (snd (ans_waitpid os)))
         || negb (WEXITSTATUS (snd (ans_waitpid os)) =? 0)%Z
      then (Throw subprocess_error, p2)
      else (Ok tt, mkProcess (set_childpid 0 (this p2)) (syscalls p2)).
Proof.
  destruct p as [[t e n fd pid] log].
  unfold close, bind, get_this, when, call, on_this, modify, ret, throw.
  cbn [this syscalls m_fd m_childpid set_fd set_childpid].
  destruct (0 <? fd)%Z;
    cbn [this syscalls m_fd m_childpid set_fd set_childpid negb];
    destruct (pid =? 0)%Z; cbn [negb]; try reflexivity;
    destruct ((fst (ans_waitpid os) <? 0)%Z
              || negb (WIFEXITED (snd (ans_waitpid os)))
              || negb (WEXITSTATUS (snd (ans_waitpid os)) =? 0)%Z);
    reflexivity.
Qed.

(** A [close] that returned leaves nothing to do for the next one. *)
Lemma close_after_successful_close os os' p :
  fst (close os p) = Ok tt ->
  close os' (snd (close os p)) = (Ok tt, snd (close os p)).
Proof.
  rewrite (close_cases os p). cbv zeta.
  destruct p as [[t e n fd pid] log]. cbn [this syscalls m_fd m_childpid].
  destruct (0 <? fd)%Z eqn:Hfd;
    destruct (pid =? 0)%Z eqn:Hpid; cbn [fst snd];
    try (destruct (_ || _ || _); cbn [fst snd]; [discriminate|]);
    intros _; rewrite close_cases;
    cbn [this syscalls m_fd m_childpid set_fd set_childpid];
    rewrite ?Hfd, ?Hpid; reflexivity.
Qed.

(** What [close] does to the descriptor and to the log, whatever the
    child does. *)
Lemma close_descriptor os p :
  m_fd (this (snd (close os p)))
  = (if (0 <? m_fd (this p))%Z then (-1)%Z else m_fd (this p))
  /\ syscalls (snd (close os p))
     = (syscalls p
        ++ (if (0 <? m_fd (this p))%Z then [sys_close (m_fd (this p))]
            else [])
        ++ (if (m_childpid (this p) =? 0)%Z then []
            else [sys_waitpid (m_childpid (this p))]))%list.
Proof.
  rewrite close_cases. cbv zeta.
  destruct p as [[t e n fd pid] log].
  cbn [this syscalls m_fd m_childpid set_fd set_childpid].
  destruct (0 <? fd)%Z; destruct (pid =? 0)%Z;
    try destruct (_ || _ || _);
    cbn [this syscalls m_fd m_childpid set_fd set_childpid fst snd];
    rewrite <- ?app_assoc, ?app_nil_r; split; reflexivity.
Qed.

(** C4, on the code: a handle on descriptor 5 with child 1234, whose child
    exits with code 1.  The first [close] closes the descriptor, waits
    and raises the error, and the child identifier is still recorded: the
    second [close] waits for the child again and raises again. *)
Theorem failed_close_keeps_the_child :
  let kept := mkOSMFile OSM XMLgz "planet.osm.gz" (-1) 1234 in
  WIFEXITED 256 = true
  /\ WEXITSTATUS 256 = 1%Z
  /\ close Examples.exits_1 (fresh Examples.gz_handle)
     = (Throw subprocess_error,
        mkProcess kept [sys_close 5; sys_waitpid 1234])
  /\ close Examples.wait_fails
           (mkProcess kept [sys_close 5; sys_waitpid 1234])
     = (Throw subprocess_error,
        mkProcess kept [sys_close 5; sys_waitpid 1234; sys_waitpid 1234]).
Proof. repeat split. Qed.

(** C5, as stated, fails: with a recorded child, [close] also raises
    the error when [waitpid] itself fails, although the status does not
    report a non-zero exit code or an abnormal end. *)
Lemma close_fails_when_waiting_fails :
  ~ (forall os p,
        m_childpid (this p) <> 0%Z ->
        fst (close os p) = Throw subprocess_error
        <-> (WIFEXITED (snd (ans_waitpid os)) = false
             \/ WEXITSTATUS (snd (ans_waitpid os)) <> 0%Z)).
Proof.
  intros H.
  specialize (H Examples.wait_fails (fresh Examples.gz_handle)).
  destruct H as [H _]; [discriminate|].
  destruct (H eq_refl) as [E|E]; [discriminate E | exact (E eq_refl)].
Qed.

(** C5, amended: with a recorded child, [close] raises the error if and
    only if [waitpid] fails, or the child did not exit normally, or its
    exit code is not 0; when [waitpid] reports a normal exit with code 0,
    [close] returns and the child identifier is cleared. *)
Theorem close_fails_iff os p :
  m_childpid (this p) <> 0%Z ->
  (fst (close os p) = Throw subprocess_error
   <-> ((fst (ans_waitpid os) < 0)%Z
        \/ WIFEXITED (snd (ans_waitpid os)) = false
        \/ WEXITSTATUS (snd (ans_waitpid os)) <> 0%Z))
  /\ ((0 <= fst (ans_waitpid os))%Z ->
      WIFEXITED (snd (ans_waitpid os)) = true ->
      WEXITSTATUS (snd (ans_waitpid os)) = 0%Z ->
      fst (close os p) = Ok tt
      /\ m_childpid (this (snd (close os p))) = 0%Z).
Proof.
  intros Hpid. rewrite close_cases. cbv zeta.
  apply Z.eqb_neq in Hpid. rewrite Hpid.
  destruct (Z.ltb_spec (fst (ans_waitpid os)) 0) as [Hw|Hw];
    cbn [orb].
  - split; [split; auto | lia].
  - destruct (WIFEXITED (snd (ans_waitpid os))); cbn [negb orb].
    + destruct (Z.eqb_spec (WEXITSTATUS (snd (ans_waitpid os))) 0)
        as [E|E]; cbn [negb fst snd].
      * split; [|intros; split; reflexivity].
        split; [discriminate|].
        intros [H|[H|H]]; [lia | discriminate | contradiction].
      * split; [split; auto | contradiction].
    + split; [split; auto | discriminate].
Qed.

Lemma close_fails_iff_witness :
  let os := Examples.quiet in
  let p := fresh Examples.gz_handle in
  m_childpid (this p) <> 0%Z
  /\ (0 <= fst (ans_waitpid os))%Z
  /\ WIFEXITED (snd (ans_waitpid os)) = true
  /\ WEXITSTATUS (snd (ans_waitpid os)) = 0%Z
  /\ fst (close os p) = Ok tt
  /\ m_childpid (this (snd (close os p))) = 0%Z.
Proof.
  intros os p.
  assert (H1 : m_childpid (this p) <> 0%Z) by discriminate.
  assert (H2 : (0 <= fst (ans_waitpid os))%Z) by discriminate.
  split; [exact H1|]. split; [exact H2|].
  split; [reflexivity|]. split; [reflexivity|].
  exact (proj2 (close_fails_iff os p H1) H2 eq_refl eq_refl).
Defined.

(** *** Standard input and standard output *)

Lemma is_url_empty : is_url "" = Ok false.
Proof. reflexivity. Qed.

(** C10: [close] closes the stored descriptor exactly when it is
    strictly positive.  A handle with an empty name and no filter gets
    descriptor 0 from [open_for_input], and [close] neither closes it
    nor resets it; it gets descriptor 1 from [open_for_output], and
    [close] closes descriptor 1 and resets the field. *)
Theorem close_skips_standard_input `{EncodingFilters} :
  (forall os p,
      m_fd (this (snd (close os p)))
      = (if (0 <? m_fd (this p))%Z then (-1)%Z else m_fd (this p))
      /\ syscalls (snd (close os p))
         = (syscalls p
            ++ (if (0 <? m_fd (this p))%Z then [sys_close (m_fd (this p))]
                else [])
            ++ (if (m_childpid (this p) =? 0)%Z then []
                else [sys_waitpid (m_childpid (this p))]))%list)
  /\ (forall os os' f,
        m_filename f = "" ->
        decompress (m_encoding f) = "" ->
        let opened := open_for_input os (fresh f) in
        let closed := close os' (snd opened) in
        fst opened = Ok tt
        /\ m_fd (this (snd opened)) = 0%Z
        /\ syscalls (snd opened) = []
        /\ m_fd (this (snd closed)) = 0%Z
        /\ forall fd, ~ In (sys_close fd) (syscalls (snd closed)))
  /\ (forall os os' f,
        m_filename f = "" ->
        compress (m_encoding f) = "" ->
        let opened := open_for_output os (fresh f) in
        let closed := close os' (snd opened) in
        fst opened = Ok tt
        /\ m_fd (this (snd opened)) = 1%Z
        /\ syscalls (snd opened) = []
        /\ m_fd (this (snd closed)) = (-1)%Z
        /\ In (sys_close 1) (syscalls (snd closed))).
Proof.
  split; [exact close_descriptor|]. split.
  - intros os os' [t e n fd pid] Hn Hd. cbn [m_filename m_encoding] in *.
    subst n.
    assert (E : open_for_input os (fresh (mkOSMFile t e "" fd pid))
                = (Ok tt, fresh (mkOSMFile t e "" 0 pid))).
    { unfold open_for_input, bind, get_this, fresh.
      cbn [this m_encoding]. rewrite Hd. reflexivity. }
    cbv zeta. rewrite E. cbn [fst snd].
    destruct (close_descriptor os' (fresh (mkOSMFile t e "" 0 pid)))
      as [Hfd Hlog].
    rewrite Hfd, Hlog. cbn [fresh this syscalls m_fd m_childpid].
    repeat split.
    intros fd'. destruct (pid =? 0)%Z; cbn; intuition discriminate.
  - intros os os' [t e n fd pid] Hn Hc. cbn [m_filename m_encoding] in *.
    subst n.
    assert (E : open_for_output os (fresh (mkOSMFile t e "" fd pid))
                = (Ok tt, fresh (mkOSMFile t e "" 1 pid))).
    { unfold open_for_output, bind, get_this, fresh.
      cbn [this m_encoding]. rewrite Hc. reflexivity. }
    cbv zeta. rewrite E. cbn [fst snd].
    destruct (close_descriptor os' (fresh (mkOSMFile t e "" 1 pid)))
      as [Hfd Hlog].
    rewrite Hfd, Hlog. cbn [fresh this syscalls m_fd m_childpid].
    repeat split. cbn. now left.
Qed.

Lemma close_skips_standard_input_witness :
  let input := @open_for_input Examples.usual_filters Examples.quiet
                 (fresh (mkOSMFile OSM PBF "" (-1) 0)) in
  let output := @open_for_output Examples.usual_filters Examples.quiet
                  (fresh (mkOSMFile OSM PBF "" (-1) 0)) in
  (m_fd (this (snd input)) = 0%Z
   /\ m_fd (this (snd (close Examples.quiet (snd input)))) = 0%Z
   /\ syscalls (snd (close Examples.quiet (snd input))) = [])
  /\ (m_fd (this (snd output)) = 1%Z
      /\ m_fd (this (snd (close Examples.quiet (snd output)))) = (-1)%Z
      /\ In (sys_close 1)
            (syscalls (snd (close Examples.quiet (snd output))))).
Proof.
  intros input output.
  destruct (@close_skips_standard_input Examples.usual_filters)
    as (_ & Hin & Hout).
  destruct (Hin Examples.quiet Examples.quiet
                (mkOSMFile OSM PBF "" (-1) 0) eq_refl eq_refl)
    as (_ & H1 & _ & H2 & _).
  destruct (Hout Examples.quiet Examples.quiet
                 (mkOSMFile OSM PBF "" (-1) 0) eq_refl eq_refl)
    as (_ & H3 & _ & H4 & H5).
  split; [split; [exact H1 | split; [exact H2 | reflexivity]]|].
  split; [exact H3 | split; [exact H4 | exact H5]].
Defined.

End FileFacts.

(** ** Facts about the XML writer *)

Module XMLFacts.
Import File XMLOut Spec.
Local Open Scope list_scope.

(** *** The monad *)

Lemma bind_ok {S A B} (m : M S A) (k : A -> M S B) s b s' :
  bind m k s = (Ok b, s') ->
  exists a s1, m s = (Ok a, s1) /\ k a s1 = (Ok b, s').
Proof.
  unfold bind. destruct (m s) as [[a|e] s1]; [eauto | discriminate].
Qed.

Lemma bind_assoc {S A B C} (m : M S A) (k : A -> M S B) (h : B -> M S C) s :
  bind (bind m k) h s = bind m (fun a => bind (k a) h) s.
Proof.
  unfold bind. destruct (m s) as [[a|e] s1]; [|reflexivity].
  destruct (k a s1) as [[b|e] s2]; reflexivity.
Qed.

Lemma bind_ret_r {S} (m : M S unit) s : bind m (fun _ => ret tt) s = m s.
Proof.
  unfold bind, ret. destruct (m s) as [[[]|e] s1]; reflexivity.
Qed.

Lemma bind_congr {S A B} (m : M S A) (k k' : A -> M S B) s :
  (forall a s1, k a s1 = k' a s1) -> bind m k s = bind m k' s.
Proof.
  intros E. unfold bind. destruct (m s) as [[a|e] s1]; [apply E | reflexivity].
Qed.

(** *** States *)

Lemma add_calls_nil w : add_calls [] w = w.
Proof. destruct w. unfold add_calls. cbn. now rewrite app_nil_r. Qed.

Lemma add_calls_add_calls l1 l2 w :
  add_calls l2 (add_calls l1 w) = add_calls (l1 ++ l2) w.
Proof. unfold add_calls. cbn. now rewrite app_assoc. Qed.

Lemma add_call_add_calls c w : add_call c w = add_calls [c] w.
Proof. reflexivity. Qed.

Lemma set_last_op_add_calls op l w :
  add_calls l (set_last_op op w) = set_last_op op (add_calls l w).
Proof. reflexivity. Qed.

Lemma set_last_op_same w : set_last_op (m_last_op w) w = w.
Proof. now destruct w. Qed.

Lemma set_last_op_twice a b w :
  set_last_op b (set_last_op a w) = set_last_op b w.
Proof. reflexivity. Qed.

Lemma emitted_add_calls l w : emitted w (add_calls l w) = l.
Proof.
  unfold emitted, add_calls. cbn.
  rewrite skipn_app, skipn_all, Nat.sub_diag. reflexivity.
Qed.

Section Writer.
Context `{TextWriter} `{Names}.

(** *** Sequences of calls *)

Lemma run_calls_cons c l w :
  run_calls (c :: l) w
  = if returns_error (xml_calls w) c then (Throw XMLWriteError, w)
    else run_calls l (add_call c w).
Proof.
  unfold run_calls. cbn [for_each]. unfold bind at 1, xml.
  destruct (returns_error (xml_calls w) c); reflexivity.
Qed.

Lemma run_calls_app l1 l2 w :
  run_calls (l1 ++ l2) w = bind (run_calls l1) (fun _ => run_calls l2) w.
Proof.
  revert w. induction l1 as [|c l1 IH]; intros w.
  - reflexivity.
  - cbn [app]. rewrite run_calls_cons. unfold bind.
    rewrite run_calls_cons.
    destruct (returns_error (xml_calls w) c); [reflexivity|].
    rewrite IH. reflexivity.
Qed.

Lemma run_calls_ok l : forall w w',
  run_calls l w = (Ok tt, w') -> w' = add_calls l w.
Proof.
  induction l as [|c l IH]; intros w w' E.
  - injection E as <-. now rewrite add_calls_nil.
  - rewrite run_calls_cons in E.
    destruct (returns_error (xml_calls w) c); [discriminate|].
    rewrite (IH _ _ E), add_call_add_calls, add_calls_add_calls.
    reflexivity.
Qed.

(** Whatever the outcome, the calls made are the first ones of [l]. *)
Lemma run_calls_state l : forall w,
  exists k, snd (run_calls l w) = add_calls (firstn k l) w.
Proof.
  induction l as [|c l IH]; intros w.
  - exists 0. cbn. now rewrite add_calls_nil.
  - rewrite run_calls_cons.
    destruct (returns_error (xml_calls w) c).
    + exists 0. cbn. now rewrite add_calls_nil.
    + destruct (IH (add_call c w)) as [k Ek]. exists (S k).
      rewrite Ek, add_call_add_calls, add_calls_add_calls. reflexivity.
Qed.

Lemma run_calls_frame l w :
  m_file (snd (run_calls l w)) = m_file w
  /\ m_generator (snd (run_calls l w)) = m_generator w
  /\ m_last_op (snd (run_calls l w)) = m_last_op w.
Proof.
  destruct (run_calls_state l w) as [k ->]. repeat split.
Qed.

(** With a writer that accepts them, all calls are made. *)
Lemma run_calls_accepted l : forall w,
  (forall calls c, returns_error calls c = false) ->
  run_calls l w = (Ok tt, add_calls l w).
Proof.
  induction l as [|c l IH]; intros w Hok.
  - cbn. now rewrite add_calls_nil.
  - rewrite run_calls_cons, Hok, (IH _ Hok), add_call_add_calls,
      add_calls_add_calls. reflexivity.
Qed.

(** *** Scripted member functions *)

Lemma scripted_ext m L L' :
  scripted m L -> (forall w, L w = L' w) -> scripted m L'.
Proof.
  intros [Hm Hinv] E. split.
  - intros w. rewrite <- E. apply Hm.
  - intros w w' Hf Hg. rewrite <- !E. now apply Hinv.
Qed.

Lemma scripted_xml c : scripted (xml c) (fun _ => [c]).
Proof.
  split; [|reflexivity]. intros w.
  unfold run_calls. cbn [for_each]. now rewrite bind_ret_r.
Qed.

Lemma scripted_ret : scripted (ret tt) (fun _ => []).
Proof. split; reflexivity. Qed.

Lemma scripted_bind m k L1 L2 :
  scripted m L1 -> scripted k L2 ->
  scripted (bind m (fun _ => k)) (fun w => L1 w ++ L2 w).
Proof.
  intros [Hm H1] [Hk H2]. split.
  - intros w. rewrite run_calls_app. unfold bind. rewrite Hm.
    destruct (run_calls_frame (L1 w) w) as (Ef & Eg & _).
    destruct (run_calls (L1 w) w) as [[[]|e] w1]; [|reflexivity].
    cbn [snd] in Ef, Eg. rewrite Hk. now rewrite (H2 w1 w Ef Eg).
  - intros w w' Ef Eg. now rewrite (H1 w w' Ef Eg), (H2 w w' Ef Eg).
Qed.

Lemma scripted_when (b : bool) m L :
  scripted m L -> scripted (when b m) (fun w => if b then L w else []).
Proof. destruct b; [trivial | intros _; apply scripted_ret]. Qed.

Lemma scripted_if (b : bool) m1 m2 L1 L2 :
  scripted m1 L1 -> scripted m2 L2 ->
  scripted (if b then m1 else m2) (fun w => if b then L1 w else L2 w).
Proof. destruct b; trivial. Qed.

Lemma scripted_reads {A} (r : XMLOutput -> A) k L :
  (forall a, scripted (k a) (L a)) ->
  (forall w w', m_file w = m_file w' ->
                m_generator w = m_generator w' -> r w = r w') ->
  scripted (bind (reads r) k) (fun w => L (r w) w).
Proof.
  intros Hk Hr. split.
  - intros w. unfold bind, reads. apply (Hk (r w)).
  - intros w w' Ef Eg. rewrite (Hr w w' Ef Eg).
    now apply (Hk (r w')).
Qed.

Lemma scripted_for_each {A} (body : A -> M XMLOutput unit) Lb xs :
  (forall x, scripted (body x) (fun _ => Lb x)) ->
  scripted (for_each body xs) (fun _ => flat_map Lb xs).
Proof.
  intros Hb. induction xs as [|x xs IH]; cbn [for_each flat_map].
  - apply scripted_ret.
  - exact (scripted_bind _ _ _ _ (Hb x) IH).
Qed.

(** *** The scripts of the member functions *)

Ltac script_steps :=
  repeat first
    [ apply scripted_xml
    | apply scripted_ret
    | apply scripted_bind
    | apply scripted_when
    | apply scripted_if ].

Lemma write_meta_scripted o :
  scripted (write_meta o) (fun w => meta_calls (this (m_file w)) o).
Proof.
  unfold write_meta, file.
  eapply scripted_ext.
  - apply scripted_bind; [apply scripted_xml|].
    apply scripted_bind; [apply scripted_when, scripted_xml|].
    apply scripted_bind; [apply scripted_when, scripted_xml|].
    apply scripted_bind; [apply scripted_when; script_steps|].
    apply scripted_bind; [apply scripted_when, scripted_xml|].
    apply (scripted_reads (fun w => this (m_file w)) _
             (fun f _ =>
                if has_multiple_object_versions f
                   && negb (FileType_eqb (m_type f) Change)
                then [WriteAttribute "visible"
                        (if visible o then "true" else "false")]
                else [])).
    + intros f. apply scripted_when, scripted_xml.
    + intros w w' Ef _. now rewrite Ef.
  - intros w. unfold meta_calls. cbn beta.
    destruct (version o =? 0)%Z, (timestamp o =? 0)%Z,
      (changeset o =? 0)%Z; reflexivity.
Qed.

Lemma write_tags_scripted ts :
  scripted (write_tags ts) (fun _ => flat_map tag_calls ts).
Proof.
  unfold write_tags. apply scripted_for_each. intros t.
  eapply scripted_ext; [script_steps | reflexivity].
Qed.

Lemma set_meta_scripted meta :
  scripted (set_meta meta)
    (fun w => set_meta_calls (this (m_file w)) (m_generator w) meta).
Proof.
  unfold set_meta, file.
  eapply scripted_ext.
  - do 3 (apply scripted_bind; [apply scripted_xml|]).
    apply (scripted_reads (fun w => this (m_file w)) _
             (fun f w =>
                (if FileType_eqb (m_type f) Change
                 then [StartElement "osmChange"]
                 else [StartElement "osm"])
                ++ [WriteAttribute "version" "0.6"]
                ++ [WriteAttribute "generator" (m_generator w)]
                ++ (tl (tl (tl (tl (tl (tl
                      (set_meta_calls f (m_generator w) meta))))))))).
    + intros f.
      apply scripted_bind; [script_steps|].
      apply scripted_bind; [script_steps|].
      apply (scripted_reads m_generator _
               (fun g w => [WriteAttribute "generator" g]
                           ++ (tl (tl (tl (tl (tl (tl
                                 (set_meta_calls f g meta))))))))).
      * intros g.
        apply scripted_bind; [apply scripted_xml|].
        eapply scripted_ext; [apply scripted_when; script_steps|].
        intros w. cbn. destruct (bounds_defined (bounds meta));
          reflexivity.
      * intros w w' _ Eg. exact Eg.
    + intros w w' Ef _. now rewrite Ef.
  - intros w. unfold set_meta_calls. cbn.
    destruct (FileType_eqb (m_type (this (m_file w))) Change);
      reflexivity.
Qed.

(** The grouping transition touches the calls and the tracked
    operation only. *)
Lemma open_close_op_tag_frame op w :
  m_file (snd (open_close_op_tag op w)) = m_file w
  /\ m_generator (snd (open_close_op_tag op w)) = m_generator w.
Proof.
  unfold open_close_op_tag, bind, get, when, xml, modify, ret.
  destruct (Ascii.eqb op (m_last_op w)); [split; reflexivity|].
  destruct (negb (Ascii.eqb (m_last_op w) zero));
    [destruct (returns_error (xml_calls w) EndElement);
     [split; reflexivity|]|];
    destruct (Ascii.eqb op "c"), (Ascii.eqb op "m"), (Ascii.eqb op "d");
    cbn [fst snd];
    repeat match goal with
           | |- context [returns_error ?a ?b] =>
               destruct (returns_error a b)
           end; split; reflexivity.
Qed.

(** A member function that starts with the test for a change file
    and the grouping transition, and goes on with a script. *)
Lemma guarded_script op rest L w :
  scripted rest L ->
  bind file
    (fun f => bind (when (FileType_eqb (m_type f) Change)
                      (open_close_op_tag op))
                (fun _ => rest)) w
  = bind (when (FileType_eqb (m_type (this (m_file w))) Change)
            (open_close_op_tag op))
      (fun _ => run_calls (L w)) w.
Proof.
  intros [Hm Hinv]. unfold bind at 1, file, reads.
  unfold bind.
  destruct (FileType_eqb (m_type (this (m_file w))) Change);
    cbn [when].
  - destruct (open_close_op_tag_frame op w) as [Ef Eg].
    destruct (open_close_op_tag op w) as [[[]|e] w1]; [|reflexivity].
    cbn [snd] in Ef, Eg. now rewrite Hm, (Hinv w1 w Ef Eg).
  - cbn. apply Hm.
Qed.

Lemma emit_guarded i w :
  emit i w
  = bind (when (FileType_eqb (m_type (this (m_file w))) Change)
            (open_close_op_tag
               (op_char (inferred_operation (item_object i)))))
      (fun _ => run_calls (item_calls (this (m_file w)) i)) w.
Proof.
  assert (Eop : forall o,
             (if visible o
              then if (version o =? 1)%Z then "c" else "m"
              else "d")%char
             = op_char (inferred_operation o)).
  { intros o. unfold inferred_operation.
    destruct (visible o); [destruct (version o =? 1)%Z|]; reflexivity. }
  destruct i as [n|y|r]; cbn [emit item_object].
  - unfold node. rewrite Eop.
    apply (guarded_script _ _
             (fun w => item_calls (this (m_file w)) (a_node n))).
    eapply scripted_ext.
    + apply scripted_bind; [apply scripted_xml|].
      apply scripted_bind; [apply write_meta_scripted|].
      apply scripted_bind; [apply scripted_when; script_steps|].
      apply scripted_bind; [apply write_tags_scripted|].
      apply scripted_xml.
    + intros w0. unfold item_calls, item_attributes, item_children,
        location_calls. cbn [element_name item_object app].
      rewrite <- !app_assoc.
      destruct (defined (location n)); reflexivity.
  - unfold way. rewrite Eop.
    apply (guarded_script _ _
             (fun w => item_calls (this (m_file w)) (a_way y))).
    eapply scripted_ext.
    + apply scripted_bind; [apply scripted_xml|].
      apply scripted_bind; [apply write_meta_scripted|].
      apply scripted_bind;
        [apply (scripted_for_each _ nd_calls); intros x;
         eapply scripted_ext; [script_steps | reflexivity]|].
      apply scripted_bind; [apply write_tags_scripted|].
      apply scripted_xml.
    + intros w0. unfold item_calls, item_attributes, item_children.
      cbn [element_name item_object app].
      rewrite <- !app_assoc. reflexivity.
  - unfold relation. rewrite Eop.
    apply (guarded_script _ _
             (fun w => item_calls (this (m_file w)) (a_relation r))).
    eapply scripted_ext.
    + apply scripted_bind; [apply scripted_xml|].
      apply scripted_bind; [apply write_meta_scripted|].
      apply scripted_bind;
        [apply (scripted_for_each _ member_calls); intros x;
         eapply scripted_ext; [script_steps | reflexivity]|].
      apply scripted_bind; [apply write_tags_scripted|].
      apply scripted_xml.
    + intros w0. unfold item_calls, item_attributes, item_children.
      cbn [element_name item_object app].
      rewrite <- !app_assoc. reflexivity.
Qed.

(** *** The grouping transition *)

Lemma open_close_op_tag_cases (op : option Operation) w :
  open_close_op_tag (tracked_char op) w
  = if Ascii.eqb (tracked_char op) (m_last_op w) then (Ok tt, w)
    else bind (run_calls (op_tag_calls (m_last_op w) op))
           (fun _ => modify (set_last_op (tracked_char op))) w.
Proof.
  unfold open_close_op_tag. unfold bind at 1, get.
  destruct (Ascii.eqb (tracked_char op) (m_last_op w)); [reflexivity|].
  unfold op_tag_calls.
  destruct (Ascii.eqb (m_last_op w) zero);
    destruct op as [[]|]; cbn [negb when tracked_char op_char op_name app];
    unfold run_calls, for_each, bind, xml, ret, modify; cbn;
    repeat match goal with
           | |- context [returns_error ?a ?b] =>
               destruct (returns_error a b)
           end; reflexivity.
Qed.

Lemma open_close_op_tag_ok (op : option Operation) w w' :
  open_close_op_tag (tracked_char op) w = (Ok tt, w') ->
  w' = set_last_op (tracked_char op)
         (add_calls (transition_calls (m_last_op w) op) w).
Proof.
  rewrite open_close_op_tag_cases. unfold transition_calls.
  destruct (Ascii.eqb_spec (tracked_char op) (m_last_op w)) as [E|_].
  - intros [= <-]. now rewrite add_calls_nil, E, set_last_op_same.
  - intros E. apply bind_ok in E as ([] & w1 & E1 & E2).
    apply run_calls_ok in E1 as ->. now injection E2 as <-.
Qed.

Lemma emit_ok i w w' :
  emit i w = (Ok tt, w') ->
  w' = if FileType_eqb (m_type (this (m_file w))) Change
       then set_last_op (op_char (inferred_operation (item_object i)))
              (add_calls
                 (transition_calls (m_last_op w)
                    (Some (inferred_operation (item_object i)))
                  ++ item_calls (this (m_file w)) i) w)
       else add_calls (item_calls (this (m_file w)) i) w.
Proof.
  rewrite emit_guarded. intros E.
  apply bind_ok in E as ([] & w1 & E1 & E2).
  apply run_calls_ok in E2 as ->.
  destruct (FileType_eqb (m_type (this (m_file w))) Change);
    cbn [when] in E1.
  - apply (open_close_op_tag_ok (Some _)) in E1 as ->.
    now rewrite set_last_op_add_calls, add_calls_add_calls.
  - now injection E1 as <-.
Qed.

(** C2: the transition does nothing when the operation is the one of
    the open group; otherwise it closes the open wrapper element if
    there is one, then opens the element named after the operation
    unless the operation is "none", and at last records the
    operation. *)
Theorem grouping_transition (op : option Operation) w :
  open_close_op_tag (tracked_char op) w
  = (if Ascii.eqb (tracked_char op) (m_last_op w) then (Ok tt, w)
     else bind (run_calls
                  ((if Ascii.eqb (m_last_op w) zero then []
                    else [EndElement])
                   ++ match op with
                      | Some o => [StartElement (op_name o)]
                      | None => []
                      end))
            (fun _ => modify (set_last_op (tracked_char op))) w)
  /\ (forall w',
        open_close_op_tag (tracked_char op) w = (Ok tt, w') ->
        m_last_op w' = tracked_char op
        /\ m_file w' = m_file w
        /\ xml_calls w'
           = xml_calls w
             ++ (if Ascii.eqb (tracked_char op) (m_last_op w) then []
                 else (if Ascii.eqb (m_last_op w) zero then []
                       else [EndElement])
                      ++ match op with
                         | Some o => [StartElement (op_name o)]
                         | None => []
                         end)).
Proof.
  split; [apply open_close_op_tag_cases|].
  intros w' E. apply open_close_op_tag_ok in E as ->.
  repeat split.
Qed.

(** C3: in a change file the operation handed to the transition is
    create for a visible object of version 1, modify for a visible
    object of a version above 1, and delete for an object that is not
    visible; in a file of another kind an item is written without a
    transition. *)
Theorem operation_of_an_item i w :
  (m_type (this (m_file w)) = Change ->
   let then_element op :=
     bind (open_close_op_tag op)
       (fun _ => run_calls (item_calls (this (m_file w)) i)) w in
   (visible (item_object i) = true ->
    version (item_object i) = 1%Z ->
    emit i w = then_element "c"%char)
   /\ (visible (item_object i) = true ->
       (1 < version (item_object i))%Z ->
       emit i w = then_element "m"%char)
   /\ (visible (item_object i) = false ->
       emit i w = then_element "d"%char))
  /\ (m_type (this (m_file w)) <> Change ->
      emit i w = run_calls (item_calls (this (m_file w)) i) w
      /\ m_last_op (snd (emit i w)) = m_last_op w).
Proof.
  rewrite emit_guarded. unfold inferred_operation. split.
  - intros ->. cbn [FileType_eqb when]. cbv zeta.
    repeat split.
    + intros -> ->. reflexivity.
    + intros -> Hv.
      destruct (Z.eqb_spec (version (item_object i)) 1); [lia|].
      reflexivity.
    + intros ->. reflexivity.
  - intros Hk.
    destruct (FileFacts.FileType_eqb_spec (m_type (this (m_file w))) Change)
      as [E|_]; [contradiction|].
    cbn [when]. unfold bind at 1 2, ret. split; [reflexivity|].
    apply run_calls_frame.
Qed.

(** *** The attributes of an element *)

Lemma leading_attributes_app attrs rest :
  forallb is_attribute attrs = true ->
  leading_attributes (attrs ++ rest) = attrs ++ leading_attributes rest.
Proof.
  induction attrs as [|c attrs IH]; cbn; [reflexivity|].
  intros E. apply andb_prop in E as [-> E]. now rewrite IH.
Qed.

Lemma attributes_of_transition name last op rest :
  (forall o, (op_name o =? name)%string = false) ->
  attributes_of name (transition_calls last op ++ rest)
  = attributes_of name rest.
Proof.
  intros Hn. unfold transition_calls, op_tag_calls.
  destruct (Ascii.eqb (tracked_char op) last); [reflexivity|].
  destruct (Ascii.eqb last zero); destruct op as [o|];
    cbn [app attributes_of]; rewrite ?Hn; reflexivity.
Qed.

Lemma item_attributes_are_attributes f i :
  forallb is_attribute (item_attributes f i) = true.
Proof.
  unfold item_attributes, meta_calls, location_calls.
  rewrite !forallb_app.
  destruct (version (item_object i) =? 0)%Z,
    (timestamp (item_object i) =? 0)%Z,
    (0 <? uid (item_object i))%Z,
    (changeset (item_object i) =? 0)%Z,
    (has_multiple_object_versions f
     && negb (FileType_eqb (m_type f) Change));
    destruct i as [n|y|r]; try destruct (defined (location n));
    reflexivity.
Qed.

Lemma item_children_head i :
  leading_attributes (item_children i ++ [EndElement]) = [].
Proof.
  unfold item_children.
  destruct i as [n|y|r]; cbn [item_object].
  - destruct (tags (node_object n)); reflexivity.
  - destruct (nodes y); [|reflexivity].
    destruct (tags (way_object y)); reflexivity.
  - destruct (members r); [|reflexivity].
    destruct (tags (relation_object r)); reflexivity.
Qed.

Lemma attributes_of_item_calls f i :
  attributes_of (element_name i) (item_calls f i) = item_attributes f i.
Proof.
  unfold item_calls. cbn [attributes_of]. rewrite String.eqb_refl.
  rewrite leading_attributes_app
    by apply item_attributes_are_attributes.
  now rewrite item_children_head, app_nil_r.
Qed.

Lemma emitted_attributes i w w' :
  emit i w = (Ok tt, w') ->
  attributes_of (element_name i) (emitted w w')
  = item_attributes (this (m_file w)) i.
Proof.
  intros E. apply emit_ok in E as ->.
  destruct (FileType_eqb (m_type (this (m_file w))) Change).
  - change (emitted w (set_last_op ?op (add_calls ?l w)))
      with (emitted w (add_calls l w)).
    rewrite emitted_add_calls, attributes_of_transition.
    + apply attributes_of_item_calls.
    + intros o. destruct o, i; reflexivity.
  - rewrite emitted_add_calls. apply attributes_of_item_calls.
Qed.

Lemma has_attribute_app name l1 l2 :
  has_attribute name (l1 ++ l2)
  = has_attribute name l1 || has_attribute name l2.
Proof. apply existsb_app. Qed.

Ltac attribute_cases f i :=
  unfold item_attributes, meta_calls, location_calls;
  rewrite !has_attribute_app;
  destruct (version (item_object i) =? 0)%Z,
    (timestamp (item_object i) =? 0)%Z,
    (0 <? uid (item_object i))%Z,
    (changeset (item_object i) =? 0)%Z,
    (has_multiple_object_versions f
     && negb (FileType_eqb (m_type f) Change));
  destruct i as [n|y|r]; try destruct (defined (location n));
  reflexivity.

Lemma item_attributes_optional f i :
  has_attribute "changeset" (item_attributes f i)
  = negb (changeset (item_object i) =? 0)%Z
  /\ has_attribute "uid" (item_attributes f i)
     = (0 <? uid (item_object i))%Z
  /\ has_attribute "user" (item_attributes f i)
     = (0 <? uid (item_object i))%Z
  /\ has_attribute "lat" (item_attributes f i)
     = match i with a_node n => defined (location n) | _ => false end
  /\ has_attribute "lon" (item_attributes f i)
     = match i with a_node n => defined (location n) | _ => false end
  /\ has_attribute "visible" (item_attributes f i)
     = (has_multiple_object_versions f
        && negb (FileType_eqb (m_type f) Change)).
Proof. repeat split; attribute_cases f i. Qed.

(** C7: the element of an item that was written has a changeset
    attribute exactly when the changeset is not 0, has the uid and
    user attributes exactly when the uid is positive, and, for a
    node, has the lat and lon attributes exactly when the location is
    defined. *)
Theorem optional_attributes i w w' :
  emit i w = (Ok tt, w') ->
  let o := item_object i in
  let attrs := attributes_of (element_name i) (emitted w w') in
  has_attribute "changeset" attrs = negb (changeset o =? 0)%Z
  /\ has_attribute "uid" attrs = (0 <? uid o)%Z
  /\ has_attribute "user" attrs = (0 <? uid o)%Z
  /\ has_attribute "lat" attrs
     = match i with a_node n => defined (location n) | _ => false end
  /\ has_attribute "lon" attrs
     = match i with a_node n => defined (location n) | _ => false end.
Proof.
  intros E. cbv zeta. rewrite (emitted_attributes i w w' E).
  destruct (item_attributes_optional (this (m_file w)) i)
    as (H1 & H2 & H3 & H4 & H5 & _).
  repeat split; assumption.
Qed.

(** C8: the element of an item that was written has a visible
    attribute exactly when the kind of the file has multiple object
    versions and is not Change, that is, exactly in a History file;
    whether the object is visible plays no part. *)
Theorem visible_attribute i w w' :
  emit i w = (Ok tt, w') ->
  let f := this (m_file w) in
  let attrs := attributes_of (element_name i) (emitted w w') in
  has_attribute "visible" attrs
  = (has_multiple_object_versions f
     && negb (FileType_eqb (m_type f) Change))
  /\ has_attribute "visible" attrs = FileType_eqb (m_type f) History
  /\ (m_type f = OSM \/ m_type f = Change ->
      has_attribute "visible" attrs = false).
Proof.
  intros E. cbv zeta. rewrite (emitted_attributes i w w' E).
  destruct (item_attributes_optional (this (m_file w)) i)
    as (_ & _ & _ & _ & _ & ->).
  unfold has_multiple_object_versions.
  destruct (m_type (this (m_file w))); repeat split;
    intros [E'|E']; discriminate.
Qed.

(** *** Runs *)

Lemma Operation_eqb_spec a b : reflect (a = b) (Operation_eqb a b).
Proof. destruct a, b; constructor; congruence. Qed.

Lemma op_char_eqb a b :
  Ascii.eqb (op_char a) (op_char b) = Operation_eqb a b.
Proof. destruct a, b; reflexivity. Qed.

Lemma op_char_not_zero o : Ascii.eqb (op_char o) zero = false.
Proof. destruct o; reflexivity. Qed.

Lemma runs_concat items : flat_map snd (runs items) = items.
Proof.
  induction items as [|i items IH]; cbn [runs]; [reflexivity|].
  destruct (runs items) as [|[o' g] rest]; cbn in IH |- *.
  - now subst items.
  - destruct (Operation_eqb _ o'); cbn; now rewrite <- IH.
Qed.

Lemma runs_groups items :
  Forall (fun g => snd g <> []
                   /\ Forall (fun i => inferred_operation (item_object i)
                                       = fst g) (snd g))
         (runs items).
Proof.
  induction items as [|i items IH]; cbn [runs]; [constructor|].
  destruct (runs items) as [|[o' g] rest].
  - repeat constructor. discriminate.
  - inversion IH as [|? ? [Hne Hall] Hrest]; subst.
    destruct (Operation_eqb_spec (inferred_operation (item_object i)) o')
      as [E|_].
    + constructor; [|assumption]. cbn [fst snd] in *.
      split; [discriminate|]. constructor; [reflexivity|].
      now rewrite E.
    + constructor; [|constructor; [split|]; assumption].
      split; [discriminate|]. now repeat constructor.
Qed.

Lemma runs_alternating items : alternating (runs items) = true.
Proof.
  induction items as [|i items IH]; cbn [runs]; [reflexivity|].
  destruct (runs items) as [|[o' g] rest]; [reflexivity|].
  destruct (Operation_eqb (inferred_operation (item_object i)) o')
    eqn:E.
  - destruct rest as [|[o2 g2] rest]; [reflexivity|].
    cbn [alternating fst] in IH |- *.
    apply andb_prop in IH as [H1 H2].
    destruct (Operation_eqb_spec (inferred_operation (item_object i)) o');
      [subst o' | discriminate].
    now rewrite H1, H2.
  - cbn [alternating fst]. cbn [alternating fst] in IH.
    now rewrite E, IH.
Qed.

Lemma stream_calls_runs f items : forall last,
  stream_calls f last items
  = match runs items with
    | [] => if Ascii.eqb last zero then [] else [EndElement]
    | (o, g) :: rest =>
        if Ascii.eqb (op_char o) last
        then flat_map (item_calls f) g ++ [EndElement]
             ++ flat_map (group_calls f) rest
        else (if Ascii.eqb last zero then [] else [EndElement])
             ++ flat_map (group_calls f) ((o, g) :: rest)
    end.
Proof.
  induction items as [|i items IH]; intros last;
    cbn [stream_calls runs]; [reflexivity|].
  set (o := inferred_operation (item_object i)).
  rewrite (IH (op_char o)), (op_char_not_zero o).
  unfold op_tag_calls.
  destruct (runs items) as [|[o' g'] rest].
  - cbn [flat_map group_calls fst snd app].
    destruct (Ascii.eqb (op_char o) last);
      [|destruct (Ascii.eqb last zero)];
      cbn [app]; rewrite ?app_nil_r, <- ?app_assoc; reflexivity.
  - rewrite op_char_eqb.
    replace (Operation_eqb o' o) with (Operation_eqb o o')
      by (destruct o, o'; reflexivity).
    destruct (Operation_eqb_spec o o') as [<-|_].
    + cbn [flat_map group_calls fst snd app].
      destruct (Ascii.eqb (op_char o) last);
        [|destruct (Ascii.eqb last zero)];
        cbn [app]; rewrite ?app_nil_r, <- ?app_assoc; reflexivity.
    + cbn [flat_map group_calls fst snd app].
      destruct (Ascii.eqb (op_char o) last);
        [|destruct (Ascii.eqb last zero)];
        cbn [app]; rewrite ?app_nil_r, <- ?app_assoc; reflexivity.
Qed.

Lemma stream_calls_from_none f items :
  stream_calls f zero items = flat_map (group_calls f) (runs items).
Proof.
  rewrite stream_calls_runs.
  destruct (runs items) as [|[o g] rest]; [reflexivity|].
  now rewrite op_char_not_zero.
Qed.

(** *** A whole change document *)

Lemma collection_then_transition items : forall w w2 w3,
  m_type (this (m_file w)) = Change ->
  handle_collection items w = (Ok tt, w2) ->
  open_close_op_tag zero w2 = (Ok tt, w3) ->
  w3 = set_last_op zero
         (add_calls (stream_calls (this (m_file w)) (m_last_op w) items)
            w).
Proof.
  induction items as [|i items IH]; intros w w2 w3 Hk E2 E3.
  - injection E2 as <-.
    apply (open_close_op_tag_ok None) in E3 as ->.
    unfold transition_calls, op_tag_calls. cbn [stream_calls tracked_char].
    rewrite Ascii.eqb_sym.
    destruct (Ascii.eqb (m_last_op w) zero); reflexivity.
  - unfold handle_collection in E2. cbn [for_each] in E2.
    apply bind_ok in E2 as ([] & w1 & E1 & E2).
    apply emit_ok in E1. rewrite Hk in E1. cbn [FileType_eqb] in E1.
    subst w1.
    match type of E2 with
    | for_each emit items ?w1 = _ => rewrite (IH w1 w2 w3 Hk E2 E3)
    end.
    cbn [stream_calls m_last_op set_last_op m_file add_calls].
    unfold transition_calls. cbn [tracked_char].
    rewrite set_last_op_add_calls, set_last_op_twice.
    unfold add_calls. cbn [m_file m_generator xml_calls m_last_op
                             set_last_op].
    now rewrite <- !app_assoc.
Qed.

Lemma xml_ok c w w' : xml c w = (Ok tt, w') -> w' = add_call c w.
Proof.
  unfold xml. destruct (returns_error (xml_calls w) c);
    [discriminate | now intros [= <-]].
Qed.

Lemma document_ok meta items os w w' :
  m_type (this (m_file w)) = Change ->
  document meta items os w = (Ok tt, w') ->
  m_last_op w' = zero
  /\ xml_calls w'
     = xml_calls w
       ++ set_meta_calls (this (m_file w)) (m_generator w) meta
       ++ stream_calls (this (m_file w)) (m_last_op w) items
       ++ [EndElement; FreeTextWriter].
Proof.
  intros Hk E. unfold document in E.
  apply bind_ok in E as ([] & w1 & E1 & E).
  rewrite (proj1 (set_meta_scripted meta)) in E1.
  apply run_calls_ok in E1. subst w1.
  apply bind_ok in E as ([] & w2 & E2 & E).
  unfold XMLOut.close in E.
  apply bind_ok in E as (f & w2' & Ef & E).
  unfold file, reads in Ef. injection Ef as <- <-.
  apply bind_ok in E as ([] & w3 & E3 & E).
  assert (Hk1 : m_type
                  (this (m_file
                           (add_calls
                              (set_meta_calls (this (m_file w))
                                 (m_generator w) meta) w))) = Change)
    by exact Hk.
  assert (Hk2 : m_type (this (m_file w2)) = Change).
  { clear E3 E. revert E2 Hk1. generalize (add_calls
      (set_meta_calls (this (m_file w)) (m_generator w) meta) w).
    unfold handle_collection.
    induction items as [|i items IH]; intros w1 E2 Hk1.
    - now injection E2 as <-.
    - cbn [for_each] in E2.
      apply bind_ok in E2 as ([] & wi & Ei & E2).
      apply (IH wi E2). apply emit_ok in Ei. subst wi.
      now destruct (FileType_eqb (m_type (this (m_file w1))) Change). }
  rewrite Hk2 in E3. cbn [FileType_eqb when] in E3.
  pose proof (collection_then_transition items _ w2 w3 Hk1 E2 E3)
    as E23.
  apply bind_ok in E as ([] & w4 & E4 & E).
  apply xml_ok in E4.
  apply bind_ok in E as ([] & w5 & E5 & E).
  unfold free_text_writer, modify in E5. injection E5 as E5.
  unfold on_file in E. injection E as _ E.
  subst w' w5 w4 w3.
  cbn [m_last_op xml_calls set_last_op add_call add_calls m_file
         m_generator].
  split; [reflexivity|].
  rewrite <- !app_assoc. reflexivity.
Qed.

(** *** Opened and closed elements *)

Lemma opened_elements_app l1 l2 :
  opened_elements (l1 ++ l2) = opened_elements l1 ++ opened_elements l2.
Proof.
  induction l1 as [|c l1 IH]; [reflexivity|].
  destruct c; cbn; now rewrite ?IH.
Qed.

Lemma opened_attributes l :
  forallb is_attribute l = true -> opened_elements l = [].
Proof.
  induction l as [|c l IH]; [reflexivity|].
  destruct c; cbn; try discriminate; exact IH.
Qed.

Lemma closed_attributes l : forall stack rest,
  forallb is_attribute l = true ->
  closed_elements stack (l ++ rest) = closed_elements stack rest.
Proof.
  induction l as [|c l IH]; intros stack rest; [reflexivity|].
  destruct c; cbn; try discriminate; apply IH.
Qed.

Lemma opened_flat_map_leaf {A} (leaf : A -> list XmlCall) xs :
  (forall x, wrappers (opened_elements (leaf x)) = []) ->
  wrappers (opened_elements (flat_map leaf xs)) = [].
Proof.
  intros Hleaf. unfold wrappers in *.
  induction xs as [|x xs IH]; [reflexivity|].
  cbn [flat_map]. now rewrite opened_elements_app, filter_app, Hleaf, IH.
Qed.

Lemma closed_flat_map_leaf {A} (leaf : A -> list XmlCall) xs :
  (forall x stack rest,
      wrappers (closed_elements stack (leaf x ++ rest))
      = wrappers (closed_elements stack rest)) ->
  forall stack rest,
    wrappers (closed_elements stack (flat_map leaf xs ++ rest))
    = wrappers (closed_elements stack rest).
Proof.
  intros Hleaf stack rest.
  induction xs as [|x xs IH]; [reflexivity|].
  cbn [flat_map]. now rewrite <- app_assoc, Hleaf, IH.
Qed.

Lemma opened_item f i : wrappers (opened_elements (item_calls f i)) = [].
Proof.
  unfold item_calls, item_children.
  change (StartElement (element_name i) :: ?l)
    with ([StartElement (element_name i)] ++ l).
  rewrite !opened_elements_app,
    (opened_attributes _ (item_attributes_are_attributes f i)).
  unfold wrappers. rewrite !filter_app.
  fold (wrappers (opened_elements
                    (flat_map tag_calls (tags (item_object i))))).
  rewrite (opened_flat_map_leaf tag_calls) by reflexivity.
  destruct i as [n|y|r]; cbn [app filter opened_elements element_name].
  - reflexivity.
  - fold (wrappers (opened_elements (flat_map nd_calls (nodes y)))).
    now rewrite (opened_flat_map_leaf nd_calls) by reflexivity.
  - fold (wrappers (opened_elements
                      (flat_map member_calls (members r)))).
    now rewrite (opened_flat_map_leaf member_calls) by reflexivity.
Qed.

Lemma closed_item f i stack rest :
  wrappers (closed_elements stack (item_calls f i ++ rest))
  = wrappers (closed_elements stack rest).
Proof.
  unfold item_calls, item_children.
  cbn [app closed_elements]. rewrite <- !app_assoc.
  rewrite closed_attributes by apply item_attributes_are_attributes.
  assert (Htags : forall st r,
             wrappers (closed_elements st
                         (flat_map tag_calls (tags (item_object i)) ++ r))
             = wrappers (closed_elements st r))
    by (apply closed_flat_map_leaf; reflexivity).
  destruct i as [n|y|r]; cbn [app element_name].
  - rewrite Htags. destruct stack; reflexivity.
  - rewrite (closed_flat_map_leaf nd_calls) by reflexivity.
    rewrite Htags. destruct stack; reflexivity.
  - rewrite (closed_flat_map_leaf member_calls) by reflexivity.
    rewrite Htags. destruct stack; reflexivity.
Qed.

Lemma is_wrapper_op_name o : is_wrapper (op_name o) = true.
Proof. destruct o; reflexivity. Qed.

Lemma opened_groups f gs :
  wrappers (opened_elements (flat_map (group_calls f) gs))
  = map (fun g => op_name (fst g)) gs.
Proof.
  induction gs as [|g gs IH]; [reflexivity|].
  cbn [flat_map map].
  pose proof (opened_flat_map_leaf (item_calls f) (snd g)
                (opened_item f)) as Hitems.
  unfold wrappers in *.
  rewrite opened_elements_app, filter_app, IH.
  unfold group_calls. cbn [opened_elements filter].
  rewrite is_wrapper_op_name, opened_elements_app, filter_app, Hitems.
  reflexivity.
Qed.

Lemma closed_groups f gs : forall stack rest,
  wrappers (closed_elements stack (flat_map (group_calls f) gs ++ rest))
  = map (fun g => op_name (fst g)) gs
    ++ wrappers (closed_elements stack rest).
Proof.
  induction gs as [|g gs IH]; intros stack rest; [reflexivity|].
  cbn [flat_map map]. unfold group_calls at 1.
  cbn [app closed_elements]. rewrite <- !app_assoc.
  rewrite (closed_flat_map_leaf (item_calls f))
    by (intros; apply closed_item).
  cbn [app closed_elements]. unfold wrappers at 1. cbn [filter].
  rewrite is_wrapper_op_name. cbn [app]. f_equal. apply IH.
Qed.

Lemma set_meta_opened f generator meta :
  wrappers (opened_elements (set_meta_calls f generator meta)) = [].
Proof.
  unfold set_meta_calls.
  destruct (FileType_eqb (m_type f) Change),
    (bounds_defined (bounds meta)); reflexivity.
Qed.

Lemma set_meta_closed f generator meta rest :
  wrappers (closed_elements [] (set_meta_calls f generator meta ++ rest))
  = wrappers
      (closed_elements
         [if FileType_eqb (m_type f) Change then "osmChange" else "osm"]
         rest).
Proof.
  unfold set_meta_calls.
  destruct (FileType_eqb (m_type f) Change),
    (bounds_defined (bounds meta)); reflexivity.
Qed.

Lemma five_operations items :
  map (fun i => inferred_operation (item_object i)) items
  = [Create; Create; Modify; Delete; Delete] ->
  map (fun g => (fst g, List.length (snd g))) (runs items)
  = [(Create, 2); (Modify, 1); (Delete, 2)].
Proof.
  intros Hops.
  destruct items as [|i1 [|i2 [|i3 [|i4 [|i5 [|]]]]]]; try discriminate.
  injection Hops as H1 H2 H3 H4 H5.
  cbn [runs]. rewrite H1, H2, H3, H4, H5. reflexivity.
Qed.

(** C1: a change document that was written and closed has one
    wrapper element for each maximal run of consecutive items with the
    same inferred operation, around the elements of that run, in the
    order of the runs; the wrapper elements that are closed are those
    that were opened, so that there are as many closings as openings.
    Items with the operations create, create, modify, delete, delete
    give the three wrappers create, modify and delete with 2, 1 and 2
    items. *)
Theorem grouping_invariant meta items os p generator w' :
  m_type (this p) = Change ->
  document meta items os (mkXMLOutput p generator [] zero) = (Ok tt, w') ->
  let groups := runs items in
  let names := map (fun g => op_name (fst g)) groups in
  (flat_map snd groups = items
   /\ Forall (fun g =>
                snd g <> []
                /\ Forall (fun i => inferred_operation (item_object i)
                                    = fst g) (snd g)) groups
   /\ alternating groups = true)
  /\ xml_calls w'
     = set_meta_calls (this p) generator meta
       ++ flat_map (group_calls (this p)) groups
       ++ [EndElement; FreeTextWriter]
  /\ wrappers (opened_elements (xml_calls w')) = names
  /\ wrappers (closed_elements [] (xml_calls w')) = names
  /\ List.length (wrappers (closed_elements [] (xml_calls w')))
     = List.length (wrappers (opened_elements (xml_calls w')))
  /\ (map (fun i => inferred_operation (item_object i)) items
      = [Create; Create; Modify; Delete; Delete] ->
      map (fun g => (fst g, List.length (snd g))) groups
      = [(Create, 2); (Modify, 1); (Delete, 2)]
      /\ names = ["create"; "modify"; "delete"]).
Proof.
  intros Hk E. cbv zeta.
  destruct (document_ok meta items os
              (mkXMLOutput p generator [] zero) w' Hk E) as [_ Ecalls].
  cbn [xml_calls m_file m_generator m_last_op app] in Ecalls.
  rewrite stream_calls_from_none in Ecalls.
  assert (Hopen : wrappers (opened_elements (xml_calls w'))
                  = map (fun g => op_name (fst g)) (runs items)).
  { rewrite Ecalls. unfold wrappers.
    rewrite !opened_elements_app, !filter_app.
    fold (wrappers (opened_elements
                      (set_meta_calls (this p) generator meta))).
    fold (wrappers (opened_elements
                      (flat_map (group_calls (this p)) (runs items)))).
    rewrite set_meta_opened, opened_groups. cbn. apply app_nil_r. }
  assert (Hclose : wrappers (closed_elements [] (xml_calls w'))
                   = map (fun g => op_name (fst g)) (runs items)).
  { rewrite Ecalls, set_meta_closed, closed_groups.
    destruct (FileType_eqb (m_type (this p)) Change); cbn;
      apply app_nil_r. }
  split; [split; [apply runs_concat
                 | split; [apply runs_groups | apply runs_alternating]]|].
  split; [exact Ecalls|]. split; [exact Hopen|]. split; [exact Hclose|].
  split; [now rewrite Hopen, Hclose|].
  intros Hops. pose proof (five_operations items Hops) as Hfive.
  split; [exact Hfive|].
  destruct (runs items) as [|[o1 g1] [|[o2 g2] [|[o3 g3] [|]]]];
    try discriminate.
  cbn in Hfive. now injection Hfive as -> _ -> _ -> _.
Qed.

End Writer.

(** *** Concrete runs *)

Lemma grouping_invariant_witness :
  let w := Examples.writer_on Change in
  let w' := snd (@document Examples.reliable_writer Examples.plain_names
                   Examples.no_bounds Examples.five_items Examples.quiet w)
  in
  map (fun i => inferred_operation (item_object i)) Examples.five_items
  = [Create; Create; Modify; Delete; Delete]
  /\ wrappers (opened_elements (xml_calls w'))
     = ["create"; "modify"; "delete"]
  /\ wrappers (closed_elements [] (xml_calls w'))
     = ["create"; "modify"; "delete"]
  /\ map (fun g => (fst g, List.length (snd g))) (runs Examples.five_items)
     = [(Create, 2); (Modify, 1); (Delete, 2)].
Proof.
  intros w w'.
  assert (Hops : map (fun i => inferred_operation (item_object i))
                   Examples.five_items
                 = [Create; Create; Modify; Delete; Delete])
    by reflexivity.
  assert (E : @document Examples.reliable_writer Examples.plain_names
                Examples.no_bounds Examples.five_items Examples.quiet
                (mkXMLOutput (fresh (mkOSMFile Change XML "planet" (-1) 0))
                   "osmium" [] zero)
              = (Ok tt, w')) by (vm_compute; reflexivity).
  destruct (@grouping_invariant Examples.reliable_writer
              Examples.plain_names Examples.no_bounds Examples.five_items
              Examples.quiet
              (fresh (mkOSMFile Change XML "planet" (-1) 0)) "osmium" w'
              eq_refl E)
    as (_ & _ & Hopen & Hclose & _ & Hfive).
  destruct (Hfive Hops) as [Hcount Hnames].
  split; [exact Hops|].
  split; [now rewrite Hopen|]. split; [now rewrite Hclose|].
  exact Hcount.
Defined.

Lemma grouping_transition_witness :
  let w := set_last_op "c" (Examples.writer_on Change) in
  let w' := snd (@open_close_op_tag Examples.reliable_writer "d" w) in
  @open_close_op_tag Examples.reliable_writer "d" w = (Ok tt, w')
  /\ m_last_op w' = "d"%char
  /\ xml_calls w' = [EndElement; StartElement "delete"].
Proof.
  intros w w'.
  assert (E : @open_close_op_tag Examples.reliable_writer "d" w
              = (Ok tt, w')) by (vm_compute; reflexivity).
  destruct (proj2 (@grouping_transition Examples.reliable_writer
                     (Some Delete) w) w' E) as (Hop & _ & Hcalls).
  split; [exact E|]. split; [exact Hop | exact Hcalls].
Defined.

Lemma operation_of_an_item_witness :
  let w := Examples.writer_on Change in
  let i := a_node (mkNode (Examples.object 1 true)
                     (mkLocation false 0 0)) in
  m_type (this (m_file w)) = Change
  /\ visible (item_object i) = true
  /\ version (item_object i) = 1%Z
  /\ @emit Examples.reliable_writer Examples.plain_names i w
     = bind (@open_close_op_tag Examples.reliable_writer "c")
         (fun _ => @run_calls Examples.reliable_writer
                     (@item_calls Examples.plain_names
                        (this (m_file w)) i)) w.
Proof.
  intros w i.
  split; [reflexivity|]. split; [reflexivity|]. split; [reflexivity|].
  exact (proj1 (proj1 (@operation_of_an_item Examples.reliable_writer
                         Examples.plain_names i w) eq_refl)
           eq_refl eq_refl).
Defined.

Lemma optional_attributes_witness :
  let w := Examples.writer_on OSM in
  let i := a_node (mkNode (Examples.object 1 true)
                     (mkLocation true 515000000 1000000)) in
  let w' := snd (@emit Examples.reliable_writer Examples.plain_names i w) in
  let attrs := attributes_of "node" (emitted w w') in
  @emit Examples.reliable_writer Examples.plain_names i w = (Ok tt, w')
  /\ has_attribute "changeset" attrs = false
  /\ has_attribute "uid" attrs = false
  /\ has_attribute "user" attrs = false
  /\ has_attribute "lat" attrs = true
  /\ has_attribute "lon" attrs = true.
Proof.
  intros w i w' attrs.
  assert (E : @emit Examples.reliable_writer Examples.plain_names i w
              = (Ok tt, w')) by (vm_compute; reflexivity).
  split; [exact E|].
  exact (@optional_attributes Examples.reliable_writer Examples.plain_names
           i w w' E).
Defined.

Lemma visible_attribute_witness :
  let w := Examples.writer_on History in
  let i := a_node (mkNode (Examples.object 3 false)
                     (mkLocation false 0 0)) in
  let w' := snd (@emit Examples.reliable_writer Examples.plain_names i w) in
  @emit Examples.reliable_writer Examples.plain_names i w = (Ok tt, w')
  /\ has_attribute "visible" (attributes_of "node" (emitted w w')) = true.
Proof.
  intros w i w'.
  assert (E : @emit Examples.reliable_writer Examples.plain_names i w
              = (Ok tt, w')) by (vm_compute; reflexivity).
  split; [exact E|].
  exact (proj1 (proj2 (@visible_attribute Examples.reliable_writer
                         Examples.plain_names i w w' E))).
Defined.

End XMLFacts.


(** ** More facts about the file handle *)

Module FileExtras.
Import StdString File Spec FileRest Words.

(** *** Texts before and after a character *)

Lemma last_segment_drop s : last_segment s = drop (segment_start s) s.
Proof.
  induction s as [|a s' IH]; [reflexivity|].
  cbn [last_segment segment_start].
  destruct (contains "/" s'); [exact IH|].
  destruct (Ascii.eqb a "/"); reflexivity.
Qed.

Lemma segment_start_le s : segment_start s <= String.length s.
Proof.
  induction s as [|a s' IH]; cbn [segment_start String.length]; [lia|].
  destruct (contains "/" s'); [lia|].
  destruct (Ascii.eqb a "/"); lia.
Qed.

Lemma length_drop k : forall s,
  k <= String.length s -> String.length (drop k s) = String.length s - k.
Proof.
  induction k as [|k IH]; intros s Hk; cbn [drop]; [lia|].
  destruct s as [|a s']; cbn [String.length] in *; [lia|].
  rewrite IH by lia. lia.
Qed.

Lemma drop_drop a : forall b s, drop (a + b) s = drop b (drop a s).
Proof.
  induction a as [|a IH]; intros b s; [reflexivity|].
  destruct s as [|c s']; cbn [drop Nat.add].
  - destruct b; reflexivity.
  - apply IH.
Qed.

Lemma before_length c s :
  contains c s = true -> String.length (before c s) < String.length s.
Proof.
  induction s as [|a s' IH]; cbn [contains before]; [discriminate|].
  destruct (Ascii.eqb a c); cbn [orb String.length]; [lia|].
  intros H. specialize (IH H). lia.
Qed.

Lemma before_without c s : contains c s = false -> before c s = s.
Proof.
  induction s as [|a s' IH]; cbn [contains before]; [reflexivity|].
  destruct (Ascii.eqb a c); cbn [orb]; [discriminate|].
  intros H. now rewrite IH.
Qed.

Lemma drop_after c s :
  contains c s = true -> drop (S (String.length (before c s))) s = after c s.
Proof.
  induction s as [|a s' IH]; cbn [contains before after]; [discriminate|].
  destruct (Ascii.eqb a c); cbn [orb String.length drop]; [reflexivity|].
  exact IH.
Qed.

Lemma substring_before c s :
  String.substring 0 (String.length (before c s)) s = before c s.
Proof.
  induction s as [|a s' IH]; [reflexivity|].
  cbn [before]. destruct (Ascii.eqb a c); [reflexivity|].
  cbn [String.length String.substring]. now rewrite IH.
Qed.

Lemma substring_drop k : forall s,
  k <= String.length s ->
  String.substring k (String.length s - k) s = drop k s.
Proof.
  induction k as [|k IH]; intros s Hk.
  - rewrite Nat.sub_0_r. apply FileFacts.substring_all.
  - destruct s as [|a s']; cbn [String.length] in *; [lia|].
    cbn [String.substring drop]. apply IH. lia.
Qed.

(** *** The string functions, on texts *)

Lemma find_first_at_skip c k : forall s i,
  k <= String.length s ->
  find_first_at c (i + N.of_nat k) i s
  = find_first_at c (i + N.of_nat k) (i + N.of_nat k) (drop k s).
Proof.
  induction k as [|k IH]; intros s i Hk.
  - cbn [drop N.of_nat]. now rewrite N.add_0_r.
  - destruct s as [|a s']; cbn [String.length] in Hk; [lia|].
    cbn [find_first_at drop].
    destruct (N.leb_spec (i + N.of_nat (S k)) i) as [H|_]; [lia|].
    cbn [andb].
    replace (i + N.of_nat (S k))%N with (i + 1 + N.of_nat k)%N by lia.
    apply IH. lia.
Qed.

Lemma find_first_at_here c s : forall pos i,
  (pos <= i)%N ->
  find_first_at c pos i s
  = if contains c s then (i + N.of_nat (String.length (before c s)))%N
    else npos.
Proof.
  induction s as [|a s' IH]; intros pos i Hp; [reflexivity|].
  cbn [find_first_at contains before].
  destruct (N.leb_spec pos i) as [_|H]; [|lia]. cbn [andb].
  destruct (Ascii.eqb a c); cbn [orb String.length].
  - now rewrite N.add_0_r.
  - rewrite IH by lia. destruct (contains c s'); [lia | reflexivity].
Qed.

Lemma substr_drop s k :
  (size s < npos)%N -> k <= String.length s ->
  substr s (N.of_nat k) npos = Ok (drop k s).
Proof.
  unfold substr, size. intros Hs Hk.
  destruct (N.ltb_spec (N.of_nat (String.length s)) (N.of_nat k)) as [H|_];
    [lia|].
  rewrite N.min_r by (unfold size in Hs; lia).
  rewrite Nat2N.id.
  replace (N.to_nat (N.of_nat (String.length s) - N.of_nat k))
    with (String.length s - k) by lia.
  now rewrite substring_drop.
Qed.

Lemma size_t_add_small a b :
  (a + b < npos)%N -> size_t_add a b = (a + b)%N.
Proof.
  intros H. unfold size_t_add. apply N.mod_small.
  assert (npos < 2 ^ 64)%N by reflexivity. lia.
Qed.

(** The text after the first [c] at or after the index [k]. *)
Lemma substr_after_first c s k :
  (size s < npos)%N -> k <= String.length s ->
  contains c (drop k s) = true ->
  substr s (size_t_add (find_first_of s c (N.of_nat k)) 1) npos
  = Ok (after c (drop k s)).
Proof.
  intros Hs Hk Hc. unfold find_first_of.
  pose proof (find_first_at_skip c k s 0 Hk) as E.
  rewrite N.add_0_l in E. rewrite E, find_first_at_here, Hc by lia.
  pose proof (before_length c _ Hc) as Hb.
  rewrite (length_drop k s Hk) in Hb.
  unfold size in Hs.
  rewrite size_t_add_small by lia.
  replace (N.of_nat k + N.of_nat (String.length (before c (drop k s))) + 1)%N
    with (N.of_nat (k + S (String.length (before c (drop k s))))) by lia.
  rewrite substr_drop by (trivial; lia).
  now rewrite drop_drop, drop_after.
Qed.

Lemma isolate_suffix_text filename :
  (size filename < npos)%N ->
  isolate_suffix filename
  = Ok (if contains "." (last_segment filename)
        then after "." (last_segment filename)
        else filename).
Proof.
  intros Hs. destruct (contains "." (last_segment filename)) eqn:Hdot.
  - unfold isolate_suffix.
    rewrite (FileFacts.after_last_slash_segment _ Hs).
    rewrite last_segment_drop in Hdot |- *.
    apply substr_after_first; trivial. apply segment_start_le.
  - now apply FileFacts.isolate_suffix_without_dot.
Qed.

(** X1: the suffix that the constructor isolates is the text after the
    first dot of the last segment of the name (the segment after the last
    slash); when that segment has no dot, it is the whole name. *)
Theorem isolate_suffix_of_a_name filename :
  (size filename < npos)%N ->
  isolate_suffix filename
  = Ok (if contains "." (last_segment filename)
        then after "." (last_segment filename)
        else filename).
Proof. exact (isolate_suffix_text filename). Qed.

Lemma isolate_suffix_of_a_name_witness :
  (size "/data/v1.2/planet.osm.bz2" < npos)%N
  /\ isolate_suffix "/data/v1.2/planet.osm.bz2" = Ok "osm.bz2"
  /\ last_segment "/data/v1.2/planet.osm.bz2" = "planet.osm.bz2".
Proof.
  assert (H : (size "/data/v1.2/planet.osm.bz2" < npos)%N) by reflexivity.
  split; [exact H|]. split; [|reflexivity].
  exact (isolate_suffix_of_a_name "/data/v1.2/planet.osm.bz2" H).
Defined.

(** X2: [filename_without_suffix] returns the text after the first dot of
    the file name, and the whole name when it has no dot: for a name
    without a slash this is the suffix that the constructor isolates, not
    the name without it. *)
Theorem filename_without_suffix_is_the_suffix f :
  (size (m_filename f) < npos)%N ->
  filename_without_suffix f
  = Ok (if contains "." (m_filename f) then after "." (m_filename f)
        else m_filename f)
  /\ (contains "/" (m_filename f) = false ->
      filename_without_suffix f = isolate_suffix (m_filename f)).
Proof.
  intros Hs.
  assert (E : filename_without_suffix f
              = Ok (if contains "." (m_filename f)
                    then after "." (m_filename f) else m_filename f)).
  { unfold filename_without_suffix.
    destruct (contains "." (m_filename f)) eqn:Hdot.
    - apply (substr_after_first "." (m_filename f) 0 Hs); [lia | exact Hdot].
    - unfold find_first_of.
      rewrite find_first_at_here, Hdot by lia.
      change (size_t_add npos 1) with (N.of_nat 0).
      apply (substr_drop _ 0 Hs). lia. }
  split; [exact E|].
  intros Hslash. rewrite E, (isolate_suffix_text _ Hs).
  rewrite last_segment_drop, (FileFacts.segment_start_no_slash _ Hslash).
  reflexivity.
Qed.

Lemma filename_without_suffix_is_the_suffix_witness :
  let f := mkOSMFile OSM XMLbz2 "planet.osm.bz2" (-1) 0 in
  (size (m_filename f) < npos)%N
  /\ contains "/" (m_filename f) = false
  /\ filename_without_suffix f = Ok "osm.bz2"
  /\ filename_without_suffix f = isolate_suffix (m_filename f).
Proof.
  intros f.
  assert (H : (size (m_filename f) < npos)%N) by reflexivity.
  split; [exact H|]. split; [reflexivity|].
  split;
    [exact (proj1 (filename_without_suffix_is_the_suffix f H))
    | exact (proj2 (filename_without_suffix_is_the_suffix f H) eq_refl)].
Defined.

(** *** Names without a dot in their last segment *)

Lemma after_length c s :
  contains c s = true -> String.length (after c s) < String.length s.
Proof.
  induction s as [|a s' IH]; cbn [contains after]; [discriminate|].
  destruct (Ascii.eqb a c); cbn [orb String.length]; [lia|].
  intros Hc. specialize (IH Hc). lia.
Qed.

Lemma last_segment_length s :
  String.length (last_segment s) <= String.length s.
Proof.
  rewrite last_segment_drop, length_drop by apply segment_start_le. lia.
Qed.

Lemma last_segment_without_slash s :
  contains "/" s = false -> last_segment s = s.
Proof.
  intros Hs.
  now rewrite last_segment_drop, (FileFacts.segment_start_no_slash _ Hs).
Qed.

(** The isolated suffix is the whole name exactly when the last segment
    of the name has no dot. *)
Lemma isolate_suffix_whole filename :
  (size filename < npos)%N ->
  isolate_suffix filename = Ok filename
  <-> contains "." (last_segment filename) = false.
Proof.
  intros Hs. rewrite (isolate_suffix_text _ Hs).
  destruct (contains "." (last_segment filename)) eqn:Hdot.
  - split; [|discriminate]. intros E. exfalso.
    injection E as E.
    pose proof (after_length "." _ Hdot) as H1.
    pose proof (last_segment_length filename) as H2.
    rewrite E in H1. lia.
  - split; reflexivity.
Qed.

(** C9, as stated, fails: the name "dir/osc" is not empty, is not a URL
    and has no dot after its last slash; the string that remains after
    that slash is "osc", which the table gives the Change kind with the
    XML encoding, but the constructor isolates the suffix "dir/osc" and
    the handle gets the default of a plain file. *)
Lemma last_segment_is_not_looked_up :
  (size "dir/osc" < npos)%N
  /\ "dir/osc" <> ""
  /\ is_url "dir/osc" = Ok false
  /\ contains "." (last_segment "dir/osc") = false
  /\ last_segment "dir/osc" = "osc"
  /\ documented "osc" = (Change, XML)
  /\ isolate_suffix "dir/osc" = Ok "dir/osc"
  /\ OSMFile_new "dir/osc" = Ok (mkOSMFile OSM PBF "dir/osc" (-1) 0)
  /\ ~ (forall filename,
           (size filename < npos)%N ->
           filename <> "" ->
           is_url filename = Ok false ->
           contains "." (last_segment filename) = false ->
           exists f, OSMFile_new filename = Ok f
                     /\ kind_and_encoding f
                        = documented (last_segment filename)).
Proof.
  repeat (split; [first [reflexivity | discriminate]|]).
  intros H.
  destruct (H "dir/osc" eq_refl) as (f & Hf & Hk);
    [discriminate | reflexivity | reflexivity |].
  injection Hf as <-. discriminate Hk.
Qed.

(** C9, amended: for a non-empty name that is not a URL and has no dot
    after its last slash (no dot at all when it has no slash), the suffix
    that the constructor isolates is the entire name as it was given,
    directory part included, and the handle gets the kind and the
    encoding that the table gives this whole string (the name "-" gets
    them from the settings of the standard streams, which are the
    default of the table).  Without a slash the whole name is what
    remains after the last slash; the whole name is the suffix for no
    other names than these.  The bare name "osc" gives the Change kind
    with the XML encoding, and "dir/osc" the default of a plain file. *)
Theorem name_without_dot_is_looked_up_whole filename :
  (size filename < npos)%N ->
  filename <> "" ->
  is_url filename = Ok false ->
  contains "." (last_segment filename) = false ->
  isolate_suffix filename = Ok filename
  /\ OSMFile_new filename
     = Ok (if filename =? "-"
           then default_settings_for_stdinout
                  (set_filename "" (mkOSMFile OSM PBF filename (-1) 0))
           else set_type_and_encoding filename
                  (mkOSMFile OSM PBF filename (-1) 0))
  /\ (exists f, OSMFile_new filename = Ok f
                /\ kind_and_encoding f = documented filename)
  /\ (contains "/" filename = false -> last_segment filename = filename)
  /\ (forall name,
        (size name < npos)%N ->
        isolate_suffix name = Ok name
        <-> contains "." (last_segment name) = false)
  /\ OSMFile_new "osc" = Ok (mkOSMFile Change XML "osc" (-1) 0)
  /\ OSMFile_new "dir/osc" = Ok (mkOSMFile OSM PBF "dir/osc" (-1) 0).
Proof.
  intros Hsize Hne Hurl Hdot.
  pose proof (proj2 (isolate_suffix_whole filename Hsize) Hdot) as Hsuf.
  assert (Hnew : OSMFile_new filename
                 = Ok (if filename =? "-"
                       then default_settings_for_stdinout
                              (set_filename ""
                                 (mkOSMFile OSM PBF filename (-1) 0))
                       else set_type_and_encoding filename
                              (mkOSMFile OSM PBF filename (-1) 0))).
  { unfold OSMFile_new. cbn [m_filename].
    apply String.eqb_neq in Hne. rewrite Hne. cbn [orb].
    destruct (filename =? "-"); [reflexivity|].
    now rewrite Hurl, Hsuf. }
  split; [exact Hsuf|]. split; [exact Hnew|].
  split.
  - rewrite Hnew. eexists. split; [reflexivity|].
    destruct (String.eqb_spec filename "-") as [->|_]; [reflexivity|].
    apply FileFacts.set_type_and_encoding_documented.
  - split; [apply last_segment_without_slash|].
    split; [exact isolate_suffix_whole|].
    split; reflexivity.
Qed.

Lemma name_without_dot_is_looked_up_whole_witness :
  (size "osc" < npos)%N
  /\ "osc" <> ""
  /\ is_url "osc" = Ok false
  /\ contains "." (last_segment "osc") = false
  /\ isolate_suffix "osc" = Ok "osc"
  /\ exists f, OSMFile_new "osc" = Ok f
               /\ kind_and_encoding f = documented "osc".
Proof.
  assert (H1 : (size "osc" < npos)%N) by reflexivity.
  assert (H2 : "osc" <> "") by discriminate.
  destruct (name_without_dot_is_looked_up_whole "osc" H1 H2
              eq_refl eq_refl) as (Hsuf & _ & Hnew & _).
  split; [exact H1|]. split; [exact H2|].
  split; [reflexivity|]. split; [reflexivity|].
  split; [exact Hsuf | exact Hnew].
Defined.

(** *** Names of URLs *)

Lemma protocol_is_before filename :
  (size filename < npos)%N ->
  protocol_of filename = Ok (before ":" filename).
Proof.
  intros Hs. unfold protocol_of, find_first_of, substr.
  rewrite find_first_at_here by lia.
  destruct (N.ltb_spec (size filename) 0) as [H|_]; [lia|].
  rewrite N.sub_0_r.
  destruct (contains ":" filename) eqn:Hc.
  - pose proof (before_length ":" filename Hc) as Hb.
    unfold size. rewrite N.min_l by lia.
    rewrite N.add_0_l, Nat2N.id. now rewrite substring_before.
  - unfold size in *. rewrite N.min_r by lia.
    rewrite Nat2N.id, FileFacts.substring_all, before_without; trivial.
Qed.

Lemma prefix_nil s : String.prefix "" s = true.
Proof. destruct s; reflexivity. Qed.

Lemma before_is_scheme c s : forall p,
  contains c p = false ->
  (before c s =? p)
  = ((s =? p) || String.prefix (p ++ String c "") s).
Proof.
  induction s as [|a s' IH]; intros p Hp.
  - destruct p; reflexivity.
  - cbn [before]. destruct (Ascii.eqb_spec a c) as [->|Hac].
    + destruct p as [|b p'].
      * cbn. destruct (ascii_dec c c); [|contradiction].
        now rewrite prefix_nil.
      * cbn in Hp |- *. apply orb_false_iff in Hp as [Hb _].
        rewrite Ascii.eqb_sym, Hb. cbn.
        destruct (ascii_dec b c) as [->|_]; [|reflexivity].
        now rewrite Ascii.eqb_refl in Hb.
    + destruct p as [|b p'].
      * cbn. destruct (ascii_dec c a) as [->|_]; [contradiction|reflexivity].
      * cbn in Hp |- *. apply orb_false_iff in Hp as [_ Hp].
        rewrite (IH p' Hp).
        destruct (Ascii.eqb_spec a b) as [->|Hab].
        -- destruct (ascii_dec b b); [reflexivity | contradiction].
        -- destruct (ascii_dec b a) as [->|_]; [contradiction|reflexivity].
Qed.

(** X3: a name counts as a URL exactly when it is "http" or "https", or
    starts with "http:" or "https:"; such a name (other than the names of
    the standard streams) is constructed as a Plain file in the XML
    encoding whatever its suffix is, with the name kept as it is. *)
Theorem url_names filename :
  (size filename < npos)%N ->
  is_url filename
  = Ok (has_scheme "http" filename || has_scheme "https" filename)
  /\ (has_scheme "http" filename || has_scheme "https" filename = true ->
      OSMFile_new filename = Ok (mkOSMFile OSM XML filename (-1) 0)).
Proof.
  intros Hs.
  assert (E : is_url filename
              = Ok (has_scheme "http" filename
                    || has_scheme "https" filename)).
  { unfold is_url. rewrite (protocol_is_before _ Hs).
    now rewrite !before_is_scheme by reflexivity. }
  split; [exact E|].
  intros Hurl. unfold OSMFile_new. cbn [m_filename]. rewrite E, Hurl.
  destruct (String.eqb_spec filename "") as [->|_]; [discriminate|].
  destruct (String.eqb_spec filename "-") as [->|_]; [discriminate|].
  reflexivity.
Qed.

Lemma url_names_witness :
  (size "https://planet.osm.org/history.osh.bz2" < npos)%N
  /\ is_url "https://planet.osm.org/history.osh.bz2" = Ok true
  /\ OSMFile_new "https://planet.osm.org/history.osh.bz2"
     = Ok (mkOSMFile OSM XML "https://planet.osm.org/history.osh.bz2"
             (-1) 0).
Proof.
  assert (H : (size "https://planet.osm.org/history.osh.bz2" < npos)%N)
    by reflexivity.
  split; [exact H|].
  split; [exact (proj1 (url_names _ H))
         | exact (proj2 (url_names _ H) eq_refl)].
Defined.

(** X4: the constructor raises no exception (the positions that it gives
    to [substr] are within the name), and the handle that it returns is
    not open: the descriptor is -1, no child is recorded, and the name is
    the given one, or empty for "-". *)
Theorem constructed_handle_is_unopened filename :
  exists f,
    OSMFile_new filename = Ok f
    /\ m_fd f = (-1)%Z
    /\ m_childpid f = 0%Z
    /\ m_filename f = (if filename =? "-" then "" else filename).
Proof.
  destruct (FileFacts.OSMFile_new_total filename) as [f E].
  exists f. split; [exact E|].
  unfold OSMFile_new in E.
  destruct (String.eqb_spec filename "") as [->|Hne];
    [injection E as <-; repeat split|].
  destruct (String.eqb_spec filename "-") as [->|Hdash];
    [injection E as <-; repeat split|].
  cbn [orb m_filename] in E.
  destruct (is_url filename) as [[|]|]; [| |discriminate].
  - injection E as <-. repeat split.
  - destruct (isolate_suffix filename) as [suffix|]; [|discriminate].
    injection E as <-.
    destruct (FileFacts.set_type_and_encoding_frame suffix
                (mkOSMFile OSM PBF filename (-1) 0)) as (-> & -> & ->).
    repeat split.
Qed.

(** *** Overrides *)

Lemma lookup_cons {V} k k' (v : V) t :
  lookup k ((k', v) :: t) = if k =? k' then Some v else lookup k t.
Proof. reflexivity. Qed.

(** X5: the overrides by name accept exactly the documented names: an
    accepted name changes the kind (or the encoding) and nothing else;
    any other name raises the argument error with that name and leaves
    the handle as it was.  A kind name that is also a suffix of the table
    names the kind of that suffix. *)
Theorem overrides_by_name name f :
  type_from_string name f
  = match lookup name kind_tokens with
    | Some k => (Ok tt, set_type k f)
    | None => (Throw (ArgumentError "Unknown OSM file type" name), f)
    end
  /\ encoding_from_string name f
     = match lookup name encoding_tokens with
       | Some e => (Ok tt, set_encoding e f)
       | None => (Throw (ArgumentError "Unknown OSM file encoding" name), f)
       end
  /\ match lookup name kind_tokens, lookup name suffix_table with
     | Some k, Some (k', _) => k = k'
     | _, _ => True
     end.
Proof.
  unfold type_from_string, encoding_from_string, kind_tokens,
    encoding_tokens, suffix_table.
  rewrite !lookup_cons. cbn [lookup].
  repeat split;
    repeat match goal with
           | |- context [String.eqb name ?k] =>
               destruct (String.eqb_spec name k) as [->|?]; cbn [orb];
               try reflexivity; try exact I
           end.
Qed.

(** *** Copies *)

(** X6: a copy, and the target of an assignment, has the kind, the
    encoding and the name of the original and is not open: [close] on it
    returns without a system call.  An assignment to a handle that is
    open neither closes its descriptor nor waits for its child. *)
Theorem copies_are_unopened orig os :
  kind_and_encoding (OSMFile_copy orig) = kind_and_encoding orig
  /\ m_filename (OSMFile_copy orig) = m_filename orig
  /\ close os (fresh (OSMFile_copy orig)) = (Ok tt, fresh (OSMFile_copy orig))
  /\ (forall p,
        bind (assign orig) (fun _ => close os) p
        = (Ok tt, mkProcess (OSMFile_copy orig) (syscalls p))).
Proof.
  split; [reflexivity|]. split; [reflexivity|].
  split; [now rewrite FileFacts.close_cases|].
  intros p. unfold bind, assign, on_this, modify.
  now rewrite FileFacts.close_cases.
Qed.

(** *** Closing twice *)

Lemma close_ok_state os p :
  fst (close os p) = Ok tt ->
  this (snd (close os p))
  = set_childpid 0
      (set_fd (if (0 <? m_fd (this p))%Z then (-1)%Z else m_fd (this p))
         (this p)).
Proof.
  rewrite FileFacts.close_cases. cbv zeta.
  destruct p as [[t e n fd pid] log].
  cbn [this syscalls m_fd m_childpid].
  destruct (0 <? fd)%Z; destruct (Z.eqb_spec pid 0) as [->|Hpid];
    try destruct (_ || _ || _); cbn [fst snd this]; try discriminate;
    reflexivity.
Qed.

(** X7: after a [close] that returned, no child is recorded and the
    descriptor is not positive; a further [close], and the destructor,
    return without a system call and change nothing. *)
Theorem close_after_close os os' p :
  fst (close os p) = Ok tt ->
  let p' := snd (close os p) in
  m_childpid (this p') = 0%Z
  /\ (m_fd (this p') <= 0)%Z
  /\ close os' p' = (Ok tt, p')
  /\ destroy os' p' = (Ok tt, p').
Proof.
  intros E. cbv zeta.
  pose proof (close_ok_state os p E) as Est.
  assert (Hpid : m_childpid (this (snd (close os p))) = 0%Z)
    by now rewrite Est.
  assert (Hfd : (m_fd (this (snd (close os p))) <= 0)%Z).
  { rewrite Est. cbn [m_fd set_childpid set_fd].
    destruct (Z.ltb_spec 0 (m_fd (this p))); lia. }
  assert (E2 : close os' (snd (close os p)) = (Ok tt, snd (close os p))).
  { rewrite (FileFacts.close_cases os' (snd (close os p))). cbv zeta.
    rewrite Hpid.
    destruct (Z.ltb_spec 0 (m_fd (this (snd (close os p))))); [lia|].
    reflexivity. }
  repeat split; trivial.
  unfold destroy, try_ignore. now rewrite E2.
Qed.

Lemma close_after_close_witness :
  let p := fresh Examples.gz_handle in
  let p' := snd (close Examples.quiet p) in
  fst (close Examples.quiet p) = Ok tt
  /\ syscalls p' = [sys_close 5; sys_waitpid 1234]
  /\ close Examples.exits_1 p' = (Ok tt, p').
Proof.
  intros p p'.
  assert (E : fst (close Examples.quiet p) = Ok tt) by reflexivity.
  split; [exact E|]. split; [reflexivity|].
  exact (proj1 (proj2 (proj2 (close_after_close Examples.quiet
                                Examples.exits_1 p E)))).
Defined.

(** *** Opening *)

Section Opening.
Context `{EncodingFilters}.

Lemma execute_cases os command input p :
  execute os command input p
  = if (fst (ans_pipe os) <? 0)%Z
    then (Throw (SystemError "Can't create pipe"),
          mkProcess (this p) (syscalls p ++ [sys_pipe]))
    else match ans_fork os with
         | ForkFailed =>
             (Throw (SystemError "Can't fork"),
              mkProcess (this p)
                (syscalls p ++ [sys_pipe; sys_fork command input]))
         | ForkParent pid =>
             (Ok (pipefd (snd (ans_pipe os)) input),
              mkProcess (set_childpid (Z.pos pid) (this p))
                (syscalls p
                 ++ [sys_pipe; sys_fork command input;
                     sys_close (pipefd (snd (ans_pipe os)) (1 - input))]))
         end.
Proof.
  unfold execute, bind, call, on_this, modify, throw, ret.
  cbn [this syscalls].
  destruct (fst (ans_pipe os) <? 0)%Z; [reflexivity|].
  destruct (ans_fork os); cbn [this syscalls];
    rewrite <- ?app_assoc; reflexivity.
Qed.

(** X8: [execute] records the child and closes the end of the pipe that
    the parent does not use only when both [pipe] and [fork] succeed.
    When [pipe] fails nothing else is called; when [fork] fails the system
    error is raised and neither end of the pipe is closed.  In both cases
    the handle is unchanged, so that [open_for_input] with a filter leaves
    the descriptor as it was. *)
Theorem execute_failures os command input p :
  ((fst (ans_pipe os) < 0)%Z ->
   execute os command input p
   = (Throw (SystemError "Can't create pipe"),
      mkProcess (this p) (syscalls p ++ [sys_pipe])))
  /\ ((0 <= fst (ans_pipe os))%Z -> ans_fork os = ForkFailed ->
      execute os command input p
      = (Throw (SystemError "Can't fork"),
         mkProcess (this p)
           (syscalls p ++ [sys_pipe; sys_fork command input])))
  /\ (decompress (m_encoding (this p)) <> "" ->
      (fst (ans_pipe os) < 0)%Z \/ ans_fork os = ForkFailed ->
      exists what,
        fst (open_for_input os p) = Throw (SystemError what)
        /\ this (snd (open_for_input os p)) = this p
        /\ forall fd, ~ In (sys_close fd)
                        (skipn (List.length (syscalls p))
                           (syscalls (snd (open_for_input os p))))).
Proof.
  split; [|split].
  - intros Hp. rewrite execute_cases.
    destruct (Z.ltb_spec (fst (ans_pipe os)) 0); [reflexivity | lia].
  - intros Hp Hf. rewrite execute_cases, Hf.
    destruct (Z.ltb_spec (fst (ans_pipe os)) 0); [lia | reflexivity].
  - intros Hd Hfail. apply String.eqb_neq in Hd.
    assert (E : open_for_input os p
                = match execute os (decompress (m_encoding (this p))) 0 p
                  with
                  | (Ok fd, p1) =>
                      (Ok tt, mkProcess (set_fd fd (this p1)) (syscalls p1))
                  | (Throw e, p1) => (Throw e, p1)
                  end).
    { unfold open_for_input, bind, get_this, on_this, modify.
      rewrite Hd. destruct (execute _ _ _ p) as [[fd|e] p1]; reflexivity. }
    rewrite E, execute_cases. clear E.
    destruct (Z.ltb_spec (fst (ans_pipe os)) 0) as [Hp|Hp].
    + eexists. cbn [fst snd this syscalls].
      split; [reflexivity|]. split; [reflexivity|].
      rewrite skipn_app, skipn_all, Nat.sub_diag. cbn.
      intros fd [E|[]]. discriminate.
    + destruct Hfail as [Hlt|Hf]; [lia|]. rewrite Hf.
      eexists. cbn [fst snd this syscalls].
      split; [reflexivity|]. split; [reflexivity|].
      rewrite skipn_app, skipn_all, Nat.sub_diag. cbn.
      intros fd [E|[E|[]]]; discriminate.
Qed.

End Opening.

Lemma execute_failures_witness :
  let os := mkAnswers (0, (3, 4))%Z ForkFailed 3%Z (0, 0)%Z in
  let p := fresh (mkOSMFile OSM XMLgz "planet.osm.gz" (-1) 0) in
  (0 <= fst (ans_pipe os))%Z
  /\ ans_fork os = ForkFailed
  /\ execute os "zcat" 0 p
     = (Throw (SystemError "Can't fork"),
        mkProcess (this p) [sys_pipe; sys_fork "zcat" 0]).
Proof.
  intros os p.
  assert (H1 : (0 <= fst (ans_pipe os))%Z) by discriminate.
  split; [exact H1|]. split; [reflexivity|].
  exact (proj1 (proj2 (@execute_failures Examples.usual_filters
                         os "zcat" 0%Z p)) H1 eq_refl).
Defined.

Section Directions.
Context `{EncodingFilters}.

Lemma open_for_input_cases os p :
  open_for_input os p
  = let f := this p in
    let opened fd p1 :=
      (Ok tt, mkProcess (set_fd fd (this p1)) (syscalls p1)) in
    let run command :=
      match execute os command 0 p with
      | (Ok fd, p1) => opened fd p1
      | (Throw e, p1) => (Throw e, p1)
      end in
    if decompress (m_encoding f) =? "" then
      match is_url (m_filename f) with
      | Throw e => (Throw e, p)
      | Ok true => run "curl"
      | Ok false =>
          if m_filename f =? "" then opened 0%Z p
          else if (ans_open os <? 0)%Z
               then (Throw (IOError "Open failed" (m_filename f)),
                     mkProcess f
                       (syscalls p ++ [sys_open (m_filename f) O_RDONLY]))
               else opened (ans_open os)
                      (mkProcess f
                         (syscalls p ++ [sys_open (m_filename f) O_RDONLY]))
      end
    else run (decompress (m_encoding f)).
Proof.
  cbv zeta.
  unfold open_for_input, open_input_file_or_url, open_input_file, bind,
    get_this, lift_result, on_this, call, modify, ret, throw.
  destruct (decompress (m_encoding (this p)) =? "").
  - destruct (is_url (m_filename (this p))) as [[|]|e]; [| |reflexivity].
    + destruct (execute os "curl" 0 p) as [[fd|e] p1]; reflexivity.
    + destruct (m_filename (this p) =? ""); [reflexivity|].
      cbn [this syscalls]. destruct (ans_open os <? 0)%Z; reflexivity.
  - destruct (execute os _ 0 p) as [[fd|e] p1]; reflexivity.
Qed.

Lemma open_for_output_cases os p :
  open_for_output os p
  = let f := this p in
    let opened fd p1 :=
      (Ok tt, mkProcess (set_fd fd (this p1)) (syscalls p1)) in
    if compress (m_encoding f) =? "" then
      if m_filename f =? "" then opened 1%Z p
      else if (ans_open os <? 0)%Z
           then (Throw (IOError "Open failed" (m_filename f)),
                 mkProcess f
                   (syscalls p
                    ++ [sys_open (m_filename f) O_WRONLY_O_TRUNC_O_CREAT]))
           else opened (ans_open os)
                  (mkProcess f
                     (syscalls p
                      ++ [sys_open (m_filename f) O_WRONLY_O_TRUNC_O_CREAT]))
    else match execute os (compress (m_encoding f)) 1 p with
         | (Ok fd, p1) => opened fd p1
         | (Throw e, p1) => (Throw e, p1)
         end.
Proof.
  cbv zeta.
  unfold open_for_output, open_output_file, bind, get_this, on_this, call,
    modify, ret, throw.
  destruct (compress (m_encoding (this p)) =? "").
  - destruct (m_filename (this p) =? ""); [reflexivity|].
    cbn [this syscalls]. destruct (ans_open os <? 0)%Z; reflexivity.
  - destruct (execute os _ 1 p) as [[fd|e] p1]; reflexivity.
Qed.

(** Opening changes the descriptor and the child only. *)
Lemma open_frame os p :
  let same (q : process) :=
    m_type (this q) = m_type (this p)
    /\ m_encoding (this q) = m_encoding (this p)
    /\ m_filename (this q) = m_filename (this p) in
  same (snd (open_for_input os p)) /\ same (snd (open_for_output os p)).
Proof.
  cbv zeta.
  rewrite open_for_input_cases, open_for_output_cases. cbv zeta.
  rewrite !execute_cases.
  destruct p as [[t e n fd pid] log]. cbn [this syscalls m_encoding m_filename].
  split;
    repeat match goal with
           | |- context [if ?b then _ else _] => destruct b
           | |- context [match is_url ?x with _ => _ end] =>
               destruct (is_url x) as [[|]|?]
           | |- context [match ans_fork ?x with _ => _ end] =>
               destruct (ans_fork x)
           end; repeat split.
Qed.

(** X9: a handle that is not open, once it has been opened (for input or
    for output, with or without a filter) and then closed, is as it was
    before, provided that both calls returned and that the descriptor
    obtained was positive: [close] then closes that descriptor, and waits
    for the child if there is one.  With descriptor 0, which standard
    input gives, the handle keeps the descriptor and does not close it. *)
Theorem open_then_close (output : bool) f os os' :
  m_fd f = (-1)%Z ->
  m_childpid f = 0%Z ->
  let opened := if output then open_for_output os (fresh f)
                else open_for_input os (fresh f) in
  let closed := close os' (snd opened) in
  fst opened = Ok tt ->
  fst closed = Ok tt ->
  ((0 < m_fd (this (snd opened)))%Z ->
   this (snd closed) = f
   /\ syscalls (snd closed)
      = (syscalls (snd opened)
         ++ sys_close (m_fd (this (snd opened)))
            :: (if (m_childpid (this (snd opened)) =? 0)%Z then []
                else [sys_waitpid (m_childpid (this (snd opened)))]))%list)
  /\ (m_fd (this (snd opened)) = 0%Z ->
      m_fd (this (snd closed)) = 0%Z
      /\ forall fd, ~ In (sys_close fd)
                      (skipn (List.length (syscalls (snd opened)))
                         (syscalls (snd closed)))).
Proof.
  intros Hfd Hpid opened closed _ Eclose.
  assert (Hsame : m_type (this (snd opened)) = m_type f
                  /\ m_encoding (this (snd opened)) = m_encoding f
                  /\ m_filename (this (snd opened)) = m_filename f).
  { destruct (open_frame os (fresh f)) as [Hin Hout].
    unfold opened. destruct output; assumption. }
  destruct Hsame as (Ht & He & Hn).
  pose proof (close_ok_state os' (snd opened) Eclose) as Est.
  destruct (FileFacts.close_descriptor os' (snd opened)) as [Efd Elog].
  fold closed in Est, Efd, Elog.
  split.
  - intros Hpos. apply Z.ltb_lt in Hpos. rewrite Hpos in *.
    split; [|exact Elog].
    rewrite Est. unfold set_childpid, set_fd.
    cbn [m_type m_encoding m_filename m_fd m_childpid].
    rewrite Ht, He, Hn, <- Hfd, <- Hpid. now destruct f.
  - intros Hzero. rewrite Hzero in Efd, Elog.
    change (0 <? 0)%Z with false in Efd, Elog. cbv iota in Efd, Elog.
    split; [exact Efd|].
    rewrite Elog, skipn_app, skipn_all, Nat.sub_diag. cbn [skipn app].
    intros fd. destruct (_ =? 0)%Z; cbn; intuition discriminate.
Qed.

Lemma execute_log os command input p :
  syscalls (snd (execute os command input p))
  = (syscalls p ++ execute_calls os command input)%list.
Proof.
  rewrite execute_cases. unfold execute_calls.
  destruct (fst (ans_pipe os) <? 0)%Z; [reflexivity|].
  destruct (ans_fork os); reflexivity.
Qed.

(** X10: which system calls opening makes, and what it leaves in the
    handle.  For input, a filter of the encoding is run if there is one;
    otherwise "curl" is run for the name of a URL, nothing is called for
    the empty name, and any other name is opened read-only.  For output,
    a filter is run if there is one; otherwise nothing is called for the
    empty name and any other name, the name of a URL included, is opened
    as a path.  In both directions a direct [open] that returns a
    negative value raises the I/O error with the name and leaves the
    handle as it was, and one that returns a descriptor stores it in the
    handle; for the empty name the descriptor stored is 0 for input and
    1 for output. *)
Theorem calls_of_opening os p :
  let f := this p in
  syscalls (snd (open_for_input os p))
  = (syscalls p
     ++ (if decompress (m_encoding f) =? "" then
           match is_url (m_filename f) with
           | Ok true => execute_calls os "curl" 0
           | _ => if m_filename f =? "" then []
                  else [sys_open (m_filename f) O_RDONLY]
           end
         else execute_calls os (decompress (m_encoding f)) 0))%list
  /\ syscalls (snd (open_for_output os p))
     = (syscalls p
        ++ (if compress (m_encoding f) =? "" then
              if m_filename f =? "" then []
              else [sys_open (m_filename f) O_WRONLY_O_TRUNC_O_CREAT]
            else execute_calls os (compress (m_encoding f)) 1))%list
  /\ (compress (m_encoding f) = "" -> m_filename f <> "" ->
      (ans_open os < 0)%Z ->
      fst (open_for_output os p) = Throw (IOError "Open failed" (m_filename f))
      /\ this (snd (open_for_output os p)) = f)
  /\ (decompress (m_encoding f) = "" ->
      is_url (m_filename f) = Ok false -> m_filename f <> "" ->
      (ans_open os < 0)%Z ->
      fst (open_for_input os p) = Throw (IOError "Open failed" (m_filename f))
      /\ this (snd (open_for_input os p)) = f)
  /\ (compress (m_encoding f) = "" -> m_filename f <> "" ->
      (0 <= ans_open os)%Z ->
      fst (open_for_output os p) = Ok tt
      /\ this (snd (open_for_output os p)) = set_fd (ans_open os) f)
  /\ (decompress (m_encoding f) = "" ->
      is_url (m_filename f) = Ok false -> m_filename f <> "" ->
      (0 <= ans_open os)%Z ->
      fst (open_for_input os p) = Ok tt
      /\ this (snd (open_for_input os p)) = set_fd (ans_open os) f)
  /\ (compress (m_encoding f) = "" -> m_filename f = "" ->
      fst (open_for_output os p) = Ok tt
      /\ this (snd (open_for_output os p)) = set_fd 1 f)
  /\ (decompress (m_encoding f) = "" -> m_filename f = "" ->
      fst (open_for_input os p) = Ok tt
      /\ this (snd (open_for_input os p)) = set_fd 0 f).
Proof.
  cbv zeta. split; [|split; [|split; [|split; [|split; [|split; [|split]]]]]].
  - rewrite open_for_input_cases. cbv zeta.
    destruct (decompress (m_encoding (this p)) =? "").
    + assert (Hurl : exists b, is_url (m_filename (this p)) = Ok b).
      { unfold is_url, protocol_of, StdString.substr.
        destruct (N.ltb_spec (size (m_filename (this p))) 0); [lia|].
        eauto. }
      destruct Hurl as [[|] ->].
      * rewrite <- (execute_log os "curl" 0 p).
        destruct (execute os "curl" 0 p) as [[fd|e] p1]; reflexivity.
      * destruct (m_filename (this p) =? "");
          [cbn; now rewrite app_nil_r|].
        destruct (ans_open os <? 0)%Z; reflexivity.
    + rewrite <- (execute_log os _ 0 p).
      destruct (execute os _ 0 p) as [[fd|e] p1]; reflexivity.
  - rewrite open_for_output_cases. cbv zeta.
    destruct (compress (m_encoding (this p)) =? "").
    + destruct (m_filename (this p) =? "");
        [cbn; now rewrite app_nil_r|].
      destruct (ans_open os <? 0)%Z; reflexivity.
    + rewrite <- (execute_log os _ 1 p).
      destruct (execute os _ 1 p) as [[fd|e] p1]; reflexivity.
  - intros Hc Hn Hopen. rewrite open_for_output_cases. cbv zeta.
    rewrite Hc. apply String.eqb_neq in Hn. rewrite Hn.
    apply Z.ltb_lt in Hopen. rewrite Hopen. split; reflexivity.
  - intros Hc Hurl Hn Hopen. rewrite open_for_input_cases. cbv zeta.
    rewrite Hc, Hurl. apply String.eqb_neq in Hn. rewrite Hn.
    apply Z.ltb_lt in Hopen. rewrite Hopen. split; reflexivity.
  - intros Hc Hn Hopen. rewrite open_for_output_cases. cbv zeta.
    rewrite Hc. apply String.eqb_neq in Hn. rewrite Hn.
    apply Z.ltb_ge in Hopen. rewrite Hopen. split; reflexivity.
  - intros Hc Hurl Hn Hopen. rewrite open_for_input_cases. cbv zeta.
    rewrite Hc, Hurl. apply String.eqb_neq in Hn. rewrite Hn.
    apply Z.ltb_ge in Hopen. rewrite Hopen. split; reflexivity.
  - intros Hc Hn. rewrite open_for_output_cases. cbv zeta.
    rewrite Hc, Hn. split; reflexivity.
  - intros Hc Hn. rewrite open_for_input_cases. cbv zeta.
    rewrite Hc, Hn. split; reflexivity.
Qed.

End Directions.

Lemma calls_of_opening_witness :
  let f := mkOSMFile OSM XML "http://example.org/a.osm" (-1) 0 in
  let g := mkOSMFile OSM XML "missing.osm" (-1) 0 in
  let e := mkOSMFile OSM XML "" (-1) 0 in
  let os := mkAnswers (0, (3, 4))%Z (ForkParent 1234) (-1)%Z (0, 0)%Z in
  let os' := mkAnswers (0, (3, 4))%Z (ForkParent 1234) 3%Z (0, 0)%Z in
  syscalls (snd (@open_for_input Examples.usual_filters os (fresh f)))
  = [sys_pipe; sys_fork "curl" 0; sys_close 4]
  /\ (ans_open os < 0)%Z
  /\ fst (@open_for_output Examples.usual_filters os (fresh f))
     = Throw (IOError "Open failed" "http://example.org/a.osm")
  /\ syscalls (snd (@open_for_output Examples.usual_filters os (fresh f)))
     = [sys_open "http://example.org/a.osm" O_WRONLY_O_TRUNC_O_CREAT]
  /\ is_url (m_filename g) = Ok false
  /\ fst (@open_for_input Examples.usual_filters os (fresh g))
     = Throw (IOError "Open failed" "missing.osm")
  /\ this (snd (@open_for_input Examples.usual_filters os (fresh g))) = g
  /\ syscalls (snd (@open_for_input Examples.usual_filters os (fresh g)))
     = [sys_open "missing.osm" O_RDONLY]
  /\ (0 <= ans_open os')%Z
  /\ fst (@open_for_input Examples.usual_filters os' (fresh g)) = Ok tt
  /\ this (snd (@open_for_input Examples.usual_filters os' (fresh g)))
     = mkOSMFile OSM XML "missing.osm" 3 0
  /\ this (snd (@open_for_output Examples.usual_filters os' (fresh g)))
     = mkOSMFile OSM XML "missing.osm" 3 0
  /\ this (snd (@open_for_input Examples.usual_filters os (fresh e)))
     = mkOSMFile OSM XML "" 0 0
  /\ this (snd (@open_for_output Examples.usual_filters os (fresh e)))
     = mkOSMFile OSM XML "" 1 0.
Proof.
  intros f g e os os'.
  destruct (@calls_of_opening Examples.usual_filters os (fresh f))
    as (Hin & Hout & Hfail & _).
  destruct (@calls_of_opening Examples.usual_filters os (fresh g))
    as (Hlog & _ & _ & Hmissing & _).
  destruct (@calls_of_opening Examples.usual_filters os' (fresh g))
    as (_ & _ & _ & _ & Hcreated & Hfound & _).
  destruct (@calls_of_opening Examples.usual_filters os (fresh e))
    as (_ & _ & _ & _ & _ & _ & Hstdout & Hstdin).
  assert (Hneg : (ans_open os < 0)%Z) by reflexivity.
  assert (Hpos : (0 <= ans_open os')%Z) by (cbn; lia).
  assert (Hg : m_filename (this (fresh g)) <> "") by discriminate.
  split; [exact Hin|]. split; [exact Hneg|].
  split; [refine (proj1 (Hfail eq_refl _ Hneg)); discriminate|].
  split; [exact Hout|]. split; [reflexivity|].
  split; [exact (proj1 (Hmissing eq_refl eq_refl Hg Hneg))|].
  split; [exact (proj2 (Hmissing eq_refl eq_refl Hg Hneg))|].
  split; [exact Hlog|]. split; [exact Hpos|].
  split; [exact (proj1 (Hfound eq_refl eq_refl Hg Hpos))|].
  split; [exact (proj2 (Hfound eq_refl eq_refl Hg Hpos))|].
  split; [exact (proj2 (Hcreated eq_refl Hg Hpos))|].
  split; [exact (proj2 (Hstdin eq_refl eq_refl))
         | exact (proj2 (Hstdout eq_refl eq_refl))].
Defined.

Lemma open_then_close_witness :
  let f := mkOSMFile OSM XMLgz "planet.osm.gz" (-1) 0 in
  let opened := @open_for_input Examples.usual_filters Examples.quiet
                  (fresh f) in
  let closed := close Examples.quiet (snd opened) in
  fst opened = Ok tt
  /\ fst closed = Ok tt
  /\ (0 < m_fd (this (snd opened)))%Z
  /\ this (snd closed) = f
  /\ syscalls (snd closed)
     = [sys_pipe; sys_fork "zcat" 0; sys_close 4; sys_close 3;
        sys_waitpid 1234].
Proof.
  intros f opened closed.
  assert (H1 : fst opened = Ok tt) by reflexivity.
  assert (H2 : fst closed = Ok tt) by reflexivity.
  assert (H3 : (0 < m_fd (this (snd opened)))%Z) by reflexivity.
  split; [exact H1|]. split; [exact H2|]. split; [exact H3|].
  destruct (proj1 (@open_then_close Examples.usual_filters false f
                     Examples.quiet Examples.quiet eq_refl eq_refl H1 H2) H3)
    as [E1 E2].
  split; [exact E1 | exact E2].
Defined.

End FileExtras.


(** ** Facts about the child of [execute] *)

Module ChildFacts.
Import File Child.
Local Open Scope Z_scope.
Local Open Scope list_scope.

Lemma close_each_but keep l : forall t i,
  fold_left (fun t i => if i =? keep then t else fd_close i t) l t i
  = if existsb (Z.eqb i) l && negb (i =? keep) then None else t i.
Proof.
  induction l as [|j l IH]; intros t i; cbn [fold_left existsb];
    [reflexivity|].
  rewrite IH.
  destruct (existsb (Z.eqb i) l); cbn [andb orb].
  - rewrite orb_true_r. cbn [andb].
    destruct (i =? keep) eqn:Ei; cbn [negb]; [|reflexivity].
    destruct (Z.eqb_spec j keep) as [_|Hj]; [reflexivity|].
    unfold fd_close. destruct (Z.eqb_spec i j) as [->|_]; [|reflexivity].
    apply Z.eqb_eq in Ei. contradiction.
  - rewrite orb_false_r.
    destruct (Z.eqb_spec i j) as [->|Hij]; cbn [andb].
    + destruct (Z.eqb_spec j keep) as [_|Hj]; cbn [negb]; [reflexivity|].
      unfold fd_close. now rewrite Z.eqb_refl.
    + destruct (Z.eqb_spec j keep) as [_|Hj]; [reflexivity|].
      unfold fd_close. destruct (Z.eqb_spec i j); [contradiction|reflexivity].
Qed.

Lemma first_32 i :
  existsb (Z.eqb i) (map Z.of_nat (seq 0 32)) = (0 <=? i) && (i <? 32).
Proof.
  apply eq_true_iff_eq. rewrite existsb_exists, andb_true_iff.
  rewrite Z.leb_le, Z.ltb_lt. split.
  - intros (j & Hin & E). apply Z.eqb_eq in E. subst j.
    apply in_map_iff in Hin as (n & <- & Hn). apply in_seq in Hn. lia.
  - intros Hi. exists i. split; [|apply Z.eqb_refl].
    apply in_map_iff. exists (Z.to_nat i). split; [lia|].
    apply in_seq. lia.
Qed.

(** The loop closes the descriptors 0 to 31 other than [keep]. *)
Lemma close_all_but_spec keep t i :
  close_all_but keep t i
  = if (0 <=? i) && (i <? 32) && negb (i =? keep) then None else t i.
Proof. unfold close_all_but. now rewrite close_each_but, first_32. Qed.

Lemma lowest_free_spec n : forall i t j,
  lowest_free n i t = Some j ->
  i <= j < i + Z.of_nat n
  /\ t j = None
  /\ forall k, i <= k < j -> t k <> None.
Proof.
  induction n as [|n IH]; intros i t j E; [discriminate|].
  cbn [lowest_free] in E. destruct (t i) eqn:Ei.
  - destruct (IH _ _ _ E) as (Hj & Hfree & Hused).
    split; [lia|]. split; [exact Hfree|].
    intros k Hk. destruct (Z.eq_dec k i) as [->|Hne]; [congruence|].
    apply Hused. lia.
  - injection E as <-. split; [lia|]. split; [exact Ei|]. intros k Hk. lia.
Qed.

Lemma lowest_free_found n : forall i t j,
  i <= j < i + Z.of_nat n ->
  t j = None ->
  (forall k, i <= k < j -> t k <> None) ->
  lowest_free n i t = Some j.
Proof.
  induction n as [|n IH]; intros i t j Hj Hfree Hused; [lia|].
  cbn [lowest_free]. destruct (t i) eqn:Ei.
  - apply IH; [|exact Hfree|intros k Hk; apply Hused; lia].
    destruct (Z.eq_dec i j) as [->|Hne]; [congruence | lia].
  - destruct (Z.eq_dec i j) as [->|Hne]; [reflexivity|].
    exfalso. apply (Hused i); [lia | exact Ei].
Qed.

(** With at most three descriptors open below 32, an [open] takes one of
    the first four. *)
Lemma lowest_free_low n t a b c j :
  (forall k, 0 <= k < 32 -> k <> a -> k <> b -> k <> c -> t k = None) ->
  lowest_free n 0 t = Some j -> 0 <= j < 4.
Proof.
  intros Hsparse E. apply lowest_free_spec in E as (Hj & _ & Hused).
  split; [lia|].
  destruct (Z.lt_ge_cases j 4) as [|Hge]; [assumption|]. exfalso.
  assert (H0 : 0 = a \/ 0 = b \/ 0 = c).
  { destruct (Z.eq_dec 0 a), (Z.eq_dec 0 b), (Z.eq_dec 0 c); auto.
    exfalso. apply (Hused 0); [lia|]. apply Hsparse; lia. }
  assert (H1 : 1 = a \/ 1 = b \/ 1 = c).
  { destruct (Z.eq_dec 1 a), (Z.eq_dec 1 b), (Z.eq_dec 1 c); auto.
    exfalso. apply (Hused 1); [lia|]. apply Hsparse; lia. }
  assert (H2 : 2 = a \/ 2 = b \/ 2 = c).
  { destruct (Z.eq_dec 2 a), (Z.eq_dec 2 b), (Z.eq_dec 2 c); auto.
    exfalso. apply (Hused 2); [lia|]. apply Hsparse; lia. }
  assert (H3 : 3 = a \/ 3 = b \/ 3 = c).
  { destruct (Z.eq_dec 3 a), (Z.eq_dec 3 b), (Z.eq_dec 3 c); auto.
    exfalso. apply (Hused 3); [lia|]. apply Hsparse; lia. }
  lia.
Qed.

(** An [open] changes the table at the descriptor that it returns only,
    and that descriptor was free. *)
Lemma fd_open_spec os path flags t :
  (fst (fd_open os path flags t) = -1 /\ snd (fd_open os path flags t) = t)
  \/ (exists j,
        lowest_free (nofile os) 0 t = Some j
        /\ fst (fd_open os path flags t) = j
        /\ snd (fd_open os path flags t)
           = fun k => if k =? j then Some (opened path flags) else t k).
Proof.
  unfold fd_open. destruct (can_open os path); [|now left].
  destruct (lowest_free (nofile os) 0 t) as [j|]; [|now left].
  right. exists j. repeat split.
Qed.

Lemma fd_open_high os path flags t a b c :
  (forall k, 0 <= k < 32 -> k <> a -> k <> b -> k <> c -> t k = None) ->
  forall i, 32 <= i -> snd (fd_open os path flags t) i = t i.
Proof.
  intros Hsparse i Hi.
  destruct (fd_open_spec os path flags t) as [[_ E2]|(j & Ej & _ & E2)];
    rewrite E2; [reflexivity|].
  pose proof (lowest_free_low _ _ a b c j Hsparse Ej).
  destruct (Z.eqb_spec i j); [lia | reflexivity].
Qed.

Lemma fd_open_sparse os path flags t a b :
  (forall k, 0 <= k < 32 -> k <> a -> k <> b -> t k = None) ->
  forall k, 0 <= k < 32 -> k <> a -> k <> b ->
            k <> fst (fd_open os path flags t) ->
            snd (fd_open os path flags t) k = None.
Proof.
  intros Hsparse k Hk Ha Hb.
  destruct (fd_open_spec os path flags t) as [[E1 E2]|(j & _ & E1 & E2)];
    rewrite E1, E2; intros Hj; [now apply Hsparse|].
  destruct (Z.eqb_spec k j); [contradiction | now apply Hsparse].
Qed.

Lemma fd_dup2_spec oldfd newfd t :
  (fst (fd_dup2 oldfd newfd t) = -1 /\ snd (fd_dup2 oldfd newfd t) = t)
  \/ (exists o, t oldfd = Some o
                /\ fd_dup2 oldfd newfd t
                   = (newfd, fun j => if j =? newfd then Some o else t j)).
Proof.
  unfold fd_dup2. destruct (t oldfd) as [o|]; [right; eauto | now left].
Qed.

(** X11: the child closes the descriptors 0 to 31 only.  Whatever the
    parent had open under a number of 32 or more is still open when the
    child runs the program or exits, the parent's own end of the pipe
    included when its number is that high. *)
Theorem child_keeps_high_descriptors os m_filename command input fds t i :
  input = 0 \/ input = 1 ->
  32 <= i ->
  snd (child os m_filename command input fds t) i = t i.
Proof.
  intros Hin Hi. unfold child. cbv zeta.
  set (keep := pipefd fds (1 - input)).
  set (new := 1 - input).
  assert (Hnew : 0 <= new <= 1) by (unfold new; lia).
  set (t1 := close_all_but keep t).
  assert (H1 : t1 i = t i).
  { unfold t1. rewrite close_all_but_spec.
    destruct (Z.ltb_spec i 32); [lia|].
    now rewrite andb_false_r. }
  assert (S1 : forall k, 0 <= k < 32 -> k <> keep -> t1 k = None).
  { intros k Hk Hne. unfold t1. rewrite close_all_but_spec.
    destruct (Z.leb_spec 0 k); [|lia]. destruct (Z.ltb_spec k 32); [|lia].
    destruct (Z.eqb_spec k keep); [contradiction | reflexivity]. }
  set (d := fd_dup2 keep new t1).
  assert (H2 : snd d i = t i).
  { unfold d. destruct (fd_dup2_spec keep new t1) as [[_ ->]|(o & _ & ->)];
      [exact H1|].
    cbn [snd]. destruct (Z.eqb_spec i new); [lia | exact H1]. }
  assert (S2 : forall k, 0 <= k < 32 -> k <> keep -> k <> new ->
                         snd d k = None).
  { intros k Hk Ha Hb. unfold d.
    destruct (fd_dup2_spec keep new t1) as [[_ ->]|(o & _ & ->)];
      [now apply S1|].
    cbn [snd]. destruct (Z.eqb_spec k new); [contradiction | now apply S1]. }
  assert (Hopen1 : forall path flags,
             snd (fd_open os path flags (snd d)) i = t i).
  { intros path flags.
    rewrite (fd_open_high os path flags (snd d) keep new new); trivial.
    intros k Hk Ha Hb _. now apply S2. }
  assert (Hopen2 : forall path flags path' flags',
             snd (fd_open os path' flags'
                    (snd (fd_open os path flags (snd d)))) i = t i).
  { intros path flags path' flags'.
    rewrite (fd_open_high os path' flags' _ keep new
               (fst (fd_open os path flags (snd d)))); [apply Hopen1| |trivial].
    intros k Hk Ha Hb Hc.
    now apply (fd_open_sparse os path flags (snd d) keep new). }
  destruct (fst d <? 0); [exact H2|].
  destruct (input =? 0).
  - destruct (exec_succeeds os); apply Hopen2.
  - destruct (negb _); [apply Hopen1|].
    destruct (exec_succeeds os); apply Hopen2.
Qed.

Lemma child_keeps_high_descriptors_witness :
  let os := mkChildAnswers (fun _ => true) true 64 in
  let parent i := (i <=? 2) || (i =? 40) || (i =? 41) in
  snd (child os "planet.osm.gz" "gzip" 1 (40, 41) (inherited parent)) 41
  = Some (of_parent 41).
Proof.
  intros os parent.
  refine (child_keeps_high_descriptors os "planet.osm.gz"%string
            "gzip"%string 1 (40, 41) (inherited parent) 41 _ _); lia.
Defined.

Lemma fd_open_at os path flags t j :
  can_open os path = true ->
  lowest_free (nofile os) 0 t = Some j ->
  fd_open os path flags t
  = (j, fun k => if k =? j then Some (opened path flags) else t k).
Proof. intros Hc Hj. unfold fd_open. now rewrite Hc, Hj. Qed.

Lemma close_all_but_low keep t k :
  0 <= k < 32 -> k <> keep -> close_all_but keep t k = None.
Proof.
  intros Hk Hne. rewrite close_all_but_spec.
  destruct (Z.leb_spec 0 k); [|lia]. destruct (Z.ltb_spec k 32); [|lia].
  destruct (Z.eqb_spec k keep); [contradiction | reflexivity].
Qed.

Lemma close_all_but_kept keep t : close_all_but keep t keep = t keep.
Proof.
  rewrite close_all_but_spec, Z.eqb_refl. cbn [negb].
  now rewrite andb_false_r.
Qed.

Ltac decide_tests :=
  cbv beta;
  repeat match goal with
         | |- context [Z.eqb ?a ?b] =>
             let v := eval vm_compute in (Z.eqb a b) in
             match v with
             | true => change (Z.eqb a b) with true
             | false => change (Z.eqb a b) with false
             end; cbv beta iota
         end.

Lemma child_streams os m_filename command fds t o :
  (3 <= nofile os)%nat ->
  can_open os "/dev/null" = true ->
  let ending argv := if exec_succeeds os then child_exec command argv
                     else child_exit 1 in
  (t (snd fds) = Some o -> snd fds <> 0 -> snd fds <> 2 ->
   let r := child os m_filename command 0 fds t in
   fst r = ending [command; m_filename]
   /\ snd r 0 = Some (opened "/dev/null" RDONLY)
   /\ snd r 1 = Some o
   /\ snd r 2 = Some (opened "/dev/null" WRONLY)
   /\ forall k, 3 <= k < 32 -> k <> snd fds -> snd r k = None)
  /\ (t (fst fds) = Some o -> fst fds <> 1 -> fst fds <> 2 ->
      can_open os m_filename = true ->
      let r := child os m_filename command 1 fds t in
      fst r = ending [command]
      /\ snd r 0 = Some o
      /\ snd r 1 = Some (opened m_filename WRONLY_TRUNC_CREAT)
      /\ snd r 2 = Some (opened "/dev/null" WRONLY)
      /\ forall k, 3 <= k < 32 -> k <> fst fds -> snd r k = None).
Proof.
  intros Hn Hnull. cbv zeta. split.
  - intros Ho H0 H2. unfold child. cbv zeta.
    change (pipefd fds (1 - 0)) with (snd fds). change (1 - 0) with 1.
    set (e := snd fds) in *. set (t1 := close_all_but e t).
    assert (E1 : t1 e = Some o)
      by (unfold t1; now rewrite close_all_but_kept).
    unfold fd_dup2. rewrite E1. cbn [fst snd].
    change (1 <? 0) with false. change (0 =? 0) with true. cbv iota.
    set (t2 := fun j => if j =? 1 then Some o else t1 j).
    assert (L1 : lowest_free (nofile os) 0 t2 = Some 0).
    { apply lowest_free_found; [lia | | intros; lia].
      unfold t2. decide_tests. now apply close_all_but_low. }
    rewrite (fd_open_at os _ RDONLY t2 0 Hnull L1). cbn [snd].
    set (t3 := fun k => if k =? 0 then Some (opened "/dev/null" RDONLY)
                        else t2 k).
    assert (L2 : lowest_free (nofile os) 0 t3 = Some 2).
    { apply lowest_free_found; [lia | |].
      - unfold t3, t2. decide_tests. now apply close_all_but_low.
      - intros k Hk. assert (k = 0 \/ k = 1) as [->| ->] by lia;
          unfold t3, t2; decide_tests; discriminate. }
    rewrite (fd_open_at os _ WRONLY t3 2 Hnull L2).
    split; [destruct (exec_succeeds os); reflexivity|].
    assert (Htable : forall k,
               snd (if exec_succeeds os
                    then (child_exec command [command; m_filename],
                          snd (2, fun k => if k =? 2
                                           then Some (opened "/dev/null"
                                                        WRONLY)
                                           else t3 k))
                    else (child_exit 1,
                          snd (2, fun k => if k =? 2
                                           then Some (opened "/dev/null"
                                                        WRONLY)
                                           else t3 k))) k
               = if k =? 2 then Some (opened "/dev/null" WRONLY) else t3 k)
      by (intros k; destruct (exec_succeeds os); reflexivity).
    rewrite !Htable. unfold t3, t2.
    split; [decide_tests; reflexivity|].
    split; [decide_tests; reflexivity|].
    split; [decide_tests; reflexivity|].
    intros k Hk Hne. rewrite Htable. unfold t3, t2, t1.
    destruct (Z.eqb_spec k 2); [lia|]. destruct (Z.eqb_spec k 0); [lia|].
    destruct (Z.eqb_spec k 1); [lia|]. apply close_all_but_low; lia.
  - intros Ho H1 H2 Hfile. unfold child. cbv zeta.
    change (pipefd fds (1 - 1)) with (fst fds). change (1 - 1) with 0.
    set (e := fst fds) in *. set (t1 := close_all_but e t).
    assert (E1 : t1 e = Some o)
      by (unfold t1; now rewrite close_all_but_kept).
    unfold fd_dup2. rewrite E1. cbn [fst snd].
    change (0 <? 0) with false. change (1 =? 0) with false. cbv iota.
    set (t2 := fun j => if j =? 0 then Some o else t1 j).
    assert (L1 : lowest_free (nofile os) 0 t2 = Some 1).
    { apply lowest_free_found; [lia | |].
      - unfold t2. decide_tests. now apply close_all_but_low.
      - intros k Hk. assert (k = 0) as -> by lia. unfold t2.
        decide_tests. discriminate. }
    rewrite (fd_open_at os _ WRONLY_TRUNC_CREAT t2 1 Hfile L1).
    cbn [fst snd]. change (negb (1 =? 1)) with false. cbv iota.
    set (t3 := fun k => if k =? 1
                        then Some (opened m_filename WRONLY_TRUNC_CREAT)
                        else t2 k).
    assert (L2 : lowest_free (nofile os) 0 t3 = Some 2).
    { apply lowest_free_found; [lia | |].
      - unfold t3, t2. decide_tests. now apply close_all_but_low.
      - intros k Hk. assert (k = 0 \/ k = 1) as [->| ->] by lia;
          unfold t3, t2; decide_tests; discriminate. }
    rewrite (fd_open_at os _ WRONLY t3 2 Hnull L2).
    split; [destruct (exec_succeeds os); reflexivity|].
    assert (Htable : forall k,
               snd (if exec_succeeds os
                    then (child_exec command [command],
                          snd (2, fun k => if k =? 2
                                           then Some (opened "/dev/null"
                                                        WRONLY)
                                           else t3 k))
                    else (child_exit 1,
                          snd (2, fun k => if k =? 2
                                           then Some (opened "/dev/null"
                                                        WRONLY)
                                           else t3 k))) k
               = if k =? 2 then Some (opened "/dev/null" WRONLY) else t3 k)
      by (intros k; destruct (exec_succeeds os); reflexivity).
    rewrite !Htable. unfold t3, t2.
    split; [decide_tests; reflexivity|].
    split; [decide_tests; reflexivity|].
    split; [decide_tests; reflexivity|].
    intros k Hk Hne. rewrite Htable. unfold t3, t2, t1.
    destruct (Z.eqb_spec k 2); [lia|]. destruct (Z.eqb_spec k 1); [lia|].
    destruct (Z.eqb_spec k 0); [lia|]. apply close_all_but_low; lia.
Qed.

(** X12: the standard streams of the child.  When the child's end of the
    pipe is open under a number other than 0 and 2 (for reading from the
    child), or other than 1 and 2 (for writing to it), the paths can be
    opened and three descriptors are allowed, the child ends with the pipe
    as its standard output (its standard input), "/dev/null" (the file of
    the handle, created or truncated) on the other of the two, "/dev/null"
    as standard error, and every other descriptor below 32 closed except
    the number that the pipe had.  It then runs the command, with the
    file name as its argument only when the parent reads; when the
    command cannot be run, it exits with code 1. *)
Theorem child_standard_streams os m_filename command fds t o :
  (3 <= nofile os)%nat ->
  can_open os "/dev/null" = true ->
  let ending argv := if exec_succeeds os then child_exec command argv
                     else child_exit 1 in
  (t (snd fds) = Some o -> snd fds <> 0 -> snd fds <> 2 ->
   let r := child os m_filename command 0 fds t in
   fst r = ending [command; m_filename]
   /\ snd r 0 = Some (opened "/dev/null" RDONLY)
   /\ snd r 1 = Some o
   /\ snd r 2 = Some (opened "/dev/null" WRONLY)
   /\ forall k, 3 <= k < 32 -> k <> snd fds -> snd r k = None)
  /\ (t (fst fds) = Some o -> fst fds <> 1 -> fst fds <> 2 ->
      can_open os m_filename = true ->
      let r := child os m_filename command 1 fds t in
      fst r = ending [command]
      /\ snd r 0 = Some o
      /\ snd r 1 = Some (opened m_filename WRONLY_TRUNC_CREAT)
      /\ snd r 2 = Some (opened "/dev/null" WRONLY)
      /\ forall k, 3 <= k < 32 -> k <> fst fds -> snd r k = None).
Proof. exact (child_streams os m_filename command fds t o). Qed.

Lemma child_standard_streams_witness :
  let os := mkChildAnswers (fun _ => true) true 64 in
  let parent i := (0 <=? i) && (i <=? 4) in
  let r := child os "planet.osm.gz" "gzip" 1 (3, 4) (inherited parent) in
  fst r = child_exec "gzip" ["gzip"%string]
  /\ snd r 0 = Some (of_parent 3)
  /\ snd r 1 = Some (opened "planet.osm.gz" WRONLY_TRUNC_CREAT)
  /\ snd r 2 = Some (opened "/dev/null" WRONLY)
  /\ snd r 3 = Some (of_parent 3)
  /\ snd r 4 = None.
Proof.
  intros os parent r.
  assert (Hn : (3 <= nofile os)%nat) by (cbn; lia).
  destruct (proj2 (child_standard_streams os "planet.osm.gz"%string
                     "gzip"%string (3, 4) (inherited parent) (of_parent 3)
                     Hn eq_refl)
              eq_refl ltac:(discriminate) ltac:(discriminate) eq_refl)
    as (E & E0 & E1 & E2 & Erest).
  split; [exact E|]. split; [exact E0|]. split; [exact E1|].
  split; [exact E2|]. split; [vm_compute; reflexivity|].
  apply Erest; [lia | discriminate].
Defined.



End ChildFacts.


(** ** More facts about the XML writer *)

Module XMLExtras.
Import File XMLOut Spec Words XMLFacts.
Local Open Scope list_scope.

Section Writer.
Context `{TextWriter} `{Names}.

(** *** Write errors *)

Lemma run_calls_outcome l : forall w,
  run_calls l w
  = (if Nat.eqb (List.length (accepted (xml_calls w) l)) (List.length l)
     then Ok tt else Throw XMLWriteError,
     add_calls (accepted (xml_calls w) l) w).
Proof.
  induction l as [|c l IH]; intros w.
  - cbn. now rewrite add_calls_nil.
  - rewrite run_calls_cons. cbn [accepted].
    destruct (returns_error (xml_calls w) c).
    + cbn. now rewrite add_calls_nil.
    + rewrite IH. cbn [List.length Nat.eqb xml_calls add_call].
      now rewrite add_call_add_calls, add_calls_add_calls.
Qed.

Lemma accepted_app done l1 l2 :
  accepted done (l1 ++ l2)
  = accepted done l1
    ++ (if Nat.eqb (List.length (accepted done l1)) (List.length l1)
        then accepted (done ++ l1) l2 else []).
Proof.
  revert done. induction l1 as [|c l1 IH]; intros done.
  - cbn. now rewrite app_nil_r.
  - cbn [app accepted]. destruct (returns_error done c); [reflexivity|].
    cbn [app List.length Nat.eqb]. rewrite IH, <- app_assoc. reflexivity.
Qed.

Lemma accepted_length done l :
  List.length (accepted done l) <= List.length l.
Proof.
  revert done. induction l as [|c l IH]; intros done; cbn; [lia|].
  destruct (returns_error done c); cbn; [lia|].
  specialize (IH (done ++ [c])). lia.
Qed.

Lemma run_calls_set_last_op op l : forall w,
  run_calls l (set_last_op op w)
  = (fst (run_calls l w), set_last_op op (snd (run_calls l w))).
Proof.
  induction l as [|c l IH]; intros w; [reflexivity|].
  rewrite !run_calls_cons. cbn [xml_calls set_last_op].
  destruct (returns_error (xml_calls w) c); [reflexivity|].
  apply (IH (add_call c w)).
Qed.

Lemma accepted_stop l : forall done,
  accepted done l = l
  \/ exists c rest,
       l = accepted done l ++ c :: rest
       /\ returns_error (done ++ accepted done l) c = true.
Proof.
  induction l as [|c l IH]; intros done; [now left|].
  cbn [accepted]. destruct (returns_error done c) eqn:Ec.
  - right. exists c, l. rewrite app_nil_r. now split.
  - destruct (IH (done ++ [c])) as [E|(c' & rest & E & Hc')].
    + left. now rewrite E.
    + right. exists c', rest. split.
      * cbn [app]. now rewrite <- E.
      * now rewrite <- app_assoc in Hc'.
Qed.

Lemma accepted_all done l :
  accepted done l = l ->
  Nat.eqb (List.length (accepted done l)) (List.length l) = true.
Proof. intros ->. apply Nat.eqb_refl. Qed.

Lemma accepted_some done l c rest :
  l = accepted done l ++ c :: rest ->
  Nat.eqb (List.length (accepted done l)) (List.length l) = false.
Proof.
  intros E. apply Nat.eqb_neq. intros El.
  apply (f_equal (@List.length _)) in E.
  rewrite length_app in E. cbn in E. lia.
Qed.

Lemma accepted_full done l :
  List.length (accepted done l) = List.length l -> accepted done l = l.
Proof.
  intros El. destruct (accepted_stop l done) as [E|(c & rest & E & _)];
    [exact E|].
  apply accepted_some in E. apply Nat.eqb_neq in E. contradiction.
Qed.

Lemma eqb_add_l a x y : Nat.eqb (a + x) (a + y) = Nat.eqb x y.
Proof. induction a as [|a IH]; [reflexivity | exact IH]. Qed.

Lemma transition_then_script op l w :
  let r := bind (open_close_op_tag (tracked_char op))
             (fun _ => run_calls l) w in
  let script := transition_calls (m_last_op w) op ++ l in
  fst r
  = (if Nat.eqb (List.length (accepted (xml_calls w) script))
                (List.length script)
     then Ok tt else Throw XMLWriteError)
  /\ xml_calls (snd r) = xml_calls w ++ accepted (xml_calls w) script
  /\ m_file (snd r) = m_file w
  /\ m_generator (snd r) = m_generator w.
Proof.
  cbv zeta. unfold bind. rewrite open_close_op_tag_cases.
  unfold transition_calls.
  destruct (Ascii.eqb (tracked_char op) (m_last_op w)).
  - rewrite run_calls_outcome. cbn [app fst snd]. repeat split.
  - unfold bind, modify. rewrite run_calls_outcome, accepted_app.
    pose proof (accepted_length (xml_calls w)
                  (op_tag_calls (m_last_op w) op)) as Hle.
    destruct (Nat.eqb_spec
                (List.length (accepted (xml_calls w)
                                (op_tag_calls (m_last_op w) op)))
                (List.length (op_tag_calls (m_last_op w) op))) as [E|E].
    + rewrite run_calls_set_last_op, run_calls_outcome.
      cbn [fst snd xml_calls add_calls set_last_op m_file m_generator].
      rewrite (accepted_full _ _ E), !length_app, eqb_add_l, app_assoc.
      repeat split.
    + cbn [fst snd xml_calls add_calls m_file m_generator].
      rewrite app_nil_r.
      destruct (Nat.eqb_spec
                  (List.length (accepted (xml_calls w)
                                  (op_tag_calls (m_last_op w) op)))
                  (List.length (op_tag_calls (m_last_op w) op ++ l)))
        as [E'|_]; [|repeat split].
      rewrite length_app in E'. lia.
Qed.

(** The calls and the result of [emit], for every answer of the text
    writer. *)
Lemma emit_outcome i w :
  fst (emit i w)
  = (if Nat.eqb (List.length (accepted (xml_calls w) (emit_calls w i)))
                (List.length (emit_calls w i))
     then Ok tt else Throw XMLWriteError)
  /\ xml_calls (snd (emit i w))
     = xml_calls w ++ accepted (xml_calls w) (emit_calls w i)
  /\ m_file (snd (emit i w)) = m_file w
  /\ m_generator (snd (emit i w)) = m_generator w.
Proof.
  rewrite emit_guarded. unfold emit_calls.
  destruct (FileType_eqb (m_type (this (m_file w))) Change); cbn [when].
  - apply (transition_then_script
             (Some (inferred_operation (item_object i)))).
  - unfold bind, ret. rewrite run_calls_outcome. cbn [app fst snd].
    repeat split.
Qed.

(** X13: writing an item makes the calls of its script (the transition of
    a change file, then the element) in order up to the first call that
    the text writer rejects.  When none is rejected it returns; otherwise
    it raises the write error at that call and makes no further call.
    The file handle is not touched.  [set_meta] does the same with its
    own script. *)
Theorem writing_stops_at_the_first_error i meta w :
  (let script := emit_calls w i in
   let made := accepted (xml_calls w) script in
   xml_calls (snd (emit i w)) = xml_calls w ++ made
   /\ m_file (snd (emit i w)) = m_file w
   /\ ((made = script /\ fst (emit i w) = Ok tt)
       \/ (exists c rest,
              script = made ++ c :: rest
              /\ returns_error (xml_calls w ++ made) c = true
              /\ fst (emit i w) = Throw XMLWriteError)))
  /\ (let script := set_meta_calls (this (m_file w)) (m_generator w) meta in
      let made := accepted (xml_calls w) script in
      snd (set_meta meta w) = add_calls made w
      /\ ((made = script /\ fst (set_meta meta w) = Ok tt)
          \/ (exists c rest,
                 script = made ++ c :: rest
                 /\ returns_error (xml_calls w ++ made) c = true
                 /\ fst (set_meta meta w) = Throw XMLWriteError))).
Proof.
  cbv zeta. split.
  - destruct (emit_outcome i w) as (Eres & Ecalls & Efile & _).
    split; [exact Ecalls|]. split; [exact Efile|].
    destruct (accepted_stop (emit_calls w i) (xml_calls w))
      as [E|(c & rest & E & Hc)].
    + left. split; [exact E|]. now rewrite Eres, (accepted_all _ _ E).
    + right. exists c, rest. split; [exact E|]. split; [exact Hc|].
      now rewrite Eres, (accepted_some _ _ _ _ E).
  - rewrite (proj1 (set_meta_scripted meta)), run_calls_outcome.
    cbn [fst snd]. split; [reflexivity|].
    destruct (accepted_stop
                (set_meta_calls (this (m_file w)) (m_generator w) meta)
                (xml_calls w)) as [E|(c & rest & E & Hc)].
    + left. split; [exact E|]. now rewrite (accepted_all _ _ E).
    + right. exists c, rest. split; [exact E|]. split; [exact Hc|].
      now rewrite (accepted_some _ _ _ _ E).
Qed.

(** *** The items of a file *)

Lemma handle_collection_ok items : forall w w',
  handle_collection items w = (Ok tt, w') ->
  w' = set_last_op (last_operation (this (m_file w)) (m_last_op w) items)
         (add_calls
            (collection_calls (this (m_file w)) (m_last_op w) items) w).
Proof.
  induction items as [|i items IH]; intros w w' E.
  - injection E as <-. cbn. now rewrite add_calls_nil, set_last_op_same.
  - unfold handle_collection in E. cbn [for_each] in E.
    apply bind_ok in E as ([] & w1 & E1 & E).
    apply emit_ok in E1. apply IH in E. subst w'.
    cbn [collection_calls last_operation].
    destruct (FileType_eqb (m_type (this (m_file w))) Change); subst w1;
      cbn [m_file m_last_op set_last_op add_calls m_generator xml_calls];
      unfold set_last_op, add_calls;
      cbn [m_file m_last_op m_generator xml_calls];
      rewrite <- ?app_assoc; reflexivity.
Qed.

Lemma last_operation_other f last items :
  FileType_eqb (m_type f) Change = false ->
  last_operation f last items = last
  /\ collection_calls f last items = flat_map (item_calls f) items.
Proof.
  intros Hk. revert last.
  induction items as [|i items IH]; intros last; [now split|].
  cbn [last_operation collection_calls flat_map]. rewrite Hk.
  destruct (IH last) as [-> ->]. now split.
Qed.

Lemma last_operation_change f last items i :
  FileType_eqb (m_type f) Change = true ->
  last_operation f last (items ++ [i])
  = op_char (inferred_operation (item_object i)).
Proof.
  intros Hk. revert last.
  induction items as [|j items IH]; intros last;
    cbn [app last_operation]; rewrite Hk; [reflexivity | apply IH].
Qed.

Lemma last_operation_tracked f items : forall t,
  exists t', last_operation f (tracked_char t) items = tracked_char t'.
Proof.
  induction items as [|i items IH]; intros t; [now exists t|].
  cbn [last_operation].
  destruct (FileType_eqb (m_type f) Change); [|apply IH].
  apply (IH (Some (inferred_operation (item_object i)))).
Qed.

(** *** Open elements *)

Lemma open_elements_app l1 : forall stack l2,
  open_elements stack (l1 ++ l2)
  = match open_elements stack l1 with
    | Some stack' => open_elements stack' l2
    | None => None
    end.
Proof.
  induction l1 as [|c l1 IH]; intros stack l2; [reflexivity|].
  destruct c; cbn [app open_elements]; try apply IH.
  destruct stack; [reflexivity | apply IH].
Qed.

Lemma open_elements_attributes l stack :
  forallb is_attribute l = true -> open_elements stack l = Some stack.
Proof.
  induction l as [|c l IH]; [reflexivity|].
  destruct c; cbn; try discriminate; exact IH.
Qed.

Lemma open_elements_leaves {A} (leaf : A -> list XmlCall) xs stack :
  (forall x st, open_elements st (leaf x) = Some st) ->
  open_elements stack (flat_map leaf xs) = Some stack.
Proof.
  intros Hleaf. induction xs as [|x xs IH]; [reflexivity|].
  cbn [flat_map]. now rewrite open_elements_app, Hleaf.
Qed.

(** The element of an item is closed when it has been written. *)
Lemma open_elements_item f i stack :
  open_elements stack (item_calls f i) = Some stack.
Proof.
  assert (Htags : forall st,
             open_elements st (flat_map tag_calls (tags (item_object i)))
             = Some st)
    by (intros st; apply open_elements_leaves; reflexivity).
  unfold item_calls, item_children. cbn [open_elements].
  rewrite open_elements_app,
    (open_elements_attributes _ _ (item_attributes_are_attributes f i)).
  destruct i as [n|y|r]; cbn [app].
  - now rewrite open_elements_app, Htags.
  - rewrite <- app_assoc, open_elements_app,
      (open_elements_leaves nd_calls) by reflexivity.
    now rewrite open_elements_app, Htags.
  - rewrite <- app_assoc, open_elements_app,
      (open_elements_leaves member_calls) by reflexivity.
    now rewrite open_elements_app, Htags.
Qed.

Lemma open_elements_transition t op stack :
  open_elements (open_wrapper (tracked_char t) ++ stack)
    (transition_calls (tracked_char t) op)
  = Some (open_wrapper (tracked_char op) ++ stack).
Proof.
  destruct t as [[]|], op as [[]|]; reflexivity.
Qed.

Lemma open_elements_collection f items : forall t stack,
  open_elements (open_wrapper (tracked_char t) ++ stack)
    (collection_calls f (tracked_char t) items)
  = Some (open_wrapper (last_operation f (tracked_char t) items) ++ stack).
Proof.
  induction items as [|i items IH]; intros t stack; [reflexivity|].
  cbn [collection_calls last_operation].
  destruct (FileType_eqb (m_type f) Change).
  - rewrite open_elements_app,
      (open_elements_transition t
         (Some (inferred_operation (item_object i)))).
    cbv beta iota. rewrite open_elements_app, open_elements_item.
    apply (IH (Some (inferred_operation (item_object i)))).
  - rewrite open_elements_app, open_elements_item. apply IH.
Qed.

Lemma open_elements_set_meta f generator meta :
  open_elements [] (set_meta_calls f generator meta) = Some [root_name f].
Proof.
  unfold set_meta_calls, root_name.
  destruct (FileType_eqb (m_type f) Change), (bounds_defined (bounds meta));
    reflexivity.
Qed.

(** X14: while a document is written, the tracked operation says which
    elements are open: after [set_meta] and any items, the open elements
    are the root, and inside it the wrapper named by the tracked
    operation if that is not 0.  In a change file the tracked operation
    is the operation of the last item; in other files it stays 0, so
    that only the root is open. *)
Theorem tracked_operation_is_the_open_wrapper meta items p generator w' :
  bind (set_meta meta) (fun _ => handle_collection items)
    (mkXMLOutput p generator [] zero) = (Ok tt, w') ->
  open_elements [] (xml_calls w')
  = Some (open_wrapper (m_last_op w') ++ [root_name (this p)])
  /\ (m_type (this p) <> Change -> m_last_op w' = zero)
  /\ (m_type (this p) = Change ->
      forall before i, items = before ++ [i] ->
        m_last_op w' = op_char (inferred_operation (item_object i))).
Proof.
  intros E. apply bind_ok in E as ([] & w1 & E1 & E).
  rewrite (proj1 (set_meta_scripted meta)) in E1.
  apply run_calls_ok in E1. subst w1.
  apply handle_collection_ok in E. subst w'.
  cbn [m_file m_last_op m_generator xml_calls add_calls set_last_op app].
  split; [|split].
  - rewrite open_elements_app, open_elements_set_meta.
    apply (open_elements_collection (this p) items None [root_name (this p)]).
  - intros Hk.
    apply (last_operation_other (this p) zero items).
    destruct (FileFacts.FileType_eqb_spec (m_type (this p)) Change);
      [contradiction | reflexivity].
  - intros Hk before i ->.
    apply last_operation_change. now rewrite Hk.
Qed.

End Writer.

Lemma tracked_operation_is_the_open_wrapper_witness :
  let w := Examples.writer_on Change in
  let items := firstn 3 Examples.five_items in
  let w' := snd (bind (@set_meta Examples.reliable_writer Examples.no_bounds)
                   (fun _ => @handle_collection Examples.reliable_writer
                               Examples.plain_names items) w) in
  m_last_op w' = "m"%char
  /\ open_elements [] (xml_calls w') = Some ["modify"; "osmChange"]%string.
Proof.
  intros w items w'.
  assert (E : bind (@set_meta Examples.reliable_writer Examples.no_bounds)
                (fun _ => @handle_collection Examples.reliable_writer
                            Examples.plain_names items)
                (mkXMLOutput (fresh (mkOSMFile Change XML "planet" (-1) 0))
                   "osmium" [] zero)
              = (Ok tt, w')) by (vm_compute; reflexivity).
  destruct (@tracked_operation_is_the_open_wrapper Examples.reliable_writer
              Examples.plain_names Examples.no_bounds items _ _ w' E)
    as (Hopen & _ & Hlast).
  assert (Hop : m_last_op w' = "m"%char).
  { refine (Hlast eq_refl (firstn 2 Examples.five_items) _ eq_refl). }
  split; [exact Hop|]. rewrite Hopen, Hop. reflexivity.
Defined.

Section Documents.
Context `{TextWriter} `{Names}.

(** *** Whole documents of any kind *)

Lemma document_calls meta items os w w' :
  document meta items os w = (Ok tt, w') ->
  let f := this (m_file w) in
  let last := last_operation f (m_last_op w) items in
  xml_calls w'
  = xml_calls w
    ++ set_meta_calls f (m_generator w) meta
    ++ collection_calls f (m_last_op w) items
    ++ closing_calls f last ++ [FreeTextWriter]
  /\ m_last_op w' = (if FileType_eqb (m_type f) Change then zero else last)
  /\ (fst (File.close os (m_file w)), m_file w')
     = (Ok tt, snd (File.close os (m_file w))).
Proof.
  intros E. cbv zeta. unfold document in E.
  apply bind_ok in E as ([] & w1 & E1 & E).
  rewrite (proj1 (set_meta_scripted meta)) in E1.
  apply run_calls_ok in E1. subst w1.
  apply bind_ok in E as ([] & w2 & E2 & E).
  apply handle_collection_ok in E2.
  cbn [m_file m_last_op m_generator add_calls] in E2.
  unfold XMLOut.close in E.
  apply bind_ok in E as (f & w2' & Ef & E).
  unfold file, reads in Ef. injection Ef as <- <-.
  apply bind_ok in E as ([] & w3 & E3 & E).
  apply bind_ok in E as ([] & w4 & E4 & E).
  apply xml_ok in E4.
  apply bind_ok in E as ([] & w5 & E5 & E).
  unfold free_text_writer, modify in E5. injection E5 as E5.
  unfold on_file in E. injection E as Eres E.
  assert (Ew3 : w3 = if FileType_eqb (m_type (this (m_file w))) Change
                     then set_last_op zero
                            (add_calls
                               (transition_calls (m_last_op w2) None) w2)
                     else w2).
  { subst w2. cbn [m_file set_last_op add_calls] in E3.
    destruct (FileType_eqb (m_type (this (m_file w))) Change);
      cbn [when] in E3.
    - now apply (open_close_op_tag_ok None) in E3.
    - now injection E3 as <-. }
  unfold closing_calls.
  destruct (FileType_eqb (m_type (this (m_file w))) Change);
    subst w' w5 w4 w3 w2;
    cbn [m_last_op xml_calls set_last_op add_call add_calls m_file
           m_generator] in *;
    rewrite <- !app_assoc; cbn [app];
    (split; [reflexivity|]); (split; [reflexivity|]);
    now rewrite Eres.
Qed.

(** X15: a document of any kind that was written and closed is well
    nested: every element that was opened has been closed, and no element
    is closed that was not open.  In a file that is not a change file the
    calls are those of [set_meta], the elements of the items in their
    order and the closing of the root; no wrapper element is written and
    the tracked operation stays 0.  The file handle has been closed by
    then, without an error. *)
Theorem documents_are_well_nested meta items os p generator w' :
  document meta items os (mkXMLOutput p generator [] zero) = (Ok tt, w') ->
  open_elements [] (xml_calls w') = Some []
  /\ (m_type (this p) <> Change ->
      xml_calls w'
      = set_meta_calls (this p) generator meta
        ++ flat_map (item_calls (this p)) items
        ++ [EndElement; FreeTextWriter]
      /\ wrappers (opened_elements (xml_calls w')) = []
      /\ m_last_op w' = zero)
  /\ File.close os p = (Ok tt, m_file w').
Proof.
  intros E. apply document_calls in E. cbv zeta in E.
  cbn [m_file m_generator m_last_op xml_calls app] in E.
  destruct E as (Ecalls & Elast & Eclose).
  split; [|split].
  - pose proof (open_elements_collection (this p) items None
                  [root_name (this p)]) as Hc.
    change (open_elements [root_name (this p)]
              (collection_calls (this p) zero items)
            = Some (open_wrapper (last_operation (this p) zero items)
                    ++ [root_name (this p)])) in Hc.
    rewrite Ecalls, open_elements_app, open_elements_set_meta.
    cbv beta iota. rewrite open_elements_app, Hc. cbv beta iota.
    destruct (last_operation_tracked (this p) items None) as [t' Et'].
    cbn [tracked_char] in Et'. rewrite Et'.
    unfold closing_calls.
    destruct (FileFacts.FileType_eqb_spec (m_type (this p)) Change)
      as [Hk|Hk].
    + rewrite <- app_assoc, open_elements_app.
      rewrite (open_elements_transition t' None). reflexivity.
    + assert (Hz : tracked_char t' = zero).
      { rewrite <- Et'. apply last_operation_other.
        destruct (FileFacts.FileType_eqb_spec (m_type (this p)) Change);
          [contradiction | reflexivity]. }
      rewrite Hz. reflexivity.
  - intros Hk.
    assert (Hb : FileType_eqb (m_type (this p)) Change = false)
      by (destruct (FileFacts.FileType_eqb_spec (m_type (this p)) Change);
          [contradiction | reflexivity]).
    destruct (last_operation_other (this p) zero items Hb) as [El Ec].
    rewrite Hb, El in Elast. unfold closing_calls in Ecalls.
    rewrite Hb, Ec in Ecalls. cbn [app] in Ecalls.
    split; [exact Ecalls|]. split; [|exact Elast].
    rewrite Ecalls. unfold wrappers.
    rewrite !opened_elements_app, !filter_app.
    fold (wrappers (opened_elements
                      (set_meta_calls (this p) generator meta))).
    fold (wrappers (opened_elements
                      (flat_map (item_calls (this p)) items))).
    rewrite set_meta_opened.
    rewrite (opened_flat_map_leaf (item_calls (this p)) items
               (opened_item (this p))).
    reflexivity.
  - injection Eclose as E1 E2. rewrite E2, <- E1. apply surjective_pairing.
Qed.

End Documents.

Lemma documents_are_well_nested_witness :
  let w' := snd (@document Examples.reliable_writer Examples.plain_names
                   Examples.no_bounds Examples.five_items Examples.quiet
                   (Examples.writer_on History)) in
  open_elements [] (xml_calls w') = Some []
  /\ opened_elements (xml_calls w')
     = ["osm"; "node"; "tag"; "way"; "nd"; "tag"; "node"; "tag";
        "relation"; "member"; "tag"; "node"; "tag"]%string.
Proof.
  intros w'.
  assert (E : @document Examples.reliable_writer Examples.plain_names
                Examples.no_bounds Examples.five_items Examples.quiet
                (mkXMLOutput (fresh (mkOSMFile History XML "planet" (-1) 0))
                   "osmium" [] zero)
              = (Ok tt, w')) by (vm_compute; reflexivity).
  split; [|vm_compute; reflexivity].
  exact (proj1 (@documents_are_well_nested Examples.reliable_writer
                  Examples.plain_names Examples.no_bounds
                  Examples.five_items Examples.quiet _ _ w' E)).
Defined.

Section Contents.
Context `{TextWriter} `{Names}.

(** *** Reading back what was written *)

Lemma emitted_emit i w w' :
  emit i w = (Ok tt, w') -> emitted w w' = emit_calls w i.
Proof.
  intros E. apply emit_ok in E. subst w'. unfold emit_calls.
  destruct (FileType_eqb (m_type (this (m_file w))) Change).
  - change (emitted w (set_last_op ?op (add_calls ?l w)))
      with (emitted w (add_calls l w)).
    apply emitted_add_calls.
  - apply emitted_add_calls.
Qed.

Lemma written_tags_skip l1 l2 :
  no_key l1 = true -> written_tags (l1 ++ l2) = written_tags l2.
Proof.
  unfold no_key. induction l1 as [|c l1 IH]; [reflexivity|].
  cbn [forallb app]. intros Hk. apply andb_prop in Hk as [Hc Hk].
  specialize (IH Hk).
  destruct c; cbn [written_tags]; try exact IH.
  apply negb_true_iff in Hc. rewrite Hc. cbn [andb].
  destruct (l1 ++ l2) as [|[] ?]; exact IH.
Qed.

Lemma written_tags_tags ts rest :
  written_tags (flat_map tag_calls ts ++ rest) = ts ++ written_tags rest.
Proof.
  induction ts as [|[k v] ts IH]; [reflexivity|].
  cbn [flat_map tag_calls app written_tags key value].
  change (("k" =? "k")%string && ("v" =? "v")%string) with true.
  cbv iota. now rewrite IH.
Qed.

Lemma written_refs_skip l1 l2 :
  no_nd l1 = true -> written_refs (l1 ++ l2) = written_refs l2.
Proof.
  unfold no_nd. induction l1 as [|c l1 IH]; [reflexivity|].
  cbn [forallb app]. intros Hk. apply andb_prop in Hk as [Hc Hk].
  specialize (IH Hk).
  destruct c; cbn [written_refs]; try exact IH.
  apply negb_true_iff in Hc. rewrite Hc. cbn [andb].
  destruct (l1 ++ l2) as [|[] ?]; try exact IH.
  destruct arg; exact IH.
Qed.

Lemma written_refs_nds ns rest :
  written_refs (flat_map nd_calls ns ++ rest)
  = map ref ns ++ written_refs rest.
Proof.
  induction ns as [|[z] ns IH]; [reflexivity|].
  cbn [flat_map nd_calls app written_refs ref map].
  change (("nd" =? "nd")%string && ("ref" =? "ref")%string) with true.
  cbv iota. now rewrite IH.
Qed.

Lemma forallb_flat_map {A B} (p : B -> bool) (leaf : A -> list B) xs :
  (forall x, forallb p (leaf x) = true) ->
  forallb p (flat_map leaf xs) = true.
Proof.
  intros Hleaf. induction xs as [|x xs IH]; [reflexivity|].
  cbn [flat_map]. now rewrite forallb_app, Hleaf, IH.
Qed.

Lemma transition_calls_plain last op :
  no_key (transition_calls last op) = true
  /\ no_nd (transition_calls last op) = true.
Proof.
  unfold transition_calls, op_tag_calls.
  destruct (Ascii.eqb (tracked_char op) last); [now split|].
  destruct (Ascii.eqb last zero); destruct op as [[]|]; now split.
Qed.

Lemma item_attributes_plain f i :
  no_key (item_attributes f i) = true /\ no_nd (item_attributes f i) = true.
Proof.
  unfold no_key, no_nd, item_attributes, meta_calls, location_calls.
  rewrite !forallb_app.
  destruct (version (item_object i) =? 0)%Z,
    (timestamp (item_object i) =? 0)%Z,
    (0 <? uid (item_object i))%Z,
    (changeset (item_object i) =? 0)%Z,
    (has_multiple_object_versions f
     && negb (FileType_eqb (m_type f) Change));
    destruct i as [n|y|r]; try destruct (defined (location n));
    split; reflexivity.
Qed.

(** X16: the element of an item that was written carries the tags of the
    object, all of them, once each and in their order; the element of a
    way carries the references of its nodes in their order, and no other
    element has node references. *)
Theorem tags_and_nodes_are_written_in_order i w w' :
  emit i w = (Ok tt, w') ->
  written_tags (emitted w w') = tags (item_object i)
  /\ written_refs (emitted w w')
     = match i with
       | a_way y => map ref (nodes y)
       | _ => []
       end.
Proof.
  intros E. rewrite (emitted_emit i w w' E). unfold emit_calls.
  set (prefix := if FileType_eqb (m_type (this (m_file w))) Change
                 then transition_calls (m_last_op w)
                        (Some (inferred_operation (item_object i)))
                 else []).
  assert (Hprefix : no_key prefix = true /\ no_nd prefix = true).
  { unfold prefix. destruct (FileType_eqb _ Change);
      [apply transition_calls_plain | now split]. }
  destruct Hprefix as [Hk Hn].
  destruct (item_attributes_plain (this (m_file w)) i) as [Ak An].
  assert (Htags_nd : forall ts,
             no_nd (flat_map tag_calls ts ++ [EndElement]) = true).
  { intros ts. unfold no_nd. rewrite forallb_app.
    rewrite (forallb_flat_map _ tag_calls) by reflexivity. reflexivity. }
  split.
  - rewrite (written_tags_skip prefix _ Hk).
    unfold item_calls, item_children. cbn [written_tags].
    rewrite <- !app_assoc, (written_tags_skip _ _ Ak).
    rewrite written_tags_skip.
    + rewrite written_tags_tags. cbn. apply app_nil_r.
    + destruct i as [n|y|r]; [reflexivity | |];
        apply forallb_flat_map; reflexivity.
  - rewrite (written_refs_skip prefix _ Hn).
    unfold item_calls, item_children.
    destruct i as [n|y|r]; cbn [element_name item_object app].
    + change (StartElement "node" :: ?l) with ([StartElement "node"] ++ l).
      rewrite written_refs_skip by reflexivity.
      rewrite (written_refs_skip _ _ An).
      rewrite <- (app_nil_r (flat_map tag_calls _ ++ [EndElement])).
      now rewrite written_refs_skip.
    + change (StartElement "way" :: ?l) with ([StartElement "way"] ++ l).
      rewrite written_refs_skip by reflexivity.
      rewrite (written_refs_skip _ _ An).
      rewrite <- app_assoc, written_refs_nds.
      rewrite <- (app_nil_r (flat_map tag_calls _ ++ [EndElement])).
      rewrite written_refs_skip by apply Htags_nd.
      cbn. apply app_nil_r.
    + change (StartElement "relation" :: ?l)
        with ([StartElement "relation"] ++ l).
      rewrite written_refs_skip by reflexivity.
      rewrite (written_refs_skip _ _ An).
      rewrite <- app_assoc, written_refs_skip
        by (apply forallb_flat_map; reflexivity).
      rewrite <- (app_nil_r (flat_map tag_calls _ ++ [EndElement])).
      now rewrite written_refs_skip.
Qed.

End Contents.

Lemma tags_and_nodes_are_written_in_order_witness :
  let w := Examples.writer_on Change in
  let y := mkWay (mkObject 5 2 0 7 "u" 9 true
                    [mkTag "highway" "path"; mkTag "name" "x"])
             [mkWayNode 3; mkWayNode 1; mkWayNode 3] in
  let w' := snd (@emit Examples.reliable_writer Examples.plain_names
                   (a_way y) w) in
  written_tags (emitted w w') = [mkTag "highway" "path"; mkTag "name" "x"]
  /\ written_refs (emitted w w') = [3; 1; 3]%Z.
Proof.
  intros w y w'.
  assert (E : @emit Examples.reliable_writer Examples.plain_names
                (a_way y) w = (Ok tt, w')) by (vm_compute; reflexivity).
  exact (@tags_and_nodes_are_written_in_order Examples.reliable_writer
           Examples.plain_names (a_way y) w w' E).
Defined.

Section Closing.
Context `{TextWriter}.

(** *** Errors of [close] *)

Lemma close_from_the_root os w :
  bind (xml EndElement)
    (fun _ => bind free_text_writer
                (fun _ => on_file (File.close os))) w
  = if returns_error (xml_calls w) EndElement then (Throw XMLWriteError, w)
    else (fst (File.close os (m_file w)),
          mkXMLOutput (snd (File.close os (m_file w))) (m_generator w)
            (xml_calls w ++ [EndElement; FreeTextWriter]) (m_last_op w)).
Proof.
  unfold bind, xml, free_text_writer, modify, on_file.
  destruct (returns_error (xml_calls w) EndElement); [reflexivity|].
  cbn [m_file m_generator xml_calls m_last_op add_call].
  now rewrite <- app_assoc.
Qed.

Lemma writer_close_cases os w :
  XMLOut.close os w
  = let from_root w1 :=
      if returns_error (xml_calls w1) EndElement
      then (Throw XMLWriteError, w1)
      else (fst (File.close os (m_file w1)),
            mkXMLOutput (snd (File.close os (m_file w1))) (m_generator w1)
              (xml_calls w1 ++ [EndElement; FreeTextWriter])
              (m_last_op w1)) in
    if FileType_eqb (m_type (this (m_file w))) Change then
      if Ascii.eqb zero (m_last_op w) then from_root w
      else if returns_error (xml_calls w) EndElement
           then (Throw XMLWriteError, w)
           else from_root (set_last_op zero (add_call EndElement w))
    else from_root w.
Proof.
  cbv zeta. unfold XMLOut.close. unfold bind at 1, file, reads.
  destruct (FileType_eqb (m_type (this (m_file w))) Change); cbn [when].
  - unfold bind at 1. change zero with (tracked_char None) at 1.
    rewrite open_close_op_tag_cases. unfold op_tag_calls.
    cbn [tracked_char]. rewrite (Ascii.eqb_sym (m_last_op w) zero).
    destruct (Ascii.eqb zero (m_last_op w)).
    + apply close_from_the_root.
    + cbn [app]. unfold bind at 1, modify. rewrite run_calls_cons.
      destruct (returns_error (xml_calls w) EndElement); [reflexivity|].
      cbn [run_calls for_each ret]. apply close_from_the_root.
  - unfold bind at 1, ret. apply close_from_the_root.
Qed.

(** X17: [close] of the writer first ends the document with its closing
    calls (the closing of the open wrapper of a change file, then the
    closing of the root).  When the text writer accepts them, the writer
    is freed and the file handle is closed, and the result is the result
    of closing the file handle: the error of a failed filter is raised
    after the whole document has been written.  When one of them is
    rejected, the write error is raised at that call: the text writer is
    not freed and the file handle is not closed. *)
Theorem close_of_the_writer os w :
  let f := this (m_file w) in
  let script := closing_calls f (m_last_op w) in
  let made := accepted (xml_calls w) script in
  (made = script ->
   XMLOut.close os w
   = (fst (File.close os (m_file w)),
      mkXMLOutput (snd (File.close os (m_file w))) (m_generator w)
        (xml_calls w ++ script ++ [FreeTextWriter])
        (if FileType_eqb (m_type f) Change then zero else m_last_op w)))
  /\ (made <> script ->
      fst (XMLOut.close os w) = Throw XMLWriteError
      /\ m_file (snd (XMLOut.close os w)) = m_file w
      /\ xml_calls (snd (XMLOut.close os w)) = xml_calls w ++ made).
Proof.
  cbv zeta. rewrite writer_close_cases. cbv zeta.
  unfold closing_calls, transition_calls, op_tag_calls.
  cbn [tracked_char]. rewrite (Ascii.eqb_sym (m_last_op w) zero).
  destruct (FileType_eqb (m_type (this (m_file w))) Change).
  - destruct (Ascii.eqb_spec zero (m_last_op w)) as [Ez|Ez];
      cbn [app accepted];
      destruct (returns_error (xml_calls w) EndElement).
    + split; [discriminate|]. intros _. cbn. now rewrite app_nil_r.
    + split; [|intros Hne; now contradiction Hne].
      intros _. cbn [app]. now rewrite <- Ez.
    + split; [discriminate|]. intros _. cbn. now rewrite app_nil_r.
    + cbn [xml_calls set_last_op add_call m_file m_generator m_last_op].
      destruct (returns_error (xml_calls w ++ [EndElement]) EndElement).
      * split; [discriminate|]. intros _. repeat split.
      * split; [|intros Hne; now contradiction Hne].
        intros _. now rewrite <- !app_assoc.
  - cbn [app accepted].
    destruct (returns_error (xml_calls w) EndElement).
    + split; [discriminate|]. intros _. cbn. now rewrite app_nil_r.
    + split; [|intros Hne; now contradiction Hne].
      intros _. reflexivity.
Qed.

End Closing.

Lemma close_of_the_writer_witness :
  let w := add_calls [StartElement "osm"]
             (mkXMLOutput (fresh Examples.gz_handle) "osmium" [] zero) in
  let r := @XMLOut.close Examples.reliable_writer Examples.exits_1 w in
  fst r = Throw subprocess_error
  /\ xml_calls (snd r) = [StartElement "osm"; EndElement; FreeTextWriter]
  /\ syscalls (m_file (snd r)) = [sys_close 5; sys_waitpid 1234].
Proof.
  intros w r.
  assert (E : @accepted Examples.reliable_writer (xml_calls w)
                (closing_calls (this (m_file w)) (m_last_op w))
              = closing_calls (this (m_file w)) (m_last_op w))
    by reflexivity.
  pose proof (proj1 (@close_of_the_writer Examples.reliable_writer
                       Examples.exits_1 w) E) as Er.
  fold r in Er. rewrite Er. repeat split.
Defined.

Section Identity.
Context `{TextWriter} `{Names}.

(** X19: the element of an item that was written has the "id" attribute
    with the id of the object as its first attribute; it has a "version"
    attribute exactly when the version is not 0 and a "timestamp"
    attribute exactly when the timestamp is not 0; a "visible" attribute,
    when there is one, says "true" for a visible object and "false"
    otherwise. *)
Theorem identity_attributes i w w' :
  emit i w = (Ok tt, w') ->
  let o := item_object i in
  let attrs := attributes_of (element_name i) (emitted w w') in
  hd_error attrs
  = Some (WriteFormatAttribute "id" ("%" ++ PRId64) (arg_int (id o)))
  /\ has_attribute "version" attrs = negb (version o =? 0)%Z
  /\ has_attribute "timestamp" attrs = negb (timestamp o =? 0)%Z
  /\ (has_attribute "visible" attrs = true ->
      In (WriteAttribute "visible" (if visible o then "true" else "false"))
         attrs).
Proof.
  intros E. cbv zeta. rewrite (emitted_attributes i w w' E).
  unfold item_attributes, meta_calls, location_calls.
  rewrite !has_attribute_app.
  split; [reflexivity|].
  destruct (version (item_object i) =? 0)%Z,
    (timestamp (item_object i) =? 0)%Z,
    (0 <? uid (item_object i))%Z,
    (changeset (item_object i) =? 0)%Z,
    (has_multiple_object_versions (this (m_file w))
     && negb (FileType_eqb (m_type (this (m_file w))) Change));
    destruct i as [n|y|r]; try destruct (defined (location n));
    (split; [reflexivity|]); (split; [reflexivity|]);
    cbn; intros Hv; try discriminate Hv; tauto.
Qed.

End Identity.

Lemma identity_attributes_witness :
  let w := Examples.writer_on History in
  let i := a_node (mkNode (Examples.object 3 false)
                     (mkLocation false 0 0)) in
  let w' := snd (@emit Examples.reliable_writer Examples.plain_names i w) in
  let attrs := attributes_of "node" (emitted w w') in
  has_attribute "visible" attrs = true
  /\ In (WriteAttribute "visible" "false") attrs.
Proof.
  intros w i w' attrs.
  assert (E : @emit Examples.reliable_writer Examples.plain_names i w
              = (Ok tt, w')) by (vm_compute; reflexivity).
  assert (Hv : has_attribute "visible" attrs = true)
    by (vm_compute; reflexivity).
  split; [exact Hv|].
  exact (proj2 (proj2 (proj2 (@identity_attributes Examples.reliable_writer
                                Examples.plain_names i w w' E))) Hv).
Defined.

End XMLExtras.
